(** * WeChatEmoCreator: history, timeline, compliance and export

    A shallow embedding of the editing / versioning / export core of the
    repository:

    - [Js]                 the ECMAScript built-ins the sources call
                           (Array.prototype.slice / splice / shift,
                           Number.prototype.toFixed, template-literal
                           number printing, truthiness);
    - [UseFrames]          src/composables/useFrames.ts;
    - [ComplianceChecker]  src/utils/complianceChecker.ts;
    - [UseCanvas]          src/composables/useCanvas.ts (history manager and
                           tool state machine);
    - [App]                the root component script (captureFrame,
                           exportEmoji).

    JavaScript numbers that the user can type (frame delays, byte sizes,
    pointer coordinates) are IEEE-754 doubles and are modelled by Rocq's
    primitive binary64 floats; array lengths and indices are [nat] / [Z]. *)

From Stdlib Require Import Floats.PrimFloat Floats.FloatOps Floats.SpecFloat.
From Stdlib Require Import Floats.FloatAxioms.
From Stdlib Require Import ZArith String Ascii List Bool Lia Permutation.
From Stdlib Require Import DecimalString.
Import ListNotations.

Set Implicit Arguments.

(* ===================================================================== *)
(** ** ECMAScript built-ins                                               *)
(* ===================================================================== *)

Module Js.

(** Relative array index, as slice and splice compute it: a negative index
    counts from the end, and the result is clamped to [0, len]. *)
Definition relative_index (len : nat) (i : Z) : nat :=
  if (i <? 0)%Z then Z.to_nat (Z.max (Z.of_nat len + i) 0)
  else Nat.min (Z.to_nat i) len.

(** [arr.slice(0, end)] *)
Definition slice0 {A : Type} (arr : list A) (e : Z) : list A :=
  firstn (relative_index (length arr) e) arr.

(** [arr.push(x)] *)
Definition push {A : Type} (arr : list A) (x : A) : list A := arr ++ [x].

(** [arr.shift()]: the array that remains. *)
Definition shift {A : Type} (arr : list A) : list A := tl arr.

(** [arr.splice(start, deleteCount, ...items)]: the removed elements and
    the array that remains. *)
Definition splice {A : Type} (arr : list A) (start deleteCount : Z)
  (items : list A) : list A * list A :=
  let len := length arr in
  let s := relative_index len start in
  let dc := Nat.min (Z.to_nat (Z.max deleteCount 0)) (len - s) in
  (firstn dc (skipn s arr), firstn s arr ++ items ++ skipn (s + dc) arr).

(** [arr.findIndex(p)], -1 when no element satisfies [p]. *)
Fixpoint findIndex_from {A : Type} (p : A -> bool) (arr : list A) (i : Z) : Z :=
  match arr with
  | [] => (-1)%Z
  | x :: rest => if p x then i else findIndex_from p rest (i + 1)%Z
  end.

Definition findIndex {A : Type} (p : A -> bool) (arr : list A) : Z :=
  findIndex_from p arr 0%Z.

(** [arr[i]]: [None] is [undefined]. *)
Definition index {A : Type} (arr : list A) (i : Z) : option A :=
  if (i <? 0)%Z then None else nth_error arr (Z.to_nat i).

(** [`${n}`] for an array length. *)
Definition nat_to_string (n : nat) : string :=
  NilZero.string_of_uint (Nat.to_uint n).

(** [`${z}`] for an integer-valued number. *)
Definition Z_to_string (z : Z) : string :=
  NilZero.string_of_int (Z.to_int z).

(** ToBoolean on a number: 0, -0 and NaN are falsy. *)
Definition truthy_number (x : float) : bool :=
  negb (PrimFloat.is_zero x || PrimFloat.is_nan x).

(** ToBoolean on a string: only the empty string is falsy. *)
Definition truthy_string (s : string) : bool :=
  match s with EmptyString => false | String _ _ => true end.

(** [Math.min(a, b)]: NaN if either is NaN, and -0 is below +0. *)
Definition Math_min (a b : float) : float :=
  if PrimFloat.is_nan a then a
  else if PrimFloat.is_nan b then b
  else if PrimFloat.ltb a b then a
  else if PrimFloat.ltb b a then b
  else if PrimFloat.get_sign a then a else b.

(** *** Number.prototype.toFixed

    ECMA-262, 21.1.3.3.  For a finite x below 10^21 the result prints the
    integer n for which n / 10^f - x is as close to zero as possible (the
    larger n on a tie), with a decimal point before the last f digits.  The
    double x is taken at its exact value m * 2^e. *)

(** The integer n of step 9.a for x = m * 2^e. *)
Definition toFixed_round (m : positive) (e : Z) (f : nat) : Z :=
  let num := (Z.pos m * 10 ^ Z.of_nat f)%Z in
  if (0 <=? e)%Z then (num * 2 ^ e)%Z
  else ((2 * num + 2 ^ (- e)) / (2 * 2 ^ (- e)))%Z.

Definition zeros (k : nat) : string := string_of_list_ascii (repeat "0"%char k).

(** Steps 9.b - 9.c: the digits of n with the point inserted. *)
Definition toFixed_digits (n : Z) (f : nat) : string :=
  let m := NilZero.string_of_uint (N.to_uint (Z.to_N n)) in
  match f with
  | O => m
  | S _ =>
      let k := String.length m in
      let m' := if (k <=? f)%nat then (zeros (f + 1 - k) ++ m)%string else m in
      let k' := String.length m' in
      (substring 0 (k' - f) m' ++ "." ++ substring (k' - f) f m')%string
  end.

(** Is m * 2^e at least 10^21 (step 8)? *)
Definition at_least_1e21 (m : positive) (e : Z) : bool :=
  if (0 <=? e)%Z then (10 ^ 21 <=? Z.pos m * 2 ^ e)%Z
  else (10 ^ 21 * 2 ^ (- e) <=? Z.pos m)%Z.

Section ToFixed.

(** Number::toString on a finite double of magnitude at least 10^21 (the
    exponent notation of step 8); no property below reaches it. *)
Variable Number_toString : float -> string.

Definition toFixed (x : float) (f : nat) : string :=
  match Prim2SF x with
  | S754_nan => "NaN"
  | S754_infinity s => if s then "-Infinity" else "Infinity"
  | S754_zero _ => toFixed_digits 0 f
  | S754_finite s m e =>
      let sgn := if s then "-"%string else ""%string in
      if at_least_1e21 m e then (sgn ++ Number_toString (PrimFloat.abs x))%string
      else (sgn ++ toFixed_digits (toFixed_round m e f) f)%string
  end.

End ToFixed.

End Js.

(* ===================================================================== *)
(** ** src/composables/useFrames.ts                                       *)
(* ===================================================================== *)

Module UseFrames.

Record Frame : Type := mkFrame {
  id : string;
  dataUrl : string;       (* PNG snapshot for display *)
  fabricJson : string;    (* serialized fabric canvas JSON for re-editing *)
  delay : float           (* animation delay in ms *)
}.

(** [`frame_${Date.now()}_${Math.random().toString(36).slice(2, 7)}`]:
    [now] is what Date.now() returned and [rnd] the base-36 rendering of
    what Math.random() returned. *)
Definition fresh_id (now : Z) (rnd : string) : string :=
  ("frame_" ++ Js.Z_to_string now ++ "_" ++ substring 2 5 rnd)%string.

(** [addFrame(dataUrl, fabricJson, delay = 100)]: the timeline after the
    push and the frame returned. *)
Definition addFrame (now : Z) (rnd : string) (dataUrl fabricJson : string)
  (delay : option float) (frames : list Frame) : list Frame * Frame :=
  let frame := {| id := fresh_id now rnd;
                  dataUrl := dataUrl;
                  fabricJson := fabricJson;
                  delay := match delay with Some d => d | None => 100%float end |} in
  (Js.push frames frame, frame).

Definition deleteFrame (i : string) (frames : list Frame) : list Frame :=
  filter (fun f => negb (String.eqb (id f) i)) frames.

Definition duplicateFrame (now : Z) (rnd : string) (i : string)
  (frames : list Frame) : list Frame :=
  let idx := Js.findIndex (fun f => String.eqb (id f) i) frames in
  if (idx =? -1)%Z then frames
  else
    match Js.index frames idx with
    | None => frames
    | Some original =>
        let copy := {| id := fresh_id now rnd;
                       dataUrl := dataUrl original;
                       fabricJson := fabricJson original;
                       delay := delay original |} in
        snd (Js.splice frames (idx + 1) 0 [copy])
    end.

(** [reorderFrames(fromIndex, toIndex)].  The working copy may receive
    [undefined] (here [None]) when [fromIndex] is outside the array: the
    destructuring [const [item] = list.splice(fromIndex, 1)] then binds
    [undefined], which the second splice inserts. *)
Definition reorderFrames (fromIndex toIndex : Z) (frames : list Frame)
  : list (option Frame) :=
  if (fromIndex =? toIndex)%Z then map Some frames
  else
    let list := map Some frames in
    let '(removed, list1) := Js.splice list fromIndex 1 [] in
    let item := match removed with x :: _ => x | [] => None end in
    snd (Js.splice list1 toIndex 0 [item]).

(** [updateDelay(id, delay)]: [find] returns the first match, which is
    updated in place. *)
Fixpoint updateDelay (i : string) (d : float) (frames : list Frame) : list Frame :=
  match frames with
  | [] => []
  | f :: rest =>
      if String.eqb (id f) i
      then {| id := id f; dataUrl := dataUrl f; fabricJson := fabricJson f; delay := d |} :: rest
      else f :: updateDelay i d rest
  end.

Definition setAllDelays (d : float) (frames : list Frame) : list Frame :=
  map (fun f => {| id := id f; dataUrl := dataUrl f; fabricJson := fabricJson f; delay := d |}) frames.

Definition clearFrames (frames : list Frame) : list Frame := [].

End UseFrames.

(* ===================================================================== *)
(** ** src/utils/complianceChecker.ts                                     *)
(* ===================================================================== *)

Module ComplianceChecker.

Import UseFrames.

Record ComplianceResult : Type := mkResult {
  valid : bool;
  warnings : list string
}.

Section Checker.

Variable Number_toString : float -> string.

Definition totalDurationMs (frames : list Frame) : float :=
  fold_left (fun sum f => (sum + delay f)%float) frames 0%float.

Definition frames_warning (frames : list Frame) : string :=
  ("Too many frames (" ++ Js.nat_to_string (length frames)
   ++ "/10). WeChat allows max 10 frames.")%string.

Definition duration_warning (total : float) : string :=
  ("Total animation duration " ++ Js.toFixed Number_toString (total / 1000)%float 1
   ++ "s exceeds 30s limit.")%string.

Definition size_warning (bytes : float) : string :=
  ("Estimated file size " ++ Js.toFixed Number_toString (bytes / 1024)%float 0
   ++ "KB exceeds WeChat's 500KB limit.")%string.

(** The three guards of checkCompliance. *)
Definition too_many_frames (frames : list Frame) : bool :=
  (10 <? length frames)%nat.

Definition too_long (frames : list Frame) : bool :=
  PrimFloat.ltb 30000%float (totalDurationMs frames).

Definition too_big (estimatedFileSizeBytes : option float) : bool :=
  match estimatedFileSizeBytes with
  | None => false
  | Some b => Js.truthy_number b && PrimFloat.ltb (500 * 1024)%float b
  end.

Definition checkCompliance (frames : list Frame)
  (estimatedFileSizeBytes : option float) : ComplianceResult :=
  let warnings := [] in
  let warnings :=
    if too_many_frames frames then Js.push warnings (frames_warning frames)
    else warnings in
  let total := totalDurationMs frames in
  let warnings :=
    if too_long frames then Js.push warnings (duration_warning total)
    else warnings in
  let warnings :=
    match estimatedFileSizeBytes with
    | Some b =>
        if too_big estimatedFileSizeBytes then Js.push warnings (size_warning b)
        else warnings
    | None => warnings
    end in
  {| valid := (length warnings =? 0)%nat; warnings := warnings |}.

End Checker.

End ComplianceChecker.

(* ===================================================================== *)
(** ** The fabric canvas, as the composable uses it                        *)
(* ===================================================================== *)

Module Fabric.

(** A reference to a fabric object (JavaScript object identity). *)
Definition ObjRef : Type := nat.

Inductive ObjectKind : Type := Rect | Ellipse | IText | Path | FabricImage.

(** The properties of a fabric object that the composable reads or sets. *)
Record Object : Type := mkObject {
  oref : ObjRef;
  kind : ObjectKind;
  left : float;
  top : float;
  width : float;
  height : float;
  rx : float;
  ry : float;
  fill : string;
  stroke : string;
  strokeWidth : float;
  selectable : bool;
  text : string;
  fontFamily : string;
  fontSize : float;
  (* is the composable's 'editing:exited' handler subscribed on it? *)
  on_editing_exited : bool
}.

Record Brush : Type := mkBrush {
  color : string;
  brush_width : float
}.

(** The canvas.  [H] is the type of the pointer listeners registered with
    [canvas.on('mouse:...')]. *)
Record Canvas (H : Type) : Type := mkCanvas {
  objects : list Object;            (* paint order *)
  backgroundColor : string;
  isDrawingMode : bool;
  selection : bool;
  defaultCursor : string;
  freeDrawingBrush : option Brush;
  on_mouse_down : list H;
  on_mouse_move : list H;
  on_mouse_up : list H;
  activeObject : option ObjRef;
  editing : option ObjRef;          (* the IText in inline editing *)
  next_ref : ObjRef                 (* the identity the next [new] object gets *)
}.

Arguments mkCanvas {H}.

Section Ops.

Context {H : Type}.

Definition empty_canvas : Canvas H :=
  mkCanvas [] "#ffffff" false true "default" None [] [] [] None None 0.

Definition set_objects (os : list Object) (c : Canvas H) : Canvas H :=
  mkCanvas os (backgroundColor c) (isDrawingMode c) (selection c) (defaultCursor c)
    (freeDrawingBrush c) (on_mouse_down c) (on_mouse_move c) (on_mouse_up c)
    (activeObject c) (editing c) (next_ref c).

Definition set_modes (drawing sel : bool) (cursor : string) (c : Canvas H) : Canvas H :=
  mkCanvas (objects c) (backgroundColor c) drawing sel cursor
    (freeDrawingBrush c) (on_mouse_down c) (on_mouse_move c) (on_mouse_up c)
    (activeObject c) (editing c) (next_ref c).

Definition set_freeDrawingBrush (b : Brush) (c : Canvas H) : Canvas H :=
  mkCanvas (objects c) (backgroundColor c) (isDrawingMode c) (selection c) (defaultCursor c)
    (Some b) (on_mouse_down c) (on_mouse_move c) (on_mouse_up c)
    (activeObject c) (editing c) (next_ref c).

Definition set_listeners (down move up : list H) (c : Canvas H) : Canvas H :=
  mkCanvas (objects c) (backgroundColor c) (isDrawingMode c) (selection c) (defaultCursor c)
    (freeDrawingBrush c) down move up (activeObject c) (editing c) (next_ref c).

(** [canvas.setActiveObject(o)] *)
Definition setActiveObject (r : ObjRef) (c : Canvas H) : Canvas H :=
  mkCanvas (objects c) (backgroundColor c) (isDrawingMode c) (selection c) (defaultCursor c)
    (freeDrawingBrush c) (on_mouse_down c) (on_mouse_move c) (on_mouse_up c)
    (Some r) (editing c) (next_ref c).

(** [canvas.discardActiveObject()] on a canvas on which no text is being
    edited: fabric then fires selection events only. *)
Definition discardActiveObject (c : Canvas H) : Canvas H :=
  mkCanvas (objects c) (backgroundColor c) (isDrawingMode c) (selection c) (defaultCursor c)
    (freeDrawingBrush c) (on_mouse_down c) (on_mouse_move c) (on_mouse_up c)
    None (editing c) (next_ref c).

(** [itext.enterEditing()] and leaving it. *)
Definition set_editing (r : option ObjRef) (c : Canvas H) : Canvas H :=
  mkCanvas (objects c) (backgroundColor c) (isDrawingMode c) (selection c) (defaultCursor c)
    (freeDrawingBrush c) (on_mouse_down c) (on_mouse_move c) (on_mouse_up c)
    (activeObject c) r (next_ref c).

(** [new fabric.X(...)]: the identity of the new object. *)
Definition alloc (c : Canvas H) : ObjRef * Canvas H :=
  (next_ref c,
   mkCanvas (objects c) (backgroundColor c) (isDrawingMode c) (selection c) (defaultCursor c)
     (freeDrawingBrush c) (on_mouse_down c) (on_mouse_move c) (on_mouse_up c)
     (activeObject c) (editing c) (S (next_ref c))).

(** [canvas.add(o)]: the object goes on top. *)
Definition add (o : Object) (c : Canvas H) : Canvas H :=
  set_objects (objects c ++ [o]) c.

(** Does the reference point to the object [r]? *)
Definition points_to (r : ObjRef) (o : option ObjRef) : bool :=
  match o with
  | Some a => (a =? r)%nat
  | None => false
  end.

(** [canvas.remove(o)]: the object leaves the canvas, and is no longer
    the active object if it was. *)
Definition remove (r : ObjRef) (c : Canvas H) : Canvas H :=
  mkCanvas (filter (fun o => negb (oref o =? r)%nat) (objects c))
    (backgroundColor c) (isDrawingMode c) (selection c) (defaultCursor c)
    (freeDrawingBrush c) (on_mouse_down c) (on_mouse_move c) (on_mouse_up c)
    (if points_to r (activeObject c) then None else activeObject c)
    (if points_to r (editing c) then None else editing c) (next_ref c).

(** [canvas.off('mouse:down'); canvas.off('mouse:move'); canvas.off('mouse:up')] *)
Definition off_mouse (c : Canvas H) : Canvas H := set_listeners [] [] [] c.

(** An in-place update of the object behind a reference. *)
Definition update (r : ObjRef) (f : Object -> Object) (c : Canvas H) : Canvas H :=
  set_objects (map (fun o => if (oref o =? r)%nat then f o else o) (objects c)) c.

Definition find (r : ObjRef) (c : Canvas H) : option Object :=
  List.find (fun o => (oref o =? r)%nat) (objects c).

End Ops.

Definition set_selectable (b : bool) (o : Object) : Object :=
  mkObject (oref o) (kind o) (left o) (top o) (width o) (height o) (rx o) (ry o)
    (fill o) (stroke o) (strokeWidth o) b (text o) (fontFamily o) (fontSize o)
    (on_editing_exited o).

Definition set_text (s : string) (o : Object) : Object :=
  mkObject (oref o) (kind o) (left o) (top o) (width o) (height o) (rx o) (ry o)
    (fill o) (stroke o) (strokeWidth o) (selectable o) s (fontFamily o) (fontSize o)
    (on_editing_exited o).

(** [rect.set({ left, top, width, height })] *)
Definition set_rect_box (l t w h : float) (o : Object) : Object :=
  mkObject (oref o) (kind o) l t w h (rx o) (ry o)
    (fill o) (stroke o) (strokeWidth o) (selectable o) (text o) (fontFamily o) (fontSize o)
    (on_editing_exited o).

(** [ellipse.set({ left, top, rx, ry })]; an ellipse keeps its width and
    height at twice its radii. *)
Definition set_ellipse_box (l t rx' ry' : float) (o : Object) : Object :=
  mkObject (oref o) (kind o) l t (rx' * 2)%float (ry' * 2)%float rx' ry'
    (fill o) (stroke o) (strokeWidth o) (selectable o) (text o) (fontFamily o) (fontSize o)
    (on_editing_exited o).

(** [canvas.getObjects().forEach(o => { o.selectable = b; })] *)
Definition all_selectable {H : Type} (b : bool) (c : Canvas H) : Canvas H :=
  set_objects (map (set_selectable b) (objects c)) c.

(** The same properties on an object of another identity. *)
Definition set_oref (r : ObjRef) (o : Object) : Object :=
  mkObject r (kind o) (left o) (top o) (width o) (height o) (rx o) (ry o)
    (fill o) (stroke o) (strokeWidth o) (selectable o) (text o) (fontFamily o) (fontSize o)
    (on_editing_exited o).

End Fabric.

(* ===================================================================== *)
(** ** src/composables/useCanvas.ts                                       *)
(* ===================================================================== *)

Module UseCanvas.

Inductive ToolType : Type := select | pencil | text | rect | circle | eraser.

(** The reactive refs of the composable. *)
Record Refs : Type := mkRefs {
  activeTool : ToolType;
  brushColor : string;
  brushSize : float;
  fillColor : string;
  strokeColor : string;
  fontSize : float;
  fontFamily : string;
  textColor : string;
  isTransparentBg : bool
}.

Definition ObjRef : Type := Fabric.ObjRef.

(** The closure variables of [useCanvas()].  [Canvas] is the state of the
    fabric.Canvas object; [canvas = None] is [null]. *)
Record State (Canvas : Type) : Type := mkState {
  refs : Refs;
  canvas : option Canvas;
  _history : list string;
  _historyIndex : Z;
  _isRestoringHistory : bool;
  _shapeStartX : float;
  _shapeStartY : float;
  _activeShape : option ObjRef;
  _isDrawingShape : bool
}.

Arguments mkState {Canvas}.

Definition initial_refs : Refs :=
  {| activeTool := select;
     brushColor := "#000000";
     brushSize := 6%float;
     fillColor := "#ff6b6b";
     strokeColor := "#333333";
     fontSize := 32%float;
     fontFamily := "Arial";
     textColor := "#333333";
     isTransparentBg := false |}.

Definition initial_state (Canvas : Type) : State Canvas :=
  mkState initial_refs None [] (-1)%Z false 0%float 0%float None false.

Section Setters.

Context {Canvas : Type}.

Definition set_refs (r : Refs) (st : State Canvas) : State Canvas :=
  mkState r (canvas st) (_history st) (_historyIndex st) (_isRestoringHistory st)
    (_shapeStartX st) (_shapeStartY st) (_activeShape st) (_isDrawingShape st).

Definition set_canvas (c : option Canvas) (st : State Canvas) : State Canvas :=
  mkState (refs st) c (_history st) (_historyIndex st) (_isRestoringHistory st)
    (_shapeStartX st) (_shapeStartY st) (_activeShape st) (_isDrawingShape st).

Definition set_history (h : list string) (st : State Canvas) : State Canvas :=
  mkState (refs st) (canvas st) h (_historyIndex st) (_isRestoringHistory st)
    (_shapeStartX st) (_shapeStartY st) (_activeShape st) (_isDrawingShape st).

Definition set_historyIndex (i : Z) (st : State Canvas) : State Canvas :=
  mkState (refs st) (canvas st) (_history st) i (_isRestoringHistory st)
    (_shapeStartX st) (_shapeStartY st) (_activeShape st) (_isDrawingShape st).

Definition set_isRestoringHistory (b : bool) (st : State Canvas) : State Canvas :=
  mkState (refs st) (canvas st) (_history st) (_historyIndex st) b
    (_shapeStartX st) (_shapeStartY st) (_activeShape st) (_isDrawingShape st).

Definition set_shapeStart (x y : float) (st : State Canvas) : State Canvas :=
  mkState (refs st) (canvas st) (_history st) (_historyIndex st) (_isRestoringHistory st)
    x y (_activeShape st) (_isDrawingShape st).

Definition set_activeShape (o : option ObjRef) (st : State Canvas) : State Canvas :=
  mkState (refs st) (canvas st) (_history st) (_historyIndex st) (_isRestoringHistory st)
    (_shapeStartX st) (_shapeStartY st) o (_isDrawingShape st).

Definition set_isDrawingShape (b : bool) (st : State Canvas) : State Canvas :=
  mkState (refs st) (canvas st) (_history st) (_historyIndex st) (_isRestoringHistory st)
    (_shapeStartX st) (_shapeStartY st) (_activeShape st) b.

End Setters.

(** The fabric events [setCanvas] subscribes to. *)
Inductive CanvasEvent : Type := ObjectAdded | ObjectModified | ObjectRemoved.

(** *** History manager

    The history manager sees the canvas only through serialization and
    restore, so it is stated over any canvas representation. *)

Section History.

Variable Canvas : Type.

(** [JSON.stringify(canvas.toJSON())] *)
Variable toJSON : Canvas -> string.

(** The canvas once the promise of [canvas.loadFromJSON(snap, reviver)]
    is fulfilled. *)
Variable loadFromJSON : Canvas -> string -> Canvas.

(** The object events fabric fires while it replaces the content, in
    order, each with the canvas as the listeners find it: [clear()] takes
    the old objects off one by one and reports every removal, then
    [add(...)] puts the rebuilt objects on the canvas and reports every
    one of them. *)
Variable load_events : Canvas -> string -> list (Canvas * CanvasEvent).

Definition _saveHistory (st : State Canvas) : State Canvas :=
  match canvas st with
  | None => st
  | Some c =>
      if _isRestoringHistory st then st
      else
        let h :=
          if (_historyIndex st <? Z.of_nat (length (_history st)) - 1)%Z
          then Js.slice0 (_history st) (_historyIndex st + 1)
          else _history st in
        let h := Js.push h (toJSON c) in
        let i := (Z.of_nat (length h) - 1)%Z in
        if (50 <? length h)%nat
        then set_historyIndex (i - 1) (set_history (Js.shift h) st)
        else set_historyIndex i (set_history h st)
  end.

(** The three subscriptions made by [setCanvas]. *)
Definition fire (ev : CanvasEvent) (st : State Canvas) : State Canvas :=
  match ev with
  | ObjectAdded => if _isRestoringHistory st then st else _saveHistory st
  | ObjectModified => _saveHistory st
  | ObjectRemoved => _saveHistory st
  end.

(** An event fired by fabric itself, on the canvas as it is then. *)
Definition fire_at (st : State Canvas) (step : Canvas * CanvasEvent) : State Canvas :=
  fire (snd step) (set_canvas (Some (fst step)) st).

Definition fire_all (steps : list (Canvas * CanvasEvent)) (st : State Canvas)
  : State Canvas :=
  fold_left fire_at steps st.

Definition is_added (step : Canvas * CanvasEvent) : bool :=
  match snd step with
  | ObjectAdded => true
  | _ => false
  end.

Definition setCanvas (c : Canvas) (st : State Canvas) : State Canvas :=
  _saveHistory (set_canvas (Some c) st).

(** [canvas.loadFromJSON(snap, () => { canvas?.renderAll();
    _isRestoringHistory = false; })], run to completion before the next
    user action.  The function passed is fabric's reviver: it is called
    for each object of the snapshot when that object has been rebuilt,
    which is before the canvas is cleared and the rebuilt objects are
    added.  So, when the snapshot holds an object (the objects that
    [add(...)] then reports), the flag is cleared before the object events
    of the replacement reach the subscribers; when it holds none, the
    function is never called and the flag stays as it is. *)
Definition restore (c : Canvas) (snap : string) (st : State Canvas) : State Canvas :=
  let steps := load_events c snap in
  let st := if existsb is_added steps then set_isRestoringHistory false st else st in
  let st := fire_all steps st in
  set_canvas (Some (loadFromJSON c snap)) st.

Definition undo (st : State Canvas) : State Canvas :=
  match canvas st with
  | None => st
  | Some c =>
      if (_historyIndex st <=? 0)%Z then st
      else
        let st := set_historyIndex (_historyIndex st - 1) st in
        let st := set_isRestoringHistory true st in
        match Js.index (_history st) (_historyIndex st) with
        | None => st
        | Some snap => if Js.truthy_string snap then restore c snap st else st
        end
  end.

Definition redo (st : State Canvas) : State Canvas :=
  match canvas st with
  | None => st
  | Some c =>
      if (Z.of_nat (length (_history st)) - 1 <=? _historyIndex st)%Z then st
      else
        let st := set_historyIndex (_historyIndex st + 1) st in
        let st := set_isRestoringHistory true st in
        match Js.index (_history st) (_historyIndex st) with
        | None => st
        | Some snap => if Js.truthy_string snap then restore c snap st else st
        end
  end.

Definition canUndo (st : State Canvas) : bool := (0 <? _historyIndex st)%Z.

Definition canRedo (st : State Canvas) : bool :=
  (_historyIndex st <? Z.of_nat (length (_history st)) - 1)%Z.

Definition getCanvasJSON (st : State Canvas) : string :=
  match canvas st with
  | None => "{}"
  | Some c => toJSON c
  end.

(** [loadCanvasJSON(json)]; [json] is a snapshot taken by [getCanvasJSON],
    which [JSON.parse] accepts. *)
Definition loadCanvasJSON (json : string) (st : State Canvas) : State Canvas :=
  match canvas st with
  | None => st
  | Some c => restore c json (set_isRestoringHistory true st)
  end.

(** A committed mutation: the user edit leaves the canvas as [c'] and fabric
    reports it by one object event. *)
Definition mutate (c' : Canvas) (ev : CanvasEvent) (st : State Canvas) : State Canvas :=
  match canvas st with
  | None => st
  | Some _ => fire ev (set_canvas (Some c') st)
  end.

(** User actions on the history manager after [setCanvas]: an edit, an
    undo, a redo, or the selection of a timeline frame, which loads the
    snapshot that was taken of the canvas [frame] into the canvas. *)
Inductive Action : Type :=
| AMutate (c' : Canvas) (ev : CanvasEvent)
| AUndo
| ARedo
| ALoad (frame : Canvas).

Definition step (st : State Canvas) (a : Action) : State Canvas :=
  match a with
  | AMutate c' ev => mutate c' ev st
  | AUndo => undo st
  | ARedo => redo st
  | ALoad frame => loadCanvasJSON (toJSON frame) st
  end.

Definition run (acts : list Action) (st : State Canvas) : State Canvas :=
  fold_left step acts st.

(** The session after [setCanvas(c0)] followed by [acts]. *)
Definition session (c0 : Canvas) (acts : list Action) : State Canvas :=
  run acts (setCanvas c0 (initial_state Canvas)).

(** The cursor is a valid index and the capacity is respected. *)
Definition bounded (st : State Canvas) : Prop :=
  canvas st <> None
  /\ (0 <= _historyIndex st < Z.of_nat (length (_history st)))%Z
  /\ (length (_history st) <= 50)%nat.

(** The round-trip law of the specification for the mutations [muts]
    applied after [setCanvas(c0)]: as many undos as mutations show the
    initial snapshot again, and as many redos then show the final one. *)
Definition round_trip (c0 : Canvas) (muts : list (Canvas * CanvasEvent)) : Prop :=
  let st := session c0 (map (fun m => AMutate (fst m) (snd m)) muts) in
  let n := length muts in
  getCanvasJSON (Nat.iter n undo st) = toJSON c0
  /\ getCanvasJSON (Nat.iter n redo (Nat.iter n undo st))
     = toJSON (last (map fst muts) c0).

End History.

(** *** Tool state machine *)

(** The pointer listeners [_applyTool] registers; each stands for the
    closure at the corresponding [canvas.on] call. *)
Inductive MouseHandler : Type :=
| TextMouseDown
| ShapeMouseDown (tool : ToolType)
| ShapeMouseMove
| ShapeMouseUp.

Definition FCanvas : Type := Fabric.Canvas MouseHandler.

(** Objects are kept in the model while they are on the canvas; a
    reference whose object has been removed, or replaced by a restore,
    finds nothing, and updates through it change nothing on the canvas. *)

Section Tools.

(** [JSON.stringify(canvas.toJSON())] on the fabric canvas. *)
Variable toJSON : FCanvas -> string.

Definition with_canvas (f : FCanvas -> FCanvas) (st : State FCanvas) : State FCanvas :=
  match canvas st with
  | None => st
  | Some c => set_canvas (Some (f c)) st
  end.

(** [canvas.add(o)]: fabric fires 'object:added'. *)
Definition canvas_add (o : Fabric.Object) (st : State FCanvas) : State FCanvas :=
  fire toJSON ObjectAdded (with_canvas (Fabric.add o) st).

(** [canvas.remove(o)], for an object that is not a text being edited:
    fabric fires 'object:removed' when [o] was on the canvas. *)
Definition canvas_remove (r : ObjRef) (st : State FCanvas) : State FCanvas :=
  match canvas st with
  | None => st
  | Some c =>
      match Fabric.find r c with
      | None => st
      | Some _ => fire toJSON ObjectRemoved (set_canvas (Some (Fabric.remove r c)) st)
      end
  end.

Definition _removeShapeListeners (st : State FCanvas) : State FCanvas :=
  with_canvas Fabric.off_mouse st.

Definition eraser_color (st : State FCanvas) (c : FCanvas) : string :=
  if isTransparentBg (refs st) then "rgba(0,0,0,0)"
  else if Js.truthy_string (Fabric.backgroundColor c) then Fabric.backgroundColor c
  else "#ffffff".

Definition _applyTool (tool : ToolType) (st : State FCanvas) : State FCanvas :=
  match canvas st with
  | None => st
  | Some _ =>
      let st := _removeShapeListeners st in
      let st := with_canvas (Fabric.set_modes false true "default") st in
      match tool with
      | select =>
          with_canvas (Fabric.all_selectable true) st
      | pencil =>
          let st := with_canvas (fun c => Fabric.set_modes true (Fabric.selection c) (Fabric.defaultCursor c) c) st in
          let st := with_canvas (Fabric.set_freeDrawingBrush
                      (Fabric.mkBrush (brushColor (refs st)) (brushSize (refs st)))) st in
          with_canvas (Fabric.all_selectable false) st
      | eraser =>
          let st := with_canvas (fun c => Fabric.set_modes true (Fabric.selection c) (Fabric.defaultCursor c) c) st in
          let st := with_canvas (fun c => Fabric.set_freeDrawingBrush
                      (Fabric.mkBrush (eraser_color st c) (brushSize (refs st) * 2)%float) c) st in
          with_canvas (Fabric.all_selectable false) st
      | text =>
          let st := with_canvas (fun c => Fabric.set_modes (Fabric.isDrawingMode c) false "text" c) st in
          let st := with_canvas (Fabric.all_selectable false) st in
          with_canvas (Fabric.set_listeners [TextMouseDown] [] []) st
      | rect | circle =>
          let st := with_canvas (fun c => Fabric.set_modes (Fabric.isDrawingMode c) false "crosshair" c) st in
          let st := with_canvas (Fabric.all_selectable false) st in
          with_canvas (Fabric.set_listeners [ShapeMouseDown tool] [ShapeMouseMove] [ShapeMouseUp]) st
      end
  end.

Definition set_activeTool (tool : ToolType) (r : Refs) : Refs :=
  mkRefs tool (brushColor r) (brushSize r) (fillColor r) (strokeColor r)
    (fontSize r) (fontFamily r) (textColor r) (isTransparentBg r).

Definition setTool (tool : ToolType) (st : State FCanvas) : State FCanvas :=
  _applyTool tool (set_refs (set_activeTool tool (refs st)) st).

(** The 'mouse:down' listener of the text tool; [(x, y)] is
    [canvas.getPointer(opt.e)]. *)
Definition text_mouse_down (x y : float) (st : State FCanvas) : State FCanvas :=
  match canvas st with
  | None => st
  | Some c =>
      let '(r, c) := Fabric.alloc c in
      let itext :=
        Fabric.mkObject r Fabric.IText x y 0%float 0%float 0%float 0%float
          (textColor (refs st)) "" 1%float true
          "" (fontFamily (refs st)) (fontSize (refs st)) false in
      let st := canvas_add itext (set_canvas (Some c) st) in
      let st := with_canvas (Fabric.setActiveObject r) st in
      let st := with_canvas (Fabric.set_editing (Some r)) st in
      with_canvas (Fabric.update r (fun o =>
        Fabric.mkObject (Fabric.oref o) (Fabric.kind o) (Fabric.left o) (Fabric.top o)
          (Fabric.width o) (Fabric.height o) (Fabric.rx o) (Fabric.ry o)
          (Fabric.fill o) (Fabric.stroke o) (Fabric.strokeWidth o) (Fabric.selectable o)
          (Fabric.text o) (Fabric.fontFamily o) (Fabric.fontSize o) true)) st
  end.

(** The 'editing:exited' listener subscribed on the IText [r]. *)
Definition text_editing_exited (r : ObjRef) (st : State FCanvas) : State FCanvas :=
  match canvas st with
  | None => st
  | Some c =>
      match Fabric.find r c with
      | None => st
      | Some itext =>
          if Fabric.on_editing_exited itext then
            let st := with_canvas (Fabric.set_editing None) st in
            if String.eqb (Fabric.text itext) "" then canvas_remove r st
            else _saveHistory toJSON st
          else st
      end
  end.

(** The 'mouse:down' listener of the shape tools. *)
Definition shape_mouse_down (tool : ToolType) (x y : float) (st : State FCanvas)
  : State FCanvas :=
  match canvas st with
  | None => st
  | Some c =>
      if _isDrawingShape st then st
      else
        let st := set_isDrawingShape true st in
        let st := set_shapeStart x y st in
        let '(r, c) := Fabric.alloc c in
        let shape :=
          match tool with
          | rect =>
              Fabric.mkObject r Fabric.Rect x y 0%float 0%float 0%float 0%float
                (fillColor (refs st)) (strokeColor (refs st)) 2%float false
                "" "" 0%float false
          | _ =>
              Fabric.mkObject r Fabric.Ellipse x y 0%float 0%float 0%float 0%float
                (fillColor (refs st)) (strokeColor (refs st)) 2%float false
                "" "" 0%float false
          end in
        let st := set_activeShape (Some r) (set_canvas (Some c) st) in
        canvas_add shape st
  end.

(** The 'mouse:move' listener of the shape tools. *)
Definition shape_mouse_move (x y : float) (st : State FCanvas) : State FCanvas :=
  match canvas st with
  | None => st
  | Some c =>
      if negb (_isDrawingShape st) then st
      else
        match _activeShape st with
        | None => st
        | Some r =>
            let w := PrimFloat.abs (x - _shapeStartX st)%float in
            let h := PrimFloat.abs (y - _shapeStartY st)%float in
            let l := Js.Math_min x (_shapeStartX st) in
            let t := Js.Math_min y (_shapeStartY st) in
            with_canvas (Fabric.update r (fun o =>
              match Fabric.kind o with
              | Fabric.Rect => Fabric.set_rect_box l t w h o
              | Fabric.Ellipse => Fabric.set_ellipse_box l t (w / 2)%float (h / 2)%float o
              | _ => o
              end)) st
        end
  end.

(** The 'mouse:up' listener of the shape tools. *)
Definition shape_mouse_up (st : State FCanvas) : State FCanvas :=
  match canvas st with
  | None => st
  | Some c =>
      if negb (_isDrawingShape st) then st
      else
        let st := set_isDrawingShape false st in
        match _activeShape st with
        | None => st
        | Some r =>
            let st := with_canvas (Fabric.update r (Fabric.set_selectable true)) st in
            let st := with_canvas (Fabric.setActiveObject r) st in
            let st := set_activeShape None st in
            _saveHistory toJSON st
        end
  end.

Definition run_handler (x y : float) (st : State FCanvas) (h : MouseHandler)
  : State FCanvas :=
  match h with
  | TextMouseDown => text_mouse_down x y st
  | ShapeMouseDown tool => shape_mouse_down tool x y st
  | ShapeMouseMove => shape_mouse_move x y st
  | ShapeMouseUp => shape_mouse_up st
  end.

(** Fabric dispatching a pointer event at [(x, y)] to the listeners that
    [_applyTool] registered for it.  What fabric itself does with the
    event (selecting, deselecting, transforming the object under the
    pointer) is not part of these functions. *)
Definition mouse_down (x y : float) (st : State FCanvas) : State FCanvas :=
  match canvas st with
  | None => st
  | Some c => fold_left (run_handler x y) (Fabric.on_mouse_down c) st
  end.

Definition mouse_move (x y : float) (st : State FCanvas) : State FCanvas :=
  match canvas st with
  | None => st
  | Some c => fold_left (run_handler x y) (Fabric.on_mouse_move c) st
  end.

Definition mouse_up (x y : float) (st : State FCanvas) : State FCanvas :=
  match canvas st with
  | None => st
  | Some c => fold_left (run_handler x y) (Fabric.on_mouse_up c) st
  end.

(** [exportPng()], while no text is being edited: the data URL returned
    and the state left behind; [toDataURL] is
    [canvas.toDataURL({ format: 'png', multiplier: 1 })]. *)
Definition exportPng (toDataURL : FCanvas -> string) (st : State FCanvas)
  : string * State FCanvas :=
  match canvas st with
  | None => (""%string, st)
  | Some c =>
      let c := Fabric.discardActiveObject c in
      (toDataURL c, set_canvas (Some c) st)
  end.

(** Is the object behind [r] part of the scene? *)
Definition in_scene (r : ObjRef) (st : State FCanvas) : bool :=
  match canvas st with
  | None => false
  | Some c => existsb (fun o => (Fabric.oref o =? r)%nat) (Fabric.objects c)
  end.

(** The pointer listeners each tool works with. *)
Definition listeners_of (tool : ToolType)
  : list MouseHandler * list MouseHandler * list MouseHandler :=
  match tool with
  | text => ([TextMouseDown], [], [])
  | rect | circle => ([ShapeMouseDown tool], [ShapeMouseMove], [ShapeMouseUp])
  | select | pencil | eraser => ([], [], [])
  end.

(** The specification's reading of a tool switch during a shape gesture:
    [before] is the state when the gesture began, [st] the state in which
    [setTool(tool)] arrives while the shape [r] is being dragged.  The
    switch would cancel the gesture: the shape is gone from the scene and
    the history is the one from before the gesture. *)
Definition gesture_cancelled (before st : State FCanvas) (r : ObjRef) (tool : ToolType)
  : Prop :=
  in_scene r (setTool tool st) = false
  /\ _history (setTool tool st) = _history before.

End Tools.

End UseCanvas.

(** *** What fabric does on [canvas.loadFromJSON]

    [loadFromJSON] rebuilds the objects of the snapshot, calling the
    reviver for each; when all are rebuilt it calls [this.clear()], then
    [this.add(...rebuilt)], then sets the canvas properties the snapshot
    records. *)

Module FabricLoad.

Import UseCanvas.

Section Load.

Context {H : Type}.

(** [enlivenObjects] on the objects a snapshot records, in paint order,
    and the background colour it records. *)
Variable enliven : string -> list Fabric.Object.
Variable background : string -> string.

(** The rebuilt objects are new objects, with identities of their own. *)
Definition rebuilt (c : Fabric.Canvas H) (snap : string) : list Fabric.Object :=
  map (fun p => Fabric.set_oref (Fabric.next_ref c + fst p) (snd p))
    (combine (seq 0 (length (enliven snap))) (enliven snap)).

(** [canvas.clear()], for a canvas on which no text is being edited: the
    active object is discarded, then the objects are taken off first to
    last, with 'object:removed' fired after each. *)
Definition cleared (c : Fabric.Canvas H) : Fabric.Canvas H :=
  Fabric.set_objects [] (Fabric.discardActiveObject c).

Definition clear_events (c : Fabric.Canvas H)
  : list (Fabric.Canvas H * CanvasEvent) :=
  map (fun k => (Fabric.set_objects (skipn k (Fabric.objects c))
                   (Fabric.discardActiveObject c), ObjectRemoved))
    (seq 1 (length (Fabric.objects c))).

(** [canvas.add(...objects)]: the objects are all pushed, then
    'object:added' is fired for each of them. *)
Definition add_events (os : list Fabric.Object) (c : Fabric.Canvas H)
  : list (Fabric.Canvas H * CanvasEvent) :=
  map (fun _ => (Fabric.set_objects (Fabric.objects c ++ os) c, ObjectAdded)) os.

Definition load_events (c : Fabric.Canvas H) (snap : string)
  : list (Fabric.Canvas H * CanvasEvent) :=
  clear_events c ++ add_events (rebuilt c snap) (cleared c).

Definition loadFromJSON (c : Fabric.Canvas H) (snap : string) : Fabric.Canvas H :=
  Fabric.mkCanvas (rebuilt c snap) (background snap) (Fabric.isDrawingMode c)
    (Fabric.selection c) (Fabric.defaultCursor c) (Fabric.freeDrawingBrush c)
    (Fabric.on_mouse_down c) (Fabric.on_mouse_move c) (Fabric.on_mouse_up c)
    None None (Fabric.next_ref c + length (rebuilt c snap)).

End Load.

End FabricLoad.

(* ===================================================================== *)
(** ** The root component script                                          *)
(* ===================================================================== *)

Module App.

Import UseFrames ComplianceChecker.

(** [captureFrame] is declared [() => void]: whatever happens, its caller
    receives [undefined]. *)
Inductive Void : Type := undefined.

(** The closure variables of the component: the two composables and the
    export refs. *)
Record AppState : Type := mkApp {
  canvasHolder : UseCanvas.State UseCanvas.FCanvas;
  frames : list Frame;
  isExporting : bool;
  exportProgress : float;
  exportError : option string;         (* [None] is [null] *)
  complianceWarnings : list string
}.

Definition set_canvasHolder (h : UseCanvas.State UseCanvas.FCanvas) (app : AppState) : AppState :=
  mkApp h (frames app) (isExporting app) (exportProgress app) (exportError app)
    (complianceWarnings app).

Definition set_frames (fs : list Frame) (app : AppState) : AppState :=
  mkApp (canvasHolder app) fs (isExporting app) (exportProgress app) (exportError app)
    (complianceWarnings app).

Definition set_isExporting (b : bool) (app : AppState) : AppState :=
  mkApp (canvasHolder app) (frames app) b (exportProgress app) (exportError app)
    (complianceWarnings app).

Definition set_exportProgress (p : float) (app : AppState) : AppState :=
  mkApp (canvasHolder app) (frames app) (isExporting app) p (exportError app)
    (complianceWarnings app).

Definition set_exportError (e : option string) (app : AppState) : AppState :=
  mkApp (canvasHolder app) (frames app) (isExporting app) (exportProgress app) e
    (complianceWarnings app).

Definition set_complianceWarnings (w : list string) (app : AppState) : AppState :=
  mkApp (canvasHolder app) (frames app) (isExporting app) (exportProgress app)
    (exportError app) w.

(** What the GIF encoder and the image decoder do during one export. *)
Inductive RenderOutcome : Type :=
| Finished (blob_size : float) (url : string)   (* 'finished', and the object URL made for the blob *)
| Aborted.                                      (* 'abort' *)

Record Encoder : Type := mkEncoder {
  image_loads : string -> bool;      (* does [img.onload] fire for this [src]? *)
  progress : list float;             (* the percentages [Math.round(p * 100)] of the 'progress' events *)
  outcome : RenderOutcome
}.

(** The calls [exportEmoji] makes on its collaborators, in order. *)
Inductive Call : Type :=
| CanvasToDataURL
| RunComplianceCheck
| EncoderNew (width height quality workers : Z)
| ImageLoad (src : string)
| EncoderAddFrame (src : string) (delay : float)
| EncoderRender
| CreateObjectURL
| Download (name href : string)
| RevokeObjectURLLater (url : string).

Definition is_encoder_call (c : Call) : bool :=
  match c with
  | EncoderNew _ _ _ _ | EncoderAddFrame _ _ | EncoderRender => true
  | _ => false
  end.

Definition is_compliance_call (c : Call) : bool :=
  match c with
  | RunComplianceCheck => true
  | _ => false
  end.

Definition is_download (c : Call) : bool :=
  match c with
  | Download _ _ => true
  | _ => false
  end.

Section Component.

Variable toJSON : UseCanvas.FCanvas -> string.
Variable toDataURL : UseCanvas.FCanvas -> string.
Variable Number_toString : float -> string.

Definition exportPng_calls (app : AppState) : list Call :=
  match UseCanvas.canvas (canvasHolder app) with
  | None => []
  | Some _ => [CanvasToDataURL]
  end.

Definition captureFrame (now : Z) (rnd : string) (app : AppState) : Void * AppState :=
  if (10 <=? length (frames app))%nat then (undefined, app)
  else
    let '(dataUrl, h) := UseCanvas.exportPng toDataURL (canvasHolder app) in
    let json := UseCanvas.getCanvasJSON toJSON h in
    let '(fs, _) := addFrame now rnd dataUrl json None (frames app) in
    (undefined, set_frames fs (set_canvasHolder h app)).

(** The loop [for (const frame of frames.value)]: the calls made, and
    whether every image loaded ([false]: an [await] never resumed). *)
Fixpoint feed (enc : Encoder) (fs : list Frame) : list Call * bool :=
  match fs with
  | [] => ([], true)
  | frame :: rest =>
      if image_loads enc (dataUrl frame) then
        let '(calls, ok) := feed enc rest in
        (ImageLoad (dataUrl frame) :: EncoderAddFrame (dataUrl frame) (delay frame) :: calls, ok)
      else ([ImageLoad (dataUrl frame)], false)
  end.

Definition gif_size_warning (sizeKB : float) : string :=
  ("GIF size " ++ Js.toFixed Number_toString sizeKB 0
   ++ "KB exceeds WeChat 500KB limit.")%string.

Definition exportEmoji (enc : Encoder) (app : AppState) : AppState * list Call :=
  let app := set_exportError None app in
  let app := set_complianceWarnings [] app in
  match frames app with
  | [] =>
      (* static PNG export *)
      let calls := exportPng_calls app in
      let '(dataUrl, h) := UseCanvas.exportPng toDataURL (canvasHolder app) in
      (set_canvasHolder h app, calls ++ [Download "emoji.png" dataUrl])
  | _ :: _ =>
      let compliance := checkCompliance Number_toString (frames app) None in
      let app :=
        if (0 <? length (warnings compliance))%nat
        then set_complianceWarnings (warnings compliance) app else app in
      let app := set_isExporting true app in
      let app := set_exportProgress 0%float app in
      let '(fed, loaded) := feed enc (frames app) in
      let calls := [RunComplianceCheck; EncoderNew 240 240 8 2] ++ fed in
      if loaded then
        let app := fold_left (fun a p => set_exportProgress p a) (progress enc) app in
        match outcome enc with
        | Finished blob_size url =>
            let sizeKB := (blob_size / 1024)%float in
            let app :=
              if PrimFloat.ltb 500%float sizeKB
              then set_complianceWarnings
                     (Js.push (complianceWarnings app) (gif_size_warning sizeKB)) app
              else app in
            (set_isExporting false app,
             calls ++ [EncoderRender; CreateObjectURL; Download "emoji.gif" url;
                       RevokeObjectURLLater url])
        | Aborted =>
            (set_isExporting false (set_exportError (Some "GIF generation aborted"%string) app),
             calls ++ [EncoderRender])
        end
      else (app, calls)
  end.

(** What [captureFrame] lets its caller know: the value returned and the
    error and warning refs the component surfaces. *)
Definition signals (before : AppState) (r : Void * AppState) : Prop :=
  fst r <> undefined
  \/ exportError (snd r) <> exportError before
  \/ complianceWarnings (snd r) <> complianceWarnings before.

(** The specification's reading of a capture at the cap: the timeline
    stays at 10 frames and the caller is told of the rejection. *)
Definition rejected_and_signalled (now : Z) (rnd : string) (app : AppState) : Prop :=
  let r := captureFrame now rnd app in
  length (frames (snd r)) = 10%nat /\ signals app r.

End Component.

End App.

(* ===================================================================== *)
(** ** Reference definitions and sample inputs                            *)
(* ===================================================================== *)

Module Spec.

(** The permutation the specification expects of [reorder(from, to)]: the
    frame at [from] is taken out and put back so that it sits at index
    [to]; the other frames keep their relative order. *)
Definition move_frame {A : Type} (from to : nat) (frames : list A) : list A :=
  match nth_error frames from with
  | None => frames
  | Some x =>
      let rest := firstn from frames ++ skipn (S from) frames in
      firstn to rest ++ x :: skipn to rest
  end.

End Spec.

Module Sample.

Import UseFrames.

Definition frame (name : string) (d : float) : Frame :=
  mkFrame name ("data:image/png;" ++ name) "{}" d.

Definition A : Frame := frame "A" 100.
Definition B : Frame := frame "B" 100.
Definition C : Frame := frame "C" 250.
Definition D : Frame := frame "D" 50.

(** Twelve frames of 100 ms. *)
Definition twelve : list Frame := [A; A; A; A; A; A; A; A; A; A; B; B].

(** A canvas whose whole content is a string, serialized behind a brace. *)
Definition s_toJSON (c : string) : string := String "{" c.

Definition s_loadFromJSON (c : string) (snap : string) : string :=
  match snap with
  | EmptyString => c
  | String _ content => content
  end.

(** Every character of the content is an object: the removals find the
    suffixes of the old content, the additions the restored content. *)
Definition s_load_events (c : string) (snap : string)
  : list (string * UseCanvas.CanvasEvent) :=
  map (fun k => (substring k (String.length c - k) c, UseCanvas.ObjectRemoved))
    (seq 1 (String.length c))
  ++ map (fun _ => (s_loadFromJSON c snap, UseCanvas.ObjectAdded))
       (seq 0 (String.length (s_loadFromJSON c snap))).

(** [n] mutations: the k-th leaves the content [k]. *)
Definition edits (n : nat) : list (string * UseCanvas.CanvasEvent) :=
  map (fun k => (Js.nat_to_string k, UseCanvas.ObjectAdded)) (seq 1 n).

Definition s_mutations (n : nat) : list (UseCanvas.Action string) :=
  map (fun m => UseCanvas.AMutate (fst m) (snd m)) (edits n).

(** A serialization of the fabric canvas that tells how many objects it
    holds. *)
Definition f_toJSON (c : UseCanvas.FCanvas) : string :=
  ("{objects:" ++ Js.nat_to_string (length (Fabric.objects c)) ++ "}")%string.

(** A rectangle drag interrupted by a tool switch: the canvas is set up, the
    rectangle tool is chosen, the pointer goes down at (10, 10) and moves to
    (30, 25). *)
Definition shape_tool_chosen : UseCanvas.State UseCanvas.FCanvas :=
  UseCanvas.setTool UseCanvas.rect
    (UseCanvas.setCanvas f_toJSON Fabric.empty_canvas
       (UseCanvas.initial_state UseCanvas.FCanvas)).

Definition mid_drag : UseCanvas.State UseCanvas.FCanvas :=
  UseCanvas.mouse_move f_toJSON 30 25
    (UseCanvas.mouse_down f_toJSON 10 10 shape_tool_chosen).

Definition mid_drag_canvas : UseCanvas.FCanvas :=
  match UseCanvas.canvas mid_drag with
  | Some c => c
  | None => Fabric.empty_canvas
  end.

Definition f_toDataURL (c : UseCanvas.FCanvas) : string :=
  ("data:image/png;objects=" ++ Js.nat_to_string (length (Fabric.objects c)))%string.

(** The component with one finished rectangle on the canvas. *)
Definition holder : UseCanvas.State UseCanvas.FCanvas :=
  UseCanvas.mouse_up f_toJSON 30 25 mid_drag.

Definition ten : list Frame := [A; B; C; D; A; B; C; D; A; B].

Definition app_full : App.AppState :=
  App.mkApp holder ten false 0 None [].

Definition app_empty : App.AppState :=
  App.mkApp holder [] false 0 (Some "GIF generation aborted"%string)
    ["Too many frames (12/10). WeChat allows max 10 frames."%string].

Definition encoder : App.Encoder :=
  App.mkEncoder (fun _ => true) [50%float; 100%float]
    (App.Finished 614400 "blob:emoji").

(** Any rendering of large magnitudes will do for the samples. *)
Definition Number_toString (x : float) : string := "1e+21".

End Sample.

(* ===================================================================== *)
(** ** Further definitions                                                *)
(* ===================================================================== *)


(** *** src/composables/useCanvas.ts, continued *)

Module UseCanvasOps.

Import UseCanvas.

Definition set_isTransparentBg (b : bool) (r : Refs) : Refs :=
  mkRefs (activeTool r) (brushColor r) (brushSize r) (fillColor r) (strokeColor r)
    (fontSize r) (fontFamily r) (textColor r) b.

(** [canvas.backgroundColor = color] *)
Definition set_backgroundColor (color : string) (c : FCanvas) : FCanvas :=
  Fabric.mkCanvas (Fabric.objects c) color (Fabric.isDrawingMode c) (Fabric.selection c)
    (Fabric.defaultCursor c) (Fabric.freeDrawingBrush c) (Fabric.on_mouse_down c)
    (Fabric.on_mouse_move c) (Fabric.on_mouse_up c) (Fabric.activeObject c)
    (Fabric.editing c) (Fabric.next_ref c).

(** The user typing [s] into the IText [r] that is being edited: fabric
    sets its [text]; none of the subscribed events is fired. *)
Definition type_text (r : ObjRef) (s : string) (st : State FCanvas) : State FCanvas :=
  with_canvas (Fabric.update r (Fabric.set_text s)) st.

Section Ops.

Variable toJSON : FCanvas -> string.
Variable loadFromJSON : FCanvas -> string -> FCanvas.
Variable load_events : FCanvas -> string -> list (FCanvas * CanvasEvent).

Definition setBgTransparent (transparent : bool) (st : State FCanvas) : State FCanvas :=
  match canvas st with
  | None => st
  | Some _ =>
      let st := set_refs (set_isTransparentBg transparent (refs st)) st in
      with_canvas (set_backgroundColor (if transparent then "" else "#ffffff")) st
  end.

(** [deleteSelected()]; [active] is what [canvas.getActiveObjects()]
    returned, none of them a text that is being edited. *)
Definition deleteSelected (active : list ObjRef) (st : State FCanvas) : State FCanvas :=
  match canvas st with
  | None => st
  | Some _ =>
      let st := fold_left (fun s r => canvas_remove toJSON r s) active st in
      let st := with_canvas Fabric.discardActiveObject st in
      _saveHistory toJSON st
  end.

Definition updateBrush (st : State FCanvas) : State FCanvas :=
  match canvas st with
  | None => st
  | Some c =>
      match Fabric.freeDrawingBrush c with
      | None => st
      | Some _ =>
          with_canvas (Fabric.set_freeDrawingBrush
                         (Fabric.mkBrush (brushColor (refs st)) (brushSize (refs st)))) st
      end
  end.

(** [itext.exitEditing()], by which fabric ends the inline editing of the
    text [r]: it fires 'editing:exited' on the object and then, when the
    text is not the one the editing began with ([changed]) and the object
    is still on the canvas, 'object:modified' on the canvas. *)
Definition exit_editing (r : ObjRef) (changed : bool) (st : State FCanvas)
  : State FCanvas :=
  let st := text_editing_exited toJSON r st in
  if changed && in_scene r st then fire toJSON ObjectModified st else st.

(** What fabric itself, or the tool code of the sibling component that
    works on the same canvas, does between the calls of the composable:
    the object events fired, each on the canvas as it is then, and the
    canvas left in the end. *)
Definition canvas_change (steps : list (FCanvas * CanvasEvent)) (c' : FCanvas)
  (st : State FCanvas) : State FCanvas :=
  match canvas st with
  | None => st
  | Some _ => set_canvas (Some c') (fire_all toJSON steps st)
  end.

(** What can happen to the composable once the canvas is set: the calls of
    its interface, the events fabric delivers to its listeners, and what
    else is done to the canvas. *)
Inductive UiEvent : Type :=
| SetTool (tool : ToolType)
| MouseDown (x y : float)
| MouseMove (x y : float)
| MouseUp (x y : float)
| TypeText (r : ObjRef) (s : string)
| EditingExited (r : ObjRef) (changed : bool)
| DeleteSelected (active : list ObjRef)
| SetBgTransparent (transparent : bool)
| UpdateBrush
| Undo
| Redo
| LoadCanvasJSON (json : string)
| CanvasChange (steps : list (FCanvas * CanvasEvent)) (c' : FCanvas).

Definition ui_step (st : State FCanvas) (e : UiEvent) : State FCanvas :=
  match e with
  | SetTool tool => setTool tool st
  | MouseDown x y => mouse_down toJSON x y st
  | MouseMove x y => mouse_move toJSON x y st
  | MouseUp x y => mouse_up toJSON x y st
  | TypeText r s => type_text r s st
  | EditingExited r changed => exit_editing r changed st
  | DeleteSelected active => deleteSelected active st
  | SetBgTransparent transparent => setBgTransparent transparent st
  | UpdateBrush => updateBrush st
  | Undo => undo toJSON loadFromJSON load_events st
  | Redo => redo toJSON loadFromJSON load_events st
  | LoadCanvasJSON json => loadCanvasJSON toJSON loadFromJSON load_events json st
  | CanvasChange steps c' => canvas_change steps c' st
  end.

(** The composable after [setCanvas(c0)] and the events [evs]. *)
Definition ui_session (c0 : FCanvas) (evs : list UiEvent) : State FCanvas :=
  fold_left ui_step evs (setCanvas toJSON c0 (initial_state FCanvas)).

End Ops.

End UseCanvasOps.

(** *** Sample canvases of the tool state machine *)

Module ToolSamples.

Definition canvas_of (st : UseCanvas.State UseCanvas.FCanvas) : UseCanvas.FCanvas :=
  match UseCanvas.canvas st with
  | Some c => c
  | None => Fabric.empty_canvas
  end.

(** The canvas with the one finished rectangle. *)
Definition holder_canvas : UseCanvas.FCanvas := canvas_of Sample.holder.

(** Loading the snapshots of [Sample.f_toJSON]: the number they carry is
    the number of objects to rebuild. *)
Fixpoint digits_value (s : string) (acc : nat) : nat :=
  match s with
  | EmptyString => acc
  | String ch rest =>
      let n := nat_of_ascii ch in
      if ((48 <=? n) && (n <=? 57))%nat
      then digits_value rest (acc * 10 + (n - 48))
      else digits_value rest acc
  end.

Definition plain_rect : Fabric.Object :=
  Fabric.mkObject 0 Fabric.Rect 0 0 10 10 0 0 "#ff6b6b" "#333333" 2 true "" "" 0 false.

Definition f_enliven (snap : string) : list Fabric.Object :=
  repeat plain_rect (digits_value snap 0).

Definition f_background (snap : string) : string := "#ffffff".

Definition f_loadFromJSON (c : UseCanvas.FCanvas) (snap : string) : UseCanvas.FCanvas :=
  FabricLoad.loadFromJSON f_enliven f_background c snap.

Definition f_load_events (c : UseCanvas.FCanvas) (snap : string)
  : list (UseCanvas.FCanvas * UseCanvas.CanvasEvent) :=
  FabricLoad.load_events f_enliven c snap.

(** The canvas with [n] rectangles drawn, and the session in which they
    are added one after the other to the empty canvas. *)
Definition rects (n : nat) : UseCanvas.FCanvas :=
  Fabric.mkCanvas (map (fun k => Fabric.set_oref k plain_rect) (seq 0 n))
    "#ffffff" false true "default" None [] [] [] None None n.

Definition adds (n : nat) : list (UseCanvas.FCanvas * UseCanvas.CanvasEvent) :=
  map (fun k => (rects k, UseCanvas.ObjectAdded)) (seq 1 n).

Definition f_session (acts : list (UseCanvas.Action UseCanvas.FCanvas))
  : UseCanvas.State UseCanvas.FCanvas :=
  UseCanvas.session Sample.f_toJSON f_loadFromJSON f_load_events Fabric.empty_canvas acts.

Definition f_mutations (n : nat) : list (UseCanvas.Action UseCanvas.FCanvas) :=
  map (fun m => UseCanvas.AMutate (fst m) (snd m)) (adds n).

Definition f_undo := UseCanvas.undo Sample.f_toJSON f_loadFromJSON f_load_events.

End ToolSamples.

(** *** The root component script, continued *)

Module AppOps.

Import UseFrames App.

Section Handlers.

Variable toJSON : UseCanvas.FCanvas -> string.
Variable toDataURL : UseCanvas.FCanvas -> string.
Variable loadFromJSON : UseCanvas.FCanvas -> string -> UseCanvas.FCanvas.
Variable load_events
  : UseCanvas.FCanvas -> string -> list (UseCanvas.FCanvas * UseCanvas.CanvasEvent).

(** [onSelectFrame(id)], once fabric has replaced the content of the
    canvas. *)
Definition onSelectFrame (i : string) (app : AppState) : AppState :=
  match List.find (fun f => String.eqb (id f) i) (frames app) with
  | None => app
  | Some frame =>
      set_canvasHolder
        (UseCanvas.loadCanvasJSON toJSON loadFromJSON load_events (fabricJson frame)
           (canvasHolder app)) app
  end.

(** [captureFrame] called once for each stamp, a stamp being what
    [Date.now()] and [Math.random()] return during the call. *)
Definition captures (stamps : list (Z * string)) (app : AppState) : AppState :=
  fold_left (fun a s => snd (captureFrame toJSON toDataURL (fst s) (snd s) a)) stamps app.

End Handlers.

(** The calls that feed the encoder when every image loads. *)
Definition fed_frames (fs : list Frame) : list Call :=
  flat_map (fun f => [ImageLoad (dataUrl f); EncoderAddFrame (dataUrl f) (delay f)]) fs.

End AppOps.

(** *** src/components/TimelineEditor.vue: drag to reorder *)

Module TimelineEditor.

(** The two refs of the drag state; [None] is [null]. *)
Record DragState : Type := mkDrag {
  dragFromIndex : option Z;
  dragOverIndex : option Z
}.

Definition idle : DragState := mkDrag None None.

(** ['reorder-frames'] with its two arguments. *)
Inductive Emit : Type :=
| ReorderFrames (fromIndex toIndex : Z).

Definition onDragStart (index : Z) (st : DragState) : DragState :=
  mkDrag (Some index) (dragOverIndex st).

Definition onDragOver (index : Z) (st : DragState) : DragState :=
  mkDrag (dragFromIndex st) (Some index).

Definition onDrop (toIndex : Z) (st : DragState) : DragState * option Emit :=
  match dragFromIndex st with
  | None => (mkDrag None None, None)
  | Some fromIndex =>
      if (fromIndex =? toIndex)%Z then (mkDrag None None, None)
      else (mkDrag None None, Some (ReorderFrames fromIndex toIndex))
  end.

Definition onDragEnd (st : DragState) : DragState := mkDrag None None.

(** The root component binds ['reorder-frames'] to [reorderFrames]. *)
Definition deliver (e : option Emit) (frames : list UseFrames.Frame)
  : list (option UseFrames.Frame) :=
  match e with
  | None => map Some frames
  | Some (ReorderFrames fromIndex toIndex) =>
      UseFrames.reorderFrames fromIndex toIndex frames
  end.

End TimelineEditor.

(** *** Sample snapshots that can be loaded back *)

Module LoadSamples.

(** A serialization that tells whether anything is drawn, and the loading
    that goes with it. *)
Definition g_toJSON (c : UseCanvas.FCanvas) : string :=
  match Fabric.objects c with
  | [] => "{empty}"
  | _ :: _ => "{drawn}"
  end.

Definition a_shape : Fabric.Object :=
  Fabric.mkObject 0 Fabric.Rect 0 0 10 10 0 0 "#ff6b6b" "#333333" 2 true "" "" 0 false.

Definition g_enliven (snap : string) : list Fabric.Object :=
  if String.eqb snap "{empty}" then [] else [a_shape].

Definition g_background (snap : string) : string := "#ffffff".

Definition g_loadFromJSON : UseCanvas.FCanvas -> string -> UseCanvas.FCanvas :=
  FabricLoad.loadFromJSON g_enliven g_background.

Definition g_load_events
  : UseCanvas.FCanvas -> string -> list (UseCanvas.FCanvas * UseCanvas.CanvasEvent) :=
  FabricLoad.load_events g_enliven.

(** An encoder that aborts, and one whose images never load. *)
Definition aborting : App.Encoder :=
  App.mkEncoder (fun _ => true) [50%float] App.Aborted.

Definition never_loading : App.Encoder :=
  App.mkEncoder (fun _ => false) [] (App.Finished 1024 "blob:emoji").

End LoadSamples.

(* ===================================================================== *)
(** * Properties                                                          *)
(* ===================================================================== *)

Unset Implicit Arguments.

(** ** Arrays *)

Section ArrayFacts.

Context {A : Type}.

Lemma relative_index_in_range (len : nat) (i : Z) :
  (0 <= i <= Z.of_nat len)%Z -> Js.relative_index len i = Z.to_nat i.
Proof.
  intros Hi. unfold Js.relative_index.
  destruct (i <? 0)%Z eqn:E; [apply Z.ltb_lt in E; lia | lia].
Qed.

Lemma findIndex_from_none (p : A -> bool) (arr : list A) (k : Z) :
  (forall x, In x arr -> p x = false) -> Js.findIndex_from p arr k = (-1)%Z.
Proof.
  revert k. induction arr as [|x rest IH]; intros k Hp; simpl.
  - reflexivity.
  - rewrite (Hp x (or_introl eq_refl)). apply IH.
    intros y Hy. apply Hp. now right.
Qed.

Lemma filter_all (p : A -> bool) (arr : list A) :
  (forall x, In x arr -> p x = true) -> filter p arr = arr.
Proof.
  induction arr as [|x rest IH]; intros Hp; simpl.
  - reflexivity.
  - rewrite (Hp x (or_introl eq_refl)). f_equal. apply IH.
    intros y Hy. apply Hp. now right.
Qed.

(** Removing the element at [i] and putting it back anywhere is a
    permutation. *)
Lemma remove_insert_Permutation (arr : list A) (i j : nat) (x : A) :
  nth_error arr i = Some x ->
  let rest := firstn i arr ++ skipn (S i) arr in
  Permutation (firstn j rest ++ x :: skipn j rest) arr.
Proof.
  intros Hx rest.
  apply Permutation_trans with (x :: rest).
  - rewrite <- (firstn_skipn j rest) at 3.
    apply Permutation_sym, Permutation_middle.
  - destruct (nth_error_split arr i Hx) as (l1 & l2 & -> & Hlen).
    subst rest i.
    assert (Hf : firstn (length l1) (l1 ++ x :: l2) = l1).
    { rewrite firstn_app, Nat.sub_diag, firstn_all. simpl. apply app_nil_r. }
    assert (Hs : skipn (S (length l1)) (l1 ++ x :: l2) = l2).
    { change (S (length l1)) with (1 + length l1)%nat.
      rewrite <- skipn_skipn, skipn_app, Nat.sub_diag, skipn_all. reflexivity. }
    rewrite Hf, Hs. apply Permutation_middle.
Qed.

Lemma last_cons_default (x d : A) (arr : list A) :
  last (x :: arr) d = last arr x.
Proof.
  revert x d. induction arr as [|y rest IH]; intros x d; [reflexivity|].
  change (last (x :: y :: rest) d) with (last (y :: rest) d).
  now rewrite !IH.
Qed.

End ArrayFacts.

(** ** Frame timeline *)

Section TimelineFacts.

Import UseFrames.

Lemma deleteFrame_unknown (i : string) (frames : list Frame) :
  (forall f, In f frames -> id f <> i) -> deleteFrame i frames = frames.
Proof.
  intros Hid. unfold deleteFrame. apply filter_all.
  intros f Hf. apply negb_true_iff, String.eqb_neq. now apply Hid.
Qed.

Lemma duplicateFrame_unknown (now : Z) (rnd i : string) (frames : list Frame) :
  (forall f, In f frames -> id f <> i) -> duplicateFrame now rnd i frames = frames.
Proof.
  intros Hid. unfold duplicateFrame, Js.findIndex.
  rewrite findIndex_from_none; [reflexivity|].
  intros f Hf. apply String.eqb_neq. now apply Hid.
Qed.

Lemma updateDelay_unknown (i : string) (d : float) (frames : list Frame) :
  (forall f, In f frames -> id f <> i) -> updateDelay i d frames = frames.
Proof.
  induction frames as [|f rest IH]; intros Hid; simpl.
  - reflexivity.
  - destruct (String.eqb (id f) i) eqn:E.
    + apply String.eqb_eq in E. exfalso. apply (Hid f); [now left | exact E].
    + f_equal. apply IH. intros g Hg. apply Hid. now right.
Qed.

(** C10.  [deleteFrame], [duplicateFrame] and [updateDelay] called with an
    id that no frame of the timeline carries leave the frame list exactly
    as it was. *)
Theorem unknown_id_is_noop (now : Z) (rnd i : string) (d : float) (frames : list Frame) :
  (forall f, In f frames -> id f <> i) ->
  deleteFrame i frames = frames
  /\ duplicateFrame now rnd i frames = frames
  /\ updateDelay i d frames = frames.
Proof.
  intros Hid. split; [|split].
  - now apply deleteFrame_unknown.
  - now apply duplicateFrame_unknown.
  - now apply updateDelay_unknown.
Qed.

Lemma unknown_id_is_noop_witness :
  (forall f, In f [Sample.A; Sample.B] -> id f <> "frame_0_zzzzz"%string)
  /\ deleteFrame "frame_0_zzzzz" [Sample.A; Sample.B] = [Sample.A; Sample.B]
  /\ duplicateFrame 0 "0.zzzzz" "frame_0_zzzzz" [Sample.A; Sample.B] = [Sample.A; Sample.B]
  /\ updateDelay "frame_0_zzzzz" 250 [Sample.A; Sample.B] = [Sample.A; Sample.B].
Proof.
  assert (H : forall f, In f [Sample.A; Sample.B] -> id f <> "frame_0_zzzzz"%string).
  { intros f [<-|[<-|[]]]; simpl; discriminate. }
  split; [exact H|].
  exact (unknown_id_is_noop 0%Z "0.zzzzz" "frame_0_zzzzz" 250%float [Sample.A; Sample.B] H).
Defined.

(** With both indices inside the array, the two splices of [reorderFrames]
    are the removal and the insertion of [Spec.move_frame]. *)
Lemma reorderFrames_move (fromIndex toIndex : Z) (frames : list Frame) :
  (0 <= fromIndex < Z.of_nat (length frames))%Z ->
  (0 <= toIndex < Z.of_nat (length frames))%Z ->
  fromIndex <> toIndex ->
  reorderFrames fromIndex toIndex frames
  = map Some (Spec.move_frame (Z.to_nat fromIndex) (Z.to_nat toIndex) frames).
Proof.
  intros Hf Ht Hne. unfold reorderFrames.
  destruct (fromIndex =? toIndex)%Z eqn:E; [apply Z.eqb_eq in E; contradiction|].
  unfold Js.splice. rewrite length_map.
  rewrite (relative_index_in_range (length frames) fromIndex) by lia.
  set (i := Z.to_nat fromIndex). set (j := Z.to_nat toIndex).
  assert (Hi : (i < length frames)%nat) by lia.
  assert (Hj : (j < length frames)%nat) by lia.
  destruct (nth_error frames i) as [x|] eqn:Hx;
    [|apply nth_error_None in Hx; lia].
  unfold Spec.move_frame. rewrite Hx.
  destruct (nth_error_split frames i Hx) as (l1 & l2 & Hfr & Hl1).
  replace (Nat.min (Z.to_nat (Z.max 1 0)) (length frames - i)) with 1%nat by lia.
  assert (Hsk : skipn i (map Some frames) = Some x :: map Some l2).
  { rewrite Hfr, map_app, skipn_app, length_map, Hl1, Nat.sub_diag.
    rewrite skipn_all2 by (rewrite length_map; lia). reflexivity. }
  rewrite Hsk. cbn [firstn app snd].
  set (rest := firstn i frames ++ skipn (S i) frames).
  assert (Hrest : firstn i (map Some frames) ++ skipn (i + 1) (map Some frames)
                  = map Some rest).
  { unfold rest. rewrite map_app, firstn_map, skipn_map.
    now replace (i + 1)%nat with (S i) by lia. }
  rewrite Hrest, length_map.
  assert (Hlen : length rest = (length frames - 1)%nat).
  { unfold rest. rewrite length_app, length_firstn, length_skipn. lia. }
  rewrite relative_index_in_range by lia. fold j.
  replace (Nat.min (Z.to_nat (Z.max 0 0)) (length rest - j)) with 0%nat by lia.
  rewrite Nat.add_0_r, firstn_map, skipn_map, map_app. reflexivity.
Qed.

Lemma move_frame_Permutation (from to : nat) (frames : list Frame) :
  Permutation (Spec.move_frame from to frames) frames.
Proof.
  unfold Spec.move_frame.
  destruct (nth_error frames from) as [x|] eqn:Hx.
  - now apply remove_insert_Permutation.
  - apply Permutation_refl.
Qed.

Lemma move_frame_lands (from to : nat) (frames : list Frame) :
  (from < length frames)%nat -> (to < length frames)%nat ->
  nth_error (Spec.move_frame from to frames) to = nth_error frames from.
Proof.
  intros Hf Ht. unfold Spec.move_frame.
  destruct (nth_error frames from) as [x|] eqn:Hx;
    [|apply nth_error_None in Hx; lia].
  set (rest := firstn from frames ++ skipn (S from) frames).
  assert (Hlen : length rest = (length frames - 1)%nat).
  { unfold rest. rewrite length_app, length_firstn, length_skipn. lia. }
  rewrite nth_error_app2 by (rewrite length_firstn; lia).
  rewrite length_firstn.
  replace (to - Nat.min to (length rest))%nat with 0%nat by lia.
  reflexivity.
Qed.

(** C8.  For indices inside the timeline, [reorderFrames] yields the
    expected permutation: the frame taken from [fromIndex] sits at
    [toIndex], the frames and hence the multiset of their ids are those of
    the timeline, [A,B,C,D] reordered by (0,2) is [B,C,A,D], and equal
    indices leave the timeline as it is. *)
Theorem reorderFrames_permutes :
  (forall (fromIndex toIndex : Z) (frames : list Frame),
     (0 <= fromIndex < Z.of_nat (length frames))%Z ->
     (0 <= toIndex < Z.of_nat (length frames))%Z ->
     exists frames',
       reorderFrames fromIndex toIndex frames = map Some frames'
       /\ Permutation frames' frames
       /\ Permutation (map id frames') (map id frames)
       /\ nth_error frames' (Z.to_nat toIndex) = nth_error frames (Z.to_nat fromIndex)
       /\ frames' = Spec.move_frame (Z.to_nat fromIndex) (Z.to_nat toIndex) frames)
  /\ reorderFrames 0 2 [Sample.A; Sample.B; Sample.C; Sample.D]
     = map Some [Sample.B; Sample.C; Sample.A; Sample.D]
  /\ (forall (i : Z) (frames : list Frame), reorderFrames i i frames = map Some frames).
Proof.
  split; [|split].
  - intros fromIndex toIndex frames Hf Ht.
    exists (Spec.move_frame (Z.to_nat fromIndex) (Z.to_nat toIndex) frames).
    assert (Hp := move_frame_Permutation (Z.to_nat fromIndex) (Z.to_nat toIndex) frames).
    split; [|split; [exact Hp|split; [now apply Permutation_map|split; [|reflexivity]]]].
    + destruct (Z.eq_dec fromIndex toIndex) as [->|Hne].
      * unfold reorderFrames. rewrite Z.eqb_refl. f_equal.
        unfold Spec.move_frame.
        destruct (nth_error frames (Z.to_nat toIndex)) as [x|] eqn:Hx; [|reflexivity].
        destruct (nth_error_split frames _ Hx) as (l1 & l2 & Hfr & Hl1).
        rewrite <- Hl1, Hfr.
        assert (Hfi : firstn (length l1) (l1 ++ x :: l2) = l1).
        { rewrite firstn_app, Nat.sub_diag, firstn_all. simpl. apply app_nil_r. }
        assert (Hs : skipn (S (length l1)) (l1 ++ x :: l2) = l2).
        { change (S (length l1)) with (1 + length l1)%nat.
          rewrite <- skipn_skipn, skipn_app, Nat.sub_diag, skipn_all. reflexivity. }
        rewrite Hfi, Hs.
        rewrite firstn_app, Nat.sub_diag, firstn_all. simpl. rewrite app_nil_r.
        rewrite skipn_app, Nat.sub_diag, skipn_all. reflexivity.
      * now apply reorderFrames_move.
    + apply move_frame_lands; lia.
  - reflexivity.
  - intros i frames. unfold reorderFrames. now rewrite Z.eqb_refl.
Qed.

Lemma reorderFrames_permutes_witness :
  (0 <= 3 < Z.of_nat (length [Sample.A; Sample.B; Sample.C; Sample.D]))%Z
  /\ (0 <= 1 < Z.of_nat (length [Sample.A; Sample.B; Sample.C; Sample.D]))%Z
  /\ exists frames',
       reorderFrames 3 1 [Sample.A; Sample.B; Sample.C; Sample.D] = map Some frames'
       /\ Permutation frames' [Sample.A; Sample.B; Sample.C; Sample.D]
       /\ Permutation (map id frames') (map id [Sample.A; Sample.B; Sample.C; Sample.D])
       /\ nth_error frames' (Z.to_nat 1) = nth_error [Sample.A; Sample.B; Sample.C; Sample.D] (Z.to_nat 3)
       /\ frames' = Spec.move_frame (Z.to_nat 3) (Z.to_nat 1) [Sample.A; Sample.B; Sample.C; Sample.D].
Proof.
  assert (H3 : (0 <= 3 < Z.of_nat (length [Sample.A; Sample.B; Sample.C; Sample.D]))%Z)
    by (simpl; lia).
  assert (H1 : (0 <= 1 < Z.of_nat (length [Sample.A; Sample.B; Sample.C; Sample.D]))%Z)
    by (simpl; lia).
  split; [exact H3|split; [exact H1|]].
  exact (proj1 reorderFrames_permutes 3%Z 1%Z [Sample.A; Sample.B; Sample.C; Sample.D] H3 H1).
Defined.

End TimelineFacts.

(** ** Compliance checker *)

Section ComplianceFacts.

Import UseFrames ComplianceChecker.

Variable Number_toString : float -> string.

(** A double is equal to itself unless it is NaN. *)
Lemma SFeqb_refl_finite (s : bool) (m : positive) (e : Z) :
  SFeqb (S754_finite s m e) (S754_finite s m e) = true.
Proof.
  unfold SFeqb, SFcompare.
  destruct s; rewrite Z.compare_refl, Pos.compare_cont_refl; reflexivity.
Qed.

(** A size above the limit is truthy: the guard
    [estimatedFileSizeBytes && ...] only screens out a missing size. *)
Lemma above_limit_truthy (b : float) :
  PrimFloat.ltb 512000 b = true -> Js.truthy_number b = true.
Proof.
  intros Hlt. unfold Js.truthy_number, PrimFloat.is_zero, PrimFloat.is_nan.
  rewrite FloatAxioms.ltb_spec in Hlt. rewrite !FloatAxioms.eqb_spec.
  change (Prim2SF 512000) with (S754_finite false 8796093022208000 (-34)) in Hlt.
  change (Prim2SF PrimFloat.zero) with (S754_zero false).
  destruct (Prim2SF b) as [s|s| |s m e].
  - discriminate Hlt.
  - destruct s; [discriminate Hlt | reflexivity].
  - discriminate Hlt.
  - rewrite SFeqb_refl_finite. destruct s; reflexivity.
Qed.

Lemma too_big_limit (size : option float) :
  too_big size = match size with Some b => PrimFloat.ltb 512000 b | None => false end.
Proof.
  destruct size as [b|]; [|reflexivity].
  unfold too_big. change (500 * 1024)%float with 512000%float.
  destruct (PrimFloat.ltb 512000 b) eqn:E.
  - now rewrite above_limit_truthy.
  - apply andb_false_r.
Qed.

Lemma totalDurationMs_delays (frames : list Frame) :
  totalDurationMs frames = fold_left PrimFloat.add (map delay frames) 0%float.
Proof.
  unfold totalDurationMs. generalize 0%float.
  induction frames as [|f rest IH]; intros acc; simpl; [reflexivity | apply IH].
Qed.

Lemma uniform_delays (d : float) (frames : list Frame) :
  Forall (fun f => delay f = d) frames -> map delay frames = repeat d (length frames).
Proof.
  induction 1 as [|f rest Hf _ IH]; simpl; [reflexivity | now rewrite Hf, IH].
Qed.

Lemma totalDurationMs_uniform (d : float) (n : nat) (frames : list Frame) :
  length frames = n -> Forall (fun f => delay f = d) frames ->
  totalDurationMs frames = fold_left PrimFloat.add (repeat d n) 0%float.
Proof.
  intros Hn Hd. now rewrite totalDurationMs_delays, (uniform_delays d), Hn.
Qed.

(** The warnings are the three rules, each evaluated on its own. *)
Lemma checkCompliance_warnings (frames : list Frame) (size : option float) :
  warnings (checkCompliance Number_toString frames size)
  = (if (10 <? length frames)%nat then [frames_warning frames] else [])
    ++ (if PrimFloat.ltb 30000 (totalDurationMs frames)
        then [duration_warning Number_toString (totalDurationMs frames)] else [])
    ++ (match size with
        | Some b => if PrimFloat.ltb 512000 b then [size_warning Number_toString b] else []
        | None => []
        end).
Proof.
  unfold checkCompliance. cbn [warnings].
  rewrite too_big_limit. unfold too_many_frames, too_long, Js.push.
  destruct (10 <? length frames)%nat, (PrimFloat.ltb 30000 (totalDurationMs frames)),
    size as [b|]; try destruct (PrimFloat.ltb 512000 b); reflexivity.
Qed.

Lemma checkCompliance_valid (frames : list Frame) (size : option float) :
  valid (checkCompliance Number_toString frames size) = true
  <-> warnings (checkCompliance Number_toString frames size) = [].
Proof.
  unfold checkCompliance. cbn [valid warnings].
  rewrite Nat.eqb_eq. apply length_zero_iff_nil.
Qed.

(** C6.  [valid] holds exactly when no warning fired; the warnings are the
    frame-count rule (more than 10 frames), the duration rule (delays
    summing to more than 30000 ms) and the size rule (a known size above
    512000 bytes), each on its own; and the four sample timelines of the
    specification give the stated results. *)
Theorem checkCompliance_rules :
  (forall frames size,
     let r := checkCompliance Number_toString frames size in
     (valid r = true <-> warnings r = [])
     /\ warnings r
        = (if (10 <? length frames)%nat then [frames_warning frames] else [])
          ++ (if PrimFloat.ltb 30000 (totalDurationMs frames)
              then [duration_warning Number_toString (totalDurationMs frames)] else [])
          ++ (match size with
              | Some b => if PrimFloat.ltb 512000 b
                          then [size_warning Number_toString b] else []
              | None => []
              end))
  /\ (forall frames,
        length frames = 12%nat -> Forall (fun f => delay f = 100%float) frames ->
        In "Too many frames (12/10). WeChat allows max 10 frames."%string
           (warnings (checkCompliance Number_toString frames None)))
  /\ (forall frames,
        length frames = 5%nat -> Forall (fun f => delay f = 7000%float) frames ->
        In "Total animation duration 35.0s exceeds 30s limit."%string
           (warnings (checkCompliance Number_toString frames None)))
  /\ (forall frames,
        In "Estimated file size 600KB exceeds WeChat's 500KB limit."%string
           (warnings (checkCompliance Number_toString frames (Some 614400%float))))
  /\ (forall frames size,
        length frames = 3%nat -> Forall (fun f => delay f = 50%float) frames ->
        match size with Some b => PrimFloat.ltb 512000 b = false | None => True end ->
        checkCompliance Number_toString frames size = {| valid := true; warnings := [] |}).
Proof.
  split; [|split; [|split; [|split]]].
  - intros frames size r. split.
    + apply checkCompliance_valid.
    + apply checkCompliance_warnings.
  - intros frames Hn Hd. rewrite checkCompliance_warnings.
    unfold frames_warning. rewrite Hn. left. reflexivity.
  - intros frames Hn Hd. rewrite checkCompliance_warnings.
    rewrite (totalDurationMs_uniform 7000 5 frames Hn Hd), Hn.
    left. reflexivity.
  - intros frames. rewrite checkCompliance_warnings.
    apply in_or_app. right. apply in_or_app. right. left. reflexivity.
  - intros frames size Hn Hd Hsize.
    assert (Hw : warnings (checkCompliance Number_toString frames size) = []).
    { rewrite checkCompliance_warnings.
      rewrite (totalDurationMs_uniform 50 3 frames Hn Hd), Hn.
      destruct size as [b|]; [rewrite Hsize|]; reflexivity. }
    unfold checkCompliance in *. cbn [warnings] in Hw. cbn [valid warnings].
    rewrite Hw. reflexivity.
Qed.

End ComplianceFacts.

Lemma checkCompliance_rules_witness :
  (length Sample.twelve = 12%nat
   /\ Forall (fun f => UseFrames.delay f = 100%float) Sample.twelve)
  /\ In "Too many frames (12/10). WeChat allows max 10 frames."%string
       (ComplianceChecker.warnings
          (ComplianceChecker.checkCompliance Sample.Number_toString Sample.twelve None)).
Proof.
  assert (Hd : Forall (fun f => UseFrames.delay f = 100%float) Sample.twelve)
    by (repeat constructor).
  split; [split; [reflexivity | exact Hd]|].
  exact (proj1 (proj2 (checkCompliance_rules Sample.Number_toString))
           Sample.twelve eq_refl Hd).
Defined.

(** ** History manager *)

Section HistoryFacts.

Import UseCanvas.

Variable Canvas : Type.
Variable toJSON : Canvas -> string.
Variable loadFromJSON : Canvas -> string -> Canvas.
Variable load_events : Canvas -> string -> list (Canvas * CanvasEvent).

Local Abbreviation State := (UseCanvas.State Canvas).
Local Abbreviation _saveHistory := (UseCanvas._saveHistory toJSON).
Local Abbreviation fire := (UseCanvas.fire toJSON).
Local Abbreviation fire_at := (UseCanvas.fire_at toJSON).
Local Abbreviation fire_all := (UseCanvas.fire_all toJSON).
Local Abbreviation restore := (UseCanvas.restore toJSON loadFromJSON load_events).
Local Abbreviation undo := (UseCanvas.undo toJSON loadFromJSON load_events).
Local Abbreviation redo := (UseCanvas.redo toJSON loadFromJSON load_events).
Local Abbreviation mutate := (UseCanvas.mutate toJSON).
Local Abbreviation setCanvas := (UseCanvas.setCanvas toJSON).
Local Abbreviation session := (UseCanvas.session toJSON loadFromJSON load_events).
Local Abbreviation step := (UseCanvas.step toJSON loadFromJSON load_events).
Local Abbreviation getCanvasJSON := (UseCanvas.getCanvasJSON toJSON).
Local Abbreviation loadCanvasJSON := (UseCanvas.loadCanvasJSON toJSON loadFromJSON load_events).

(** *** The restoring flag suppresses capture *)

Lemma saveHistory_restoring (st : State) :
  _isRestoringHistory st = true -> _saveHistory st = st.
Proof.
  intros Hf. unfold UseCanvas._saveHistory.
  destruct (canvas st); [now rewrite Hf | reflexivity].
Qed.

Lemma fire_restoring (ev : CanvasEvent) (st : State) :
  _isRestoringHistory st = true -> fire ev st = st.
Proof.
  intros Hf. destruct ev; simpl; rewrite ?Hf; auto using saveHistory_restoring.
Qed.

(** *** What a capture does *)

Lemma saveHistory_fires (st : State) (c : Canvas) :
  canvas st = Some c -> _isRestoringHistory st = false ->
  (-1 <= _historyIndex st < Z.of_nat (length (_history st)))%Z ->
  let h := firstn (Z.to_nat (_historyIndex st + 1)) (_history st) ++ [toJSON c] in
  _saveHistory st
  = if (50 <? length h)%nat
    then set_historyIndex (Z.of_nat (length h) - 1 - 1) (set_history (tl h) st)
    else set_historyIndex (Z.of_nat (length h) - 1) (set_history h st).
Proof.
  intros Hc Hf Hi h. unfold UseCanvas._saveHistory. rewrite Hc, Hf.
  assert (Hh : (if (_historyIndex st <? Z.of_nat (length (_history st)) - 1)%Z
                then Js.slice0 (_history st) (_historyIndex st + 1)
                else _history st)
               = firstn (Z.to_nat (_historyIndex st + 1)) (_history st)).
  { destruct (_historyIndex st <? Z.of_nat (length (_history st)) - 1)%Z eqn:E.
    - unfold Js.slice0. now rewrite relative_index_in_range by lia.
    - apply Z.ltb_ge in E. symmetry. apply firstn_all2. lia. }
  rewrite Hh. reflexivity.
Qed.

(** *** The cursor stays in range and the capacity is kept *)

Lemma setCanvas_initial (c0 : Canvas) :
  setCanvas c0 (initial_state Canvas)
  = mkState initial_refs (Some c0) [toJSON c0] 0%Z false 0%float 0%float None false.
Proof. reflexivity. Qed.

Lemma fire_capture (ev : CanvasEvent) (st : State) :
  _isRestoringHistory st = false -> fire ev st = _saveHistory st.
Proof. intros Hf. destruct ev; simpl; now rewrite ?Hf. Qed.

Lemma saveHistory_bounded (st : State) :
  bounded st -> bounded (_saveHistory st).
Proof.
  intros (Hc & Hi & Hl).
  destruct (_isRestoringHistory st) eqn:Hf.
  { rewrite saveHistory_restoring by assumption. now repeat split. }
  destruct (canvas st) as [c|] eqn:Ec; [|contradiction].
  rewrite (saveHistory_fires st c Ec Hf) by lia. cbv zeta.
  set (h := firstn (Z.to_nat (_historyIndex st + 1)) (_history st) ++ [toJSON c]).
  assert (Hh : length h = (Z.to_nat (_historyIndex st + 1) + 1)%nat).
  { unfold h. rewrite length_app, length_firstn. simpl. lia. }
  assert (Htl : length (tl h) = (length h - 1)%nat) by (destruct h; simpl; lia).
  destruct (50 <? length h)%nat eqn:E; unfold bounded;
    cbn [canvas _history _historyIndex set_history set_historyIndex]; rewrite Ec.
  - apply Nat.ltb_lt in E. split; [discriminate|]. rewrite Htl. lia.
  - apply Nat.ltb_ge in E. split; [discriminate|]. lia.
Qed.

Lemma fire_bounded (ev : CanvasEvent) (st : State) :
  bounded st -> bounded (fire ev st).
Proof.
  intros Hb. destruct (_isRestoringHistory st) eqn:Hf.
  - now rewrite fire_restoring.
  - rewrite fire_capture by assumption. now apply saveHistory_bounded.
Qed.

Lemma mutate_bounded (c' : Canvas) (ev : CanvasEvent) (st : State) :
  bounded st -> bounded (mutate c' ev st).
Proof.
  intros Hb. unfold UseCanvas.mutate.
  destruct (canvas st) eqn:Ec; [|exact Hb].
  apply fire_bounded. destruct Hb as (_ & Hi & Hl).
  unfold bounded. simpl. split; [discriminate | now split].
Qed.

Lemma fire_at_bounded (step : Canvas * CanvasEvent) (st : State) :
  bounded st -> bounded (fire_at st step).
Proof.
  intros (_ & Hi & Hl). unfold UseCanvas.fire_at. apply fire_bounded.
  unfold bounded. simpl. split; [discriminate | now split].
Qed.

Lemma fire_all_bounded (steps : list (Canvas * CanvasEvent)) (st : State) :
  bounded st -> bounded (fire_all steps st).
Proof.
  unfold UseCanvas.fire_all. revert st.
  induction steps as [|step steps IH]; intros st Hb; simpl; [exact Hb|].
  apply IH, fire_at_bounded, Hb.
Qed.

(** Whatever the reload fires and whether or not the flag is cleared, the
    reload keeps the cursor in range and the capacity. *)
Lemma restore_bounded (c : Canvas) (snap : string) (st : State) :
  bounded st -> bounded (restore c snap st).
Proof.
  intros Hb. unfold UseCanvas.restore. cbv zeta.
  match goal with |- UseCanvas.bounded (set_canvas _ (UseCanvas.fire_all _ _ ?s)) =>
    assert (Hs : bounded s)
  end.
  { destruct (existsb _ _); [|exact Hb].
    destruct Hb as (Hc & Hi & Hl). unfold bounded. simpl. now repeat split. }
  apply (fire_all_bounded (load_events c snap)) in Hs. destruct Hs as (_ & Hi & Hl).
  unfold bounded. simpl. split; [discriminate | now split].
Qed.

Lemma undo_bounded (st : State) : bounded st -> bounded (undo st).
Proof.
  intros Hb. unfold UseCanvas.undo.
  destruct (canvas st) as [c|] eqn:Ec; [|exact Hb].
  destruct (_historyIndex st <=? 0)%Z eqn:E; [exact Hb|]. apply Z.leb_gt in E.
  assert (Hb1 : bounded (set_isRestoringHistory true
                           (set_historyIndex (_historyIndex st - 1) st))).
  { destruct Hb as (_ & Hi & Hl). unfold bounded. simpl. rewrite Ec.
    split; [discriminate | lia]. }
  cbv zeta.
  match goal with |- context [Js.index ?h ?i] => destruct (Js.index h i) as [snap|] end;
    [|exact Hb1].
  destruct (Js.truthy_string snap); [|exact Hb1].
  now apply restore_bounded.
Qed.

Lemma redo_bounded (st : State) : bounded st -> bounded (redo st).
Proof.
  intros Hb. unfold UseCanvas.redo.
  destruct (canvas st) as [c|] eqn:Ec; [|exact Hb].
  destruct (Z.of_nat (length (_history st)) - 1 <=? _historyIndex st)%Z eqn:E; [exact Hb|].
  apply Z.leb_gt in E.
  assert (Hb1 : bounded (set_isRestoringHistory true
                           (set_historyIndex (_historyIndex st + 1) st))).
  { destruct Hb as (_ & Hi & Hl). unfold bounded. simpl. rewrite Ec.
    split; [discriminate | lia]. }
  cbv zeta.
  match goal with |- context [Js.index ?h ?i] => destruct (Js.index h i) as [snap|] end;
    [|exact Hb1].
  destruct (Js.truthy_string snap); [|exact Hb1].
  now apply restore_bounded.
Qed.

Lemma loadCanvasJSON_bounded (json : string) (st : State) :
  bounded st -> bounded (loadCanvasJSON json st).
Proof.
  intros Hb. unfold UseCanvas.loadCanvasJSON.
  destruct (canvas st) as [c|] eqn:Ec; [|exact Hb].
  apply restore_bounded. destruct Hb as (_ & Hi & Hl).
  unfold bounded. simpl. rewrite Ec. split; [discriminate | now split].
Qed.

Lemma step_bounded (a : Action Canvas) (st : State) : bounded st -> bounded (step st a).
Proof.
  destruct a; simpl;
    auto using mutate_bounded, undo_bounded, redo_bounded, loadCanvasJSON_bounded.
Qed.

Lemma run_invariant (P : State -> Prop) :
  (forall a st, P st -> P (step st a)) ->
  forall acts st, P st -> P (UseCanvas.run toJSON loadFromJSON load_events acts st).
Proof.
  intros Hstep acts. unfold UseCanvas.run.
  induction acts as [|a acts IH]; intros st Hst; simpl; [exact Hst|].
  apply IH, Hstep, Hst.
Qed.

Lemma session_bounded (c0 : Canvas) (acts : list (Action Canvas)) :
  bounded (session c0 acts).
Proof.
  unfold UseCanvas.session. apply run_invariant.
  - intros a st. apply step_bounded.
  - rewrite setCanvas_initial. unfold bounded. simpl. split; [discriminate | lia].
Qed.

(** C3.  In every session the history holds at most 50 entries; and when a
    capture arrives at a full history (50 entries, cursor on the last) the
    oldest entry is dropped, the new snapshot becomes the last entry, and
    the cursor, decremented from the pushed position 50, ends on the new
    snapshot at index 49, where it was before the capture: every retained
    entry is as far from the cursor as without the eviction, and as many
    undo steps are available as before. *)
Theorem history_capacity (c0 : Canvas) (acts : list (Action Canvas)) :
  let st := session c0 acts in
  (length (_history st) <= 50)%nat
  /\ forall c' ev,
       _isRestoringHistory st = false ->
       length (_history st) = 50%nat ->
       canRedo st = false ->
       let st' := mutate c' ev st in
       _history st' = tl (_history st) ++ [toJSON c']
       /\ length (_history st') = 50%nat
       /\ _historyIndex st' = _historyIndex st
       /\ _historyIndex st' = 49%Z
       /\ Js.index (_history st') (_historyIndex st') = Some (toJSON c')
       /\ (forall j, nth_error (_history st') j
                     = nth_error (_history st ++ [toJSON c']) (S j)).
Proof.
  intros st. destruct (session_bounded c0 acts) as (Hc & Hi & Hl). fold st in Hc, Hi, Hl.
  split; [exact Hl|].
  intros c' ev Hf Hfull Hredo st'.
  unfold canRedo in Hredo. apply Z.ltb_ge in Hredo.
  assert (Hidx : _historyIndex st = 49%Z) by lia.
  subst st'. unfold UseCanvas.mutate.
  destruct (canvas st) as [c|] eqn:Ec; [|contradiction].
  rewrite fire_capture by exact Hf.
  rewrite (saveHistory_fires (set_canvas (Some c') st) c') by (simpl; (reflexivity || assumption || lia)).
  cbv zeta. cbn [set_canvas _history _historyIndex].
  rewrite Hidx. rewrite firstn_all2 by lia.
  rewrite length_app, Hfull. cbn [length Nat.add Nat.ltb Nat.leb].
  cbn [set_historyIndex set_history _history _historyIndex].
  destruct (_history st) as [|x h] eqn:Eh; [discriminate Hfull|].
  cbn [tl app]. simpl in Hfull.
  repeat split; try reflexivity.
  - rewrite length_app. simpl. lia.
  - unfold Js.index. change (Z.of_nat 51 - 1 - 1)%Z with 49%Z.
    change (49 <? 0)%Z with false. cbv iota.
    replace (Z.to_nat 49) with (length h) by lia.
    rewrite nth_error_app2, Nat.sub_diag by lia. reflexivity.
Qed.

(** *** Captures and the redo branch *)

Lemma saveHistory_canvas (st : State) : canvas (_saveHistory st) = canvas st.
Proof.
  unfold UseCanvas._saveHistory. destruct (canvas st) eqn:Ec; [|assumption].
  destruct (_isRestoringHistory st); [assumption|].
  cbv zeta. destruct (50 <? _)%nat; exact Ec.
Qed.

Lemma fire_canvas (ev : CanvasEvent) (st : State) : canvas (fire ev st) = canvas st.
Proof.
  destruct ev; simpl; try destruct (_isRestoringHistory st); auto using saveHistory_canvas.
Qed.

Lemma saveHistory_flag (st : State) :
  _isRestoringHistory (_saveHistory st) = _isRestoringHistory st.
Proof.
  unfold UseCanvas._saveHistory. destruct (canvas st); [|reflexivity].
  destruct (_isRestoringHistory st) eqn:Ef; [assumption|].
  cbv zeta. destruct (50 <? _)%nat; exact Ef.
Qed.

(** After a capture the cursor is on the last entry, which is the snapshot
    of the canvas. *)
Lemma saveHistory_at_tail (st : State) (c : Canvas) :
  canvas st = Some c -> _isRestoringHistory st = false -> bounded st ->
  _historyIndex (_saveHistory st) = (Z.of_nat (length (_history (_saveHistory st))) - 1)%Z
  /\ Js.index (_history (_saveHistory st)) (_historyIndex (_saveHistory st))
     = Some (toJSON c).
Proof.
  intros Ec Hf (_ & Hi & Hl).
  rewrite (saveHistory_fires st c Ec Hf) by lia. cbv zeta.
  set (p := firstn (Z.to_nat (_historyIndex st + 1)) (_history st)).
  assert (Hp : length p = Z.to_nat (_historyIndex st + 1)).
  { unfold p. rewrite length_firstn. lia. }
  destruct p as [|x p'] eqn:Ep; [simpl in Hp; lia|].
  cbn [app length]. rewrite length_app. cbn [length].
  destruct (50 <? S (length p' + 1))%nat;
    cbn [_history _historyIndex set_history set_historyIndex tl]; unfold Js.index.
  - rewrite length_app. cbn [length]. split; [lia|].
    destruct (_ <? 0)%Z eqn:E; [apply Z.ltb_lt in E; lia|].
    replace (Z.to_nat _) with (length p') by lia.
    rewrite nth_error_app2, Nat.sub_diag by lia. reflexivity.
  - cbn [length]. rewrite length_app. cbn [length]. split; [lia|].
    destruct (_ <? 0)%Z eqn:E; [apply Z.ltb_lt in E; lia|].
    replace (Z.to_nat _) with (S (length p')) by lia.
    cbn [nth_error]. rewrite nth_error_app2, Nat.sub_diag by lia. reflexivity.
Qed.

End HistoryFacts.

(** *** The capacity on the sample canvas *)

Lemma history_capacity_witness :
  let st := UseCanvas.session Sample.s_toJSON Sample.s_loadFromJSON Sample.s_load_events
              "0"%string (Sample.s_mutations 49) in
  let st' := UseCanvas.mutate Sample.s_toJSON "50"%string UseCanvas.ObjectAdded st in
  (UseCanvas._isRestoringHistory st = false
   /\ length (UseCanvas._history st) = 50%nat
   /\ UseCanvas.canRedo st = false)
  /\ (UseCanvas._history st' = tl (UseCanvas._history st) ++ [Sample.s_toJSON "50"%string]
      /\ length (UseCanvas._history st') = 50%nat
      /\ UseCanvas._historyIndex st' = UseCanvas._historyIndex st
      /\ UseCanvas._historyIndex st' = 49%Z
      /\ Js.index (UseCanvas._history st') (UseCanvas._historyIndex st')
         = Some (Sample.s_toJSON "50"%string)
      /\ (forall j, nth_error (UseCanvas._history st') j
                    = nth_error (UseCanvas._history st ++ [Sample.s_toJSON "50"%string])
                        (S j))).
Proof.
  assert (Hf : UseCanvas._isRestoringHistory
                 (UseCanvas.session Sample.s_toJSON Sample.s_loadFromJSON
                    Sample.s_load_events "0"%string (Sample.s_mutations 49)) = false)
    by (vm_compute; reflexivity).
  assert (Hl : length (UseCanvas._history
                 (UseCanvas.session Sample.s_toJSON Sample.s_loadFromJSON
                    Sample.s_load_events "0"%string (Sample.s_mutations 49))) = 50%nat)
    by (vm_compute; reflexivity).
  assert (Hr : UseCanvas.canRedo
                 (UseCanvas.session Sample.s_toJSON Sample.s_loadFromJSON
                    Sample.s_load_events "0"%string (Sample.s_mutations 49)) = false)
    by (vm_compute; reflexivity).
  split; [split; [exact Hf | split; [exact Hl | exact Hr]]|].
  exact (proj2 (history_capacity string Sample.s_toJSON Sample.s_loadFromJSON
                  Sample.s_load_events "0"%string (Sample.s_mutations 49))
           "50"%string UseCanvas.ObjectAdded Hf Hl Hr).
Defined.

(** *** The reload on the sample canvas

    The sample session adds rectangles one by one to the empty canvas;
    its snapshots tell the number of objects. *)

(** C9, on the code.  One undo after three additions: the reviver clears
    the flag before [clear()] and [add(...)] run, so the reload of the
    snapshot with two objects is captured removal by removal and addition
    by addition.  The four entries become eight and the cursor ends on
    the last of them, where the claim has the four entries kept and the
    cursor moved from 3 to 2. *)
Theorem undo_reload_is_captured :
  let st := ToolSamples.f_session (ToolSamples.f_mutations 3) in
  let st' := ToolSamples.f_undo st in
  (UseCanvas._history st
   = ["{objects:0}"; "{objects:1}"; "{objects:2}"; "{objects:3}"]%string
   /\ UseCanvas._historyIndex st = 3%Z)
  /\ (UseCanvas._history st'
      = ["{objects:0}"; "{objects:1}"; "{objects:2}"; "{objects:2}"; "{objects:1}";
         "{objects:0}"; "{objects:2}"; "{objects:2}"]%string
      /\ UseCanvas._historyIndex st' = 7%Z)
  /\ UseCanvas._history st' <> UseCanvas._history st
  /\ UseCanvas._historyIndex st' <> (UseCanvas._historyIndex st - 1)%Z.
Proof.
  split; [split; vm_compute; reflexivity|].
  split; [split; vm_compute; reflexivity|].
  split; vm_compute; discriminate.
Qed.

(** C1, on the code.  Three additions and three undos: every reload but
    that of the empty snapshot is captured, so the second and third undo
    step back onto entries that earlier reloads appended.  After the
    three undos the canvas shows two objects, not the initial empty
    canvas, and the history has 14 entries with the cursor on the last;
    the round-trip law of the claim fails for these three mutations. *)
Theorem round_trip_broken_by_reload :
  let st := ToolSamples.f_session (ToolSamples.f_mutations 3) in
  let undone := Nat.iter 3 ToolSamples.f_undo st in
  UseCanvas.getCanvasJSON Sample.f_toJSON undone = "{objects:2}"%string
  /\ Sample.f_toJSON Fabric.empty_canvas = "{objects:0}"%string
  /\ length (UseCanvas._history undone) = 14%nat
  /\ UseCanvas._historyIndex undone = 13%Z
  /\ ~ UseCanvas.round_trip Sample.f_toJSON ToolSamples.f_loadFromJSON
         ToolSamples.f_load_events Fabric.empty_canvas (ToolSamples.adds 3).
Proof.
  split; [vm_compute; reflexivity|]. split; [vm_compute; reflexivity|].
  split; [vm_compute; reflexivity|]. split; [vm_compute; reflexivity|].
  intros [Hundo _]. vm_compute in Hundo. discriminate Hundo.
Qed.

(** C2, on the code.  An addition, an undo and another addition: the undo
    reloads the snapshot of the empty canvas, for which the reviver is
    never called, so the flag stays set; the 'object:added' of the next
    addition is then not captured, and neither is an explicit capture.
    The entry after the cursor is still there and [canRedo()] is true,
    where the claim has it false. *)
Theorem stuck_flag_skips_capture :
  let st := ToolSamples.f_session (ToolSamples.f_mutations 1) in
  let undone := ToolSamples.f_undo st in
  let edited := UseCanvas.mutate Sample.f_toJSON (ToolSamples.rects 1)
                  UseCanvas.ObjectAdded undone in
  UseCanvas._isRestoringHistory undone = true
  /\ UseCanvas.getCanvasJSON Sample.f_toJSON edited = "{objects:1}"%string
  /\ UseCanvas._history edited = ["{objects:0}"; "{objects:1}"]%string
  /\ UseCanvas._historyIndex edited = 0%Z
  /\ UseCanvas.canRedo edited = true
  /\ UseCanvas.canRedo (UseCanvas._saveHistory Sample.f_toJSON edited) = true.
Proof. repeat (split; [vm_compute; reflexivity|]). vm_compute. reflexivity. Qed.

(** ** Tool state machine *)

Section ToolFacts.

Import UseCanvas.

Lemma existsb_all_selectable (r : ObjRef) (b : bool) (os : list Fabric.Object) :
  existsb (fun o => (Fabric.oref o =? r)%nat) (map (Fabric.set_selectable b) os)
  = existsb (fun o => (Fabric.oref o =? r)%nat) os.
Proof.
  induction os as [|o os IH]; simpl; [reflexivity | now rewrite IH].
Qed.

Lemma selectable_absorbed (b : bool) (os : list Fabric.Object) :
  map (Fabric.set_selectable true) (map (Fabric.set_selectable b) os)
  = map (Fabric.set_selectable true) os.
Proof.
  rewrite map_map. apply map_ext. intros o. reflexivity.
Qed.

(** What [setTool] does to a state that has a canvas: it records the tool,
    swaps the pointer listeners, and sets every object's [selectable]
    flag; the objects, the history and the gesture variables stay. *)
Lemma setTool_effect (tool : ToolType) (st : State FCanvas) (c : FCanvas) :
  canvas st = Some c ->
  exists c',
    canvas (setTool tool st) = Some c'
    /\ (Fabric.on_mouse_down c', Fabric.on_mouse_move c', Fabric.on_mouse_up c')
       = listeners_of tool
    /\ Fabric.objects c'
       = map (Fabric.set_selectable match tool with select => true | _ => false end)
           (Fabric.objects c)
    /\ _history (setTool tool st) = _history st
    /\ _historyIndex (setTool tool st) = _historyIndex st
    /\ _activeShape (setTool tool st) = _activeShape st
    /\ _isDrawingShape (setTool tool st) = _isDrawingShape st.
Proof.
  intros Ec. unfold setTool, _applyTool, _removeShapeListeners, with_canvas.
  cbn [canvas set_refs]. rewrite Ec. cbn [canvas set_canvas].
  destruct tool; cbn [canvas set_canvas]; eexists; repeat split.
Qed.

(** C7, as the code has it.  A tool selection that arrives while a shape is
    being dragged swaps the pointer listeners for those of the new tool
    and captures nothing: the shape added at pointer-down stays in the
    scene, every object keeps its properties up to the [selectable] flag,
    and the history, which holds the entry captured when the shape was
    added, and its cursor are unchanged. *)
Theorem tool_switch_keeps_partial_shape
  (st : State FCanvas) (c : FCanvas) (r : ObjRef) (tool : ToolType) :
  canvas st = Some c ->
  _isDrawingShape st = true ->
  _activeShape st = Some r ->
  in_scene r st = true ->
  exists c',
    canvas (setTool tool st) = Some c'
    /\ (Fabric.on_mouse_down c', Fabric.on_mouse_move c', Fabric.on_mouse_up c')
       = listeners_of tool
    /\ map (Fabric.set_selectable true) (Fabric.objects c')
       = map (Fabric.set_selectable true) (Fabric.objects c)
    /\ in_scene r (setTool tool st) = true
    /\ _history (setTool tool st) = _history st
    /\ _historyIndex (setTool tool st) = _historyIndex st.
Proof.
  intros Ec _ _ Hin.
  destruct (setTool_effect tool st c Ec) as (c' & Ec' & Hl & Ho & Hh & Hi & _ & _).
  exists c'. split; [exact Ec'|]. split; [exact Hl|].
  split; [rewrite Ho; apply selectable_absorbed|].
  split; [|split; assumption].
  unfold in_scene in *. rewrite Ec', Ho, existsb_all_selectable.
  now rewrite Ec in Hin.
Qed.

End ToolFacts.

Lemma tool_switch_keeps_partial_shape_witness :
  (UseCanvas.canvas Sample.mid_drag = Some Sample.mid_drag_canvas
   /\ UseCanvas._isDrawingShape Sample.mid_drag = true
   /\ UseCanvas._activeShape Sample.mid_drag = Some 0%nat
   /\ UseCanvas.in_scene 0 Sample.mid_drag = true)
  /\ exists c',
       UseCanvas.canvas (UseCanvas.setTool UseCanvas.select Sample.mid_drag) = Some c'
       /\ (Fabric.on_mouse_down c', Fabric.on_mouse_move c', Fabric.on_mouse_up c')
          = UseCanvas.listeners_of UseCanvas.select
       /\ map (Fabric.set_selectable true) (Fabric.objects c')
          = map (Fabric.set_selectable true) (Fabric.objects Sample.mid_drag_canvas)
       /\ UseCanvas.in_scene 0 (UseCanvas.setTool UseCanvas.select Sample.mid_drag) = true
       /\ UseCanvas._history (UseCanvas.setTool UseCanvas.select Sample.mid_drag)
          = UseCanvas._history Sample.mid_drag
       /\ UseCanvas._historyIndex (UseCanvas.setTool UseCanvas.select Sample.mid_drag)
          = UseCanvas._historyIndex Sample.mid_drag.
Proof.
  assert (Hc : UseCanvas.canvas Sample.mid_drag = Some Sample.mid_drag_canvas)
    by (vm_compute; reflexivity).
  assert (Hd : UseCanvas._isDrawingShape Sample.mid_drag = true)
    by (vm_compute; reflexivity).
  assert (Ha : UseCanvas._activeShape Sample.mid_drag = Some 0%nat)
    by (vm_compute; reflexivity).
  assert (Hs : UseCanvas.in_scene 0 Sample.mid_drag = true)
    by (vm_compute; reflexivity).
  split; [exact (conj Hc (conj Hd (conj Ha Hs)))|].
  exact (tool_switch_keeps_partial_shape Sample.mid_drag Sample.mid_drag_canvas 0%nat
           UseCanvas.select Hc Hd Ha Hs).
Defined.

(** The interrupted drag of the sample, step by step: the pointer-down adds
    the rectangle and the 'object:added' subscription captures it; the
    switch to the selection tool takes the listeners away and leaves the
    rectangle, the history and the gesture variables as they are. *)
Lemma interrupted_drag_trace :
  let switched := UseCanvas.setTool UseCanvas.select Sample.mid_drag in
  UseCanvas._history Sample.shape_tool_chosen = ["{objects:0}"%string]
  /\ UseCanvas._history Sample.mid_drag = ["{objects:0}"; "{objects:1}"]%string
  /\ UseCanvas._history switched = ["{objects:0}"; "{objects:1}"]%string
  /\ UseCanvas.in_scene 0 switched = true
  /\ UseCanvas._isDrawingShape switched = true
  /\ UseCanvas._activeShape switched = Some 0%nat.
Proof. vm_compute. repeat split. Qed.

(** A completed rectangle drag is captured twice: when the shape is added
    at pointer-down and when it is finalized at pointer-up. *)
Lemma completed_drag_captures_twice :
  UseCanvas._history (UseCanvas.mouse_up Sample.f_toJSON 30 25 Sample.mid_drag)
  = ["{objects:0}"; "{objects:1}"; "{objects:1}"]%string.
Proof. vm_compute. reflexivity. Qed.

(** C7 as stated fails: when the selection tool is chosen in the middle of
    a rectangle drag, the rectangle is still in the scene and the history
    still holds the entry captured when it was added. *)
Lemma tool_switch_does_not_cancel :
  ~ UseCanvas.gesture_cancelled Sample.shape_tool_chosen Sample.mid_drag 0%nat
      UseCanvas.select.
Proof.
  intros [Hgone _]. vm_compute in Hgone. discriminate Hgone.
Qed.

(** ** Capture and export *)

Section ComponentFacts.

Import UseFrames ComplianceChecker App.

Variable toJSON : UseCanvas.FCanvas -> string.
Variable toDataURL : UseCanvas.FCanvas -> string.
Variable Number_toString : float -> string.

Local Abbreviation captureFrame := (App.captureFrame toJSON toDataURL).
Local Abbreviation exportEmoji := (App.exportEmoji toDataURL Number_toString).

(** The cap is [captureFrame]'s: [addFrame] itself always appends. *)
Lemma addFrame_always_appends (now : Z) (rnd url json : string) (d : option float)
  (fs : list Frame) :
  length (fst (addFrame now rnd url json d fs)) = S (length fs).
Proof. unfold addFrame, Js.push. cbn [fst]. rewrite length_app. simpl. lia. Qed.

(** An accepted capture returns [undefined] as well. *)
Lemma captureFrame_returns_undefined (now : Z) (rnd : string) (app : AppState) :
  fst (captureFrame now rnd app) = undefined.
Proof. now destruct (fst (captureFrame now rnd app)). Qed.

(** C4, as the code has it.  A capture attempted when the timeline holds 10
    frames (or more) is a silent no-op: the timeline and the rest of the
    component state are exactly as before, [captureFrame] returns
    [undefined] as it does after an accepted capture, and nothing tells
    the caller of the rejection. *)
Theorem capture_at_cap_is_silent (now : Z) (rnd : string) (app : AppState) :
  (10 <= length (frames app))%nat ->
  let r := captureFrame now rnd app in
  r = (undefined, app)
  /\ frames (snd r) = frames app
  /\ ~ signals app r
  /\ (forall app', fst (captureFrame now rnd app') = fst r).
Proof.
  intros Hcap r.
  assert (Hr : r = (undefined, app)).
  { subst r. unfold App.captureFrame.
    destruct (10 <=? length (frames app))%nat eqn:E; [reflexivity|].
    apply Nat.leb_gt in E. lia. }
  rewrite Hr. split; [reflexivity|]. split; [reflexivity|]. split.
  - intros [H|[H|H]]; now apply H.
  - intros app'. apply captureFrame_returns_undefined.
Qed.

Lemma exportPng_calls_clean (app : AppState) :
  Forall (fun c => is_encoder_call c = false /\ is_compliance_call c = false)
    (exportPng_calls app)
  /\ filter is_download (exportPng_calls app) = [].
Proof.
  unfold exportPng_calls. destruct (UseCanvas.canvas (canvasHolder app)).
  - split; [repeat constructor | reflexivity].
  - split; [constructor | reflexivity].
Qed.

(** C5.  Exporting an empty timeline delivers one download, [emoji.png],
    whose content is the PNG data URL of the live canvas, and calls neither
    the GIF encoder nor the compliance checker; the frames stay empty and
    no warning or error is recorded. *)
Theorem export_empty_timeline (enc : Encoder) (app : AppState) :
  frames app = [] ->
  let r := exportEmoji enc app in
  snd r = exportPng_calls app
          ++ [Download "emoji.png" (fst (UseCanvas.exportPng toDataURL (canvasHolder app)))]
  /\ Forall (fun c => is_encoder_call c = false /\ is_compliance_call c = false) (snd r)
  /\ length (filter is_download (snd r)) = 1%nat
  /\ (forall c, UseCanvas.canvas (canvasHolder app) = Some c ->
        In (Download "emoji.png" (toDataURL (Fabric.discardActiveObject c))) (snd r))
  /\ frames (fst r) = []
  /\ complianceWarnings (fst r) = []
  /\ exportError (fst r) = None
  /\ isExporting (fst r) = isExporting app.
Proof.
  intros Hempty r.
  assert (Hr : r = (set_canvasHolder
                      (snd (UseCanvas.exportPng toDataURL (canvasHolder app)))
                      (set_complianceWarnings [] (set_exportError None app)),
                    exportPng_calls app
                    ++ [Download "emoji.png"
                          (fst (UseCanvas.exportPng toDataURL (canvasHolder app)))])).
  { subst r. unfold App.exportEmoji. cbn [frames set_complianceWarnings set_exportError].
    rewrite Hempty. cbn [canvasHolder set_complianceWarnings set_exportError].
    unfold exportPng_calls. cbn [canvasHolder].
    destruct (UseCanvas.exportPng toDataURL (canvasHolder app)). reflexivity. }
  rewrite Hr. cbn [fst snd].
  destruct (exportPng_calls_clean app) as (Hclean & Hnodl).
  split; [reflexivity|]. split; [|split; [|split; [|repeat split]]].
  - apply Forall_app. split; [exact Hclean | repeat constructor].
  - rewrite filter_app, Hnodl. reflexivity.
  - intros c Ec. apply in_or_app. right. left.
    unfold UseCanvas.exportPng. now rewrite Ec.
  - exact Hempty.
Qed.

(** For comparison: with at least one frame the export does run the
    compliance checker and does create the encoder. *)
Lemma export_timeline_checks_and_encodes (enc : Encoder) (app : AppState) :
  frames app <> [] ->
  In RunComplianceCheck (snd (exportEmoji enc app))
  /\ In (EncoderNew 240 240 8 2) (snd (exportEmoji enc app)).
Proof.
  intros Hne. unfold App.exportEmoji. cbn [frames set_complianceWarnings set_exportError].
  destruct (frames app) as [|f fs] eqn:Ef; [contradiction|].
  cbv zeta.
  match goal with |- context [feed ?e ?l] => destruct (feed e l) as [fed loaded] end.
  destruct loaded; [destruct (outcome enc)|]; cbn [snd];
    rewrite ?in_app_iff; simpl; tauto.
Qed.

End ComponentFacts.

Lemma capture_at_cap_is_silent_witness :
  (10 <= length (App.frames Sample.app_full))%nat
  /\ App.captureFrame Sample.f_toJSON Sample.f_toDataURL 1700000000000 "0.4fzyo82mvyr"
       Sample.app_full
     = (App.undefined, Sample.app_full).
Proof.
  assert (Hcap : (10 <= length (App.frames Sample.app_full))%nat) by (simpl; lia).
  split; [exact Hcap|].
  exact (proj1 (capture_at_cap_is_silent Sample.f_toJSON Sample.f_toDataURL
                  1700000000000 "0.4fzyo82mvyr" Sample.app_full Hcap)).
Defined.

(** C4 as stated fails: the eleventh capture leaves ten frames but tells
    its caller nothing. *)
Lemma capture_at_cap_not_signalled :
  ~ App.rejected_and_signalled Sample.f_toJSON Sample.f_toDataURL
      1700000000000 "0.4fzyo82mvyr" Sample.app_full.
Proof.
  intros [_ [H|[H|H]]]; apply H; vm_compute; reflexivity.
Qed.

Lemma export_empty_timeline_witness :
  App.frames Sample.app_empty = []
  /\ snd (App.exportEmoji Sample.f_toDataURL Sample.Number_toString Sample.encoder
            Sample.app_empty)
     = App.exportPng_calls Sample.app_empty
       ++ [App.Download "emoji.png"
             (fst (UseCanvas.exportPng Sample.f_toDataURL
                     (App.canvasHolder Sample.app_empty)))].
Proof.
  split; [reflexivity|].
  exact (proj1 (export_empty_timeline Sample.f_toDataURL Sample.Number_toString
                  Sample.encoder Sample.app_empty eq_refl)).
Defined.

(* ===================================================================== *)
(** * Further properties                                                  *)
(* ===================================================================== *)

(** ** Frame timeline, continued *)

Section TimelineMore.

Import UseFrames.

(** A list either has no element satisfying [p], or splits at the first
    one that does. *)
Lemma first_match_split {A : Type} (p : A -> bool) (arr : list A) :
  (forall x, In x arr -> p x = false)
  \/ exists l1 x l2,
       arr = l1 ++ x :: l2 /\ p x = true /\ (forall y, In y l1 -> p y = false).
Proof.
  induction arr as [|a rest IH].
  - left. intros x [].
  - destruct (p a) eqn:Ea.
    + right. exists [], a, rest. repeat split; [exact Ea | intros y []].
    + destruct IH as [Hnone | (l1 & x & l2 & -> & Hx & Hl1)].
      * left. intros x [<-|Hx]; auto.
      * right. exists (a :: l1), x, l2. repeat split; [exact Hx|].
        intros y [<-|Hy]; auto.
Qed.

Lemma findIndex_from_first {A : Type} (p : A -> bool) (l1 : list A) (x : A)
  (l2 : list A) (k : Z) :
  p x = true -> (forall y, In y l1 -> p y = false) ->
  Js.findIndex_from p (l1 ++ x :: l2) k = (k + Z.of_nat (length l1))%Z.
Proof.
  intros Hx. revert k. induction l1 as [|a l1 IH]; intros k Hl1; simpl.
  - rewrite Hx. lia.
  - rewrite (Hl1 a (or_introl eq_refl)). rewrite IH by (intros y Hy; apply Hl1; now right).
    lia.
Qed.

Lemma firstn_middle {A : Type} (l1 : list A) (x : A) (l2 : list A) :
  firstn (length l1) (l1 ++ x :: l2) = l1
  /\ skipn (length l1) (l1 ++ x :: l2) = x :: l2
  /\ firstn (S (length l1)) (l1 ++ x :: l2) = l1 ++ [x]
  /\ skipn (S (length l1)) (l1 ++ x :: l2) = l2
  /\ nth_error (l1 ++ x :: l2) (length l1) = Some x.
Proof.
  repeat split.
  - rewrite firstn_app, Nat.sub_diag, firstn_all. simpl. apply app_nil_r.
  - rewrite skipn_app, Nat.sub_diag, skipn_all. reflexivity.
  - replace (S (length l1)) with (length l1 + 1)%nat by lia.
    rewrite firstn_app_2. reflexivity.
  - change (S (length l1)) with (1 + length l1)%nat.
    rewrite <- skipn_skipn, skipn_app, Nat.sub_diag, skipn_all. reflexivity.
  - rewrite nth_error_app2, Nat.sub_diag by lia. reflexivity.
Qed.

Lemma duplicateFrame_known (now : Z) (rnd i : string)
  (l1 : list Frame) (f : Frame) (l2 : list Frame) :
  id f = i -> (forall g, In g l1 -> id g <> i) ->
  duplicateFrame now rnd i (l1 ++ f :: l2)
  = l1 ++ f :: mkFrame (fresh_id now rnd) (dataUrl f) (fabricJson f) (delay f) :: l2.
Proof.
  intros Hf Hl1. unfold duplicateFrame, Js.findIndex.
  rewrite (findIndex_from_first _ l1 f l2 0%Z)
    by (try (apply String.eqb_eq; exact Hf); intros g Hg; apply String.eqb_neq; auto).
  destruct (firstn_middle l1 f l2) as (_ & _ & Hfs & Hsk & Hnth).
  destruct (0 + Z.of_nat (length l1) =? -1)%Z eqn:E; [apply Z.eqb_eq in E; lia|].
  unfold Js.index.
  destruct (0 + Z.of_nat (length l1) <? 0)%Z eqn:E2; [apply Z.ltb_lt in E2; lia|].
  replace (Z.to_nat (0 + Z.of_nat (length l1))) with (length l1) by lia.
  rewrite Hnth. unfold Js.splice. cbn [snd].
  rewrite relative_index_in_range by (rewrite length_app; simpl; lia).
  replace (Z.to_nat (0 + Z.of_nat (length l1) + 1)) with (S (length l1)) by lia.
  replace (Nat.min (Z.to_nat (Z.max 0 0)) _) with 0%nat by lia.
  rewrite Nat.add_0_r, Hfs, Hsk. rewrite <- app_assoc. reflexivity.
Qed.

(** X1.  [duplicateFrame] with the id of a frame puts a copy right after
    the first frame that carries the id: same image, snapshot and delay,
    a new id, every other frame where it was, and one frame more in the
    timeline, whatever its length. *)
Theorem duplicateFrame_inserts_copy (now : Z) (rnd i : string)
  (l1 : list Frame) (f : Frame) (l2 : list Frame) :
  id f = i -> (forall g, In g l1 -> id g <> i) ->
  duplicateFrame now rnd i (l1 ++ f :: l2)
  = l1 ++ f :: mkFrame (fresh_id now rnd) (dataUrl f) (fabricJson f) (delay f) :: l2
  /\ length (duplicateFrame now rnd i (l1 ++ f :: l2)) = S (length (l1 ++ f :: l2)).
Proof.
  intros Hf Hl1. rewrite (duplicateFrame_known now rnd i l1 f l2 Hf Hl1).
  split; [reflexivity|]. rewrite !length_app. simpl. lia.
Qed.

Lemma duplicateFrame_inserts_copy_witness :
  duplicateFrame 7 "0.abcdefgh" "B" [Sample.A; Sample.B; Sample.C]
  = [Sample.A; Sample.B;
     mkFrame "frame_7_abcde" "data:image/png;B" "{}" 100; Sample.C].
Proof.
  assert (Hf : id Sample.B = "B"%string) by reflexivity.
  assert (Hl : forall g, In g [Sample.A] -> id g <> "B"%string).
  { intros g [<-|[]]. discriminate. }
  exact (proj1 (duplicateFrame_inserts_copy 7 "0.abcdefgh" "B" [Sample.A] Sample.B
                  [Sample.C] Hf Hl)).
Defined.

Lemma deleteFrame_In (i : string) (fs : list Frame) (f : Frame) :
  In f (deleteFrame i fs) <-> In f fs /\ id f <> i.
Proof.
  unfold deleteFrame. rewrite filter_In, negb_true_iff, String.eqb_neq. reflexivity.
Qed.

Lemma deleteFrame_at (i : string) (l1 : list Frame) (f : Frame) (l2 : list Frame) :
  id f = i -> (forall g, In g (l1 ++ l2) -> id g <> i) ->
  deleteFrame i (l1 ++ f :: l2) = l1 ++ l2.
Proof.
  intros Hf Hrest. unfold deleteFrame.
  rewrite filter_app. cbn [filter].
  replace (String.eqb (id f) i) with true by (symmetry; now apply String.eqb_eq).
  cbn [negb]. rewrite <- filter_app. apply filter_all.
  intros g Hg. apply negb_true_iff, String.eqb_neq. now apply Hrest.
Qed.

(** X2.  [deleteFrame] removes every frame that carries the id, also when
    several do, and nothing else: the frames left are those of the
    timeline with another id, in their order; when one frame carries the
    id, exactly that frame goes. *)
Theorem deleteFrame_removes_matches (i : string) (fs : list Frame) :
  (forall f, In f (deleteFrame i fs) <-> In f fs /\ id f <> i)
  /\ (forall l1 f l2,
        fs = l1 ++ f :: l2 -> id f = i ->
        (forall g, In g (l1 ++ l2) -> id g <> i) ->
        deleteFrame i fs = l1 ++ l2)
  /\ (forall l1 l2, fs = l1 ++ l2 ->
        deleteFrame i fs = deleteFrame i l1 ++ deleteFrame i l2).
Proof.
  split; [intros f; apply deleteFrame_In|]. split.
  - intros l1 f l2 -> Hf Hrest. now apply deleteFrame_at.
  - intros l1 l2 ->. apply filter_app.
Qed.

Lemma deleteFrame_removes_matches_witness :
  [Sample.A; Sample.B; Sample.C] = [Sample.A] ++ Sample.B :: [Sample.C]
  /\ id Sample.B = "B"%string
  /\ deleteFrame "B" [Sample.A; Sample.B; Sample.C] = [Sample.A] ++ [Sample.C].
Proof.
  assert (Hrest : forall g, In g ([Sample.A] ++ [Sample.C]) -> id g <> "B"%string).
  { intros g [<-|[<-|[]]]; discriminate. }
  split; [reflexivity|]. split; [reflexivity|].
  exact (proj1 (proj2 (deleteFrame_removes_matches "B" [Sample.A; Sample.B; Sample.C]))
           [Sample.A] Sample.B [Sample.C] eq_refl eq_refl Hrest).
Defined.

(** X3.  [updateDelay] with the id of a frame sets the delay of the first
    frame that carries the id and changes nothing else: the other frames,
    the order, and that frame's id, image and snapshot stay. *)
Theorem updateDelay_sets_first_match (i : string) (d : float)
  (l1 : list Frame) (f : Frame) (l2 : list Frame) :
  id f = i -> (forall g, In g l1 -> id g <> i) ->
  updateDelay i d (l1 ++ f :: l2)
  = l1 ++ mkFrame (id f) (dataUrl f) (fabricJson f) d :: l2.
Proof.
  intros Hf. induction l1 as [|a l1 IH]; intros Hl1; simpl.
  - replace (String.eqb (id f) i) with true by (symmetry; now apply String.eqb_eq).
    reflexivity.
  - replace (String.eqb (id a) i) with false
      by (symmetry; apply String.eqb_neq, Hl1; now left).
    rewrite IH by (intros g Hg; apply Hl1; now right). reflexivity.
Qed.

Lemma updateDelay_sets_first_match_witness :
  updateDelay "B" 250 [Sample.A; Sample.B; Sample.C]
  = [Sample.A; mkFrame "B" "data:image/png;B" "{}" 250; Sample.C].
Proof.
  assert (Hf : id Sample.B = "B"%string) by reflexivity.
  assert (Hl : forall g, In g [Sample.A] -> id g <> "B"%string).
  { intros g [<-|[]]. discriminate. }
  exact (updateDelay_sets_first_match "B" 250 [Sample.A] Sample.B [Sample.C] Hf Hl).
Defined.

(** X4.  [setAllDelays] gives every frame the delay, whatever the delays
    were, and keeps the ids, images and snapshots and the order; applied
    twice, the last delay stands. *)
Theorem setAllDelays_uniform (d : float) (fs : list Frame) :
  Forall (fun f => delay f = d) (setAllDelays d fs)
  /\ map id (setAllDelays d fs) = map id fs
  /\ map dataUrl (setAllDelays d fs) = map dataUrl fs
  /\ map fabricJson (setAllDelays d fs) = map fabricJson fs
  /\ (forall d', setAllDelays d (setAllDelays d' fs) = setAllDelays d fs).
Proof.
  unfold setAllDelays. repeat split.
  - apply Forall_map, Forall_forall. intros f _. reflexivity.
  - rewrite map_map. apply map_ext. reflexivity.
  - rewrite map_map. apply map_ext. reflexivity.
  - rewrite map_map. apply map_ext. reflexivity.
  - intros d'. rewrite map_map. apply map_ext. reflexivity.
Qed.

(** X5.  Deleting the copy that [duplicateFrame] made, by its new id,
    gives the timeline back, provided no frame already carried that id. *)
Theorem duplicate_then_delete (now : Z) (rnd i : string) (fs : list Frame) :
  (forall f, In f fs -> id f <> fresh_id now rnd) ->
  deleteFrame (fresh_id now rnd) (duplicateFrame now rnd i fs) = fs.
Proof.
  intros Hfresh.
  destruct (first_match_split (fun f => String.eqb (id f) i) fs)
    as [Hnone | (l1 & f & l2 & Hfs & Hf & Hl1)].
  - rewrite duplicateFrame_unknown
      by (intros f Hin; apply String.eqb_neq; now apply Hnone).
    now apply deleteFrame_unknown.
  - subst fs. apply String.eqb_eq in Hf.
    rewrite (duplicateFrame_known now rnd i l1 f l2 Hf)
      by (intros g Hg; apply String.eqb_neq; now apply Hl1).
    change (l1 ++ f :: mkFrame (fresh_id now rnd) (dataUrl f) (fabricJson f) (delay f) :: l2)
      with (l1 ++ [f] ++ mkFrame (fresh_id now rnd) (dataUrl f) (fabricJson f) (delay f) :: l2).
    rewrite app_assoc, deleteFrame_at.
    + now rewrite <- app_assoc.
    + reflexivity.
    + intros g Hg. apply Hfresh. rewrite <- app_assoc in Hg. exact Hg.
Qed.

Lemma duplicate_then_delete_witness :
  deleteFrame (fresh_id 7 "0.abcdefgh")
    (duplicateFrame 7 "0.abcdefgh" "B" [Sample.A; Sample.B; Sample.C])
  = [Sample.A; Sample.B; Sample.C].
Proof.
  assert (Hfresh : forall f, In f [Sample.A; Sample.B; Sample.C]
                             -> id f <> fresh_id 7 "0.abcdefgh").
  { intros f [<-|[<-|[<-|[]]]]; discriminate. }
  exact (duplicate_then_delete 7 "0.abcdefgh" "B" [Sample.A; Sample.B; Sample.C] Hfresh).
Defined.

End TimelineMore.

Section ReorderMore.

Import UseFrames.

Lemma relative_index_beyond (len : nat) (i : Z) :
  (Z.of_nat len <= i)%Z -> Js.relative_index len i = len.
Proof.
  intros Hi. unfold Js.relative_index.
  destruct (i <? 0)%Z eqn:E; [apply Z.ltb_lt in E; lia | lia].
Qed.

(** X6.  [reorderFrames] does not check its indices: with [fromIndex] at or
    beyond the end of the timeline nothing is taken out, and [undefined]
    is inserted at [toIndex], so that the timeline has one entry more and
    one that is no frame. *)
Theorem reorderFrames_from_beyond_end (fromIndex toIndex : Z) (fs : list Frame) :
  (Z.of_nat (length fs) <= fromIndex)%Z ->
  (0 <= toIndex <= Z.of_nat (length fs))%Z ->
  fromIndex <> toIndex ->
  reorderFrames fromIndex toIndex fs
  = map Some (firstn (Z.to_nat toIndex) fs) ++ None :: map Some (skipn (Z.to_nat toIndex) fs)
  /\ length (reorderFrames fromIndex toIndex fs) = S (length fs)
  /\ In None (reorderFrames fromIndex toIndex fs).
Proof.
  intros Hf Ht Hne.
  assert (Heq : reorderFrames fromIndex toIndex fs
                = map Some (firstn (Z.to_nat toIndex) fs)
                  ++ None :: map Some (skipn (Z.to_nat toIndex) fs)).
  { unfold reorderFrames.
    destruct (fromIndex =? toIndex)%Z eqn:E; [apply Z.eqb_eq in E; contradiction|].
    unfold Js.splice. rewrite length_map.
    rewrite relative_index_beyond by exact Hf.
    rewrite Nat.sub_diag, Nat.min_0_r. cbn [firstn Nat.add].
    assert (Hall : firstn (length fs) (map Some fs) ++ [] ++ skipn (length fs + 0) (map Some fs)
                   = map Some fs).
    { rewrite Nat.add_0_r.
      rewrite (firstn_all2 (map Some fs)) by (rewrite length_map; lia).
      rewrite (skipn_all2 (map Some fs)) by (rewrite length_map; lia).
      cbn [app]. apply app_nil_r. }
    rewrite Hall, length_map.
    rewrite relative_index_in_range by lia.
    replace (Nat.min (Z.to_nat (Z.max 0 0)) _) with 0%nat by lia.
    cbn [snd]. rewrite Nat.add_0_r, firstn_map, skipn_map. reflexivity. }
  rewrite Heq. split; [reflexivity|]. split.
  - rewrite length_app. cbn [length]. rewrite !length_map, length_firstn, length_skipn. lia.
  - apply in_or_app. right. now left.
Qed.

Lemma reorderFrames_from_beyond_end_witness :
  reorderFrames 7 1 [Sample.A; Sample.B; Sample.C]
  = map Some (firstn (Z.to_nat 1) [Sample.A; Sample.B; Sample.C])
    ++ None :: map Some (skipn (Z.to_nat 1) [Sample.A; Sample.B; Sample.C]).
Proof.
  assert (Hf : (Z.of_nat (length [Sample.A; Sample.B; Sample.C]) <= 7)%Z) by (simpl; lia).
  assert (Ht : (0 <= 1 <= Z.of_nat (length [Sample.A; Sample.B; Sample.C]))%Z)
    by (simpl; lia).
  assert (Hne : 7%Z <> 1%Z) by discriminate.
  exact (proj1 (reorderFrames_from_beyond_end 7 1 [Sample.A; Sample.B; Sample.C] Hf Ht Hne)).
Defined.

Lemma move_frame_back {A : Type} (i j : nat) (l : list A) :
  (i < length l)%nat -> (j < length l)%nat ->
  Spec.move_frame j i (Spec.move_frame i j l) = l.
Proof.
  intros Hi Hj. unfold Spec.move_frame at 2.
  destruct (nth_error l i) as [x|] eqn:Hx; [|apply nth_error_None in Hx; lia].
  destruct (nth_error_split l i Hx) as (l1 & l2 & -> & Hl1). subst i.
  destruct (firstn_middle l1 x l2) as (Hf1 & _ & _ & Hs1 & _).
  rewrite Hf1, Hs1.
  set (rest := l1 ++ l2).
  assert (Hrest : length rest = (length l1 + length l2)%nat) by (unfold rest; apply length_app).
  rewrite length_app in Hj. simpl in Hj.
  assert (Hfj : length (firstn j rest) = j) by (rewrite length_firstn; lia).
  unfold Spec.move_frame.
  destruct (firstn_middle (firstn j rest) x (skipn j rest)) as (Hf2 & _ & _ & Hs2 & Hn2).
  rewrite Hfj in Hf2, Hs2, Hn2. rewrite Hn2, Hf2, Hs2, firstn_skipn.
  unfold rest.
  rewrite firstn_app, Nat.sub_diag, firstn_all. simpl. rewrite app_nil_r.
  rewrite skipn_app, Nat.sub_diag, skipn_all. reflexivity.
Qed.

(** X7.  Moving a frame from one index to another and then back from the
    second index to the first restores the timeline. *)
Theorem reorderFrames_there_and_back (i j : Z) (fs : list Frame) :
  (0 <= i < Z.of_nat (length fs))%Z ->
  (0 <= j < Z.of_nat (length fs))%Z ->
  exists fs',
    reorderFrames i j fs = map Some fs'
    /\ reorderFrames j i fs' = map Some fs.
Proof.
  intros Hi Hj.
  destruct (Z.eq_dec i j) as [->|Hne].
  - exists fs. unfold reorderFrames. rewrite Z.eqb_refl. now split.
  - exists (Spec.move_frame (Z.to_nat i) (Z.to_nat j) fs).
    split; [now apply reorderFrames_move|].
    assert (Hlen : length (Spec.move_frame (Z.to_nat i) (Z.to_nat j) fs) = length fs).
    { apply Permutation_length, move_frame_Permutation. }
    rewrite reorderFrames_move by (rewrite ?Hlen; auto; lia).
    f_equal. apply move_frame_back; lia.
Qed.

Lemma reorderFrames_there_and_back_witness :
  exists fs',
    reorderFrames 0 2 [Sample.A; Sample.B; Sample.C; Sample.D] = map Some fs'
    /\ reorderFrames 2 0 fs' = map Some [Sample.A; Sample.B; Sample.C; Sample.D].
Proof.
  assert (H0 : (0 <= 0 < Z.of_nat (length [Sample.A; Sample.B; Sample.C; Sample.D]))%Z)
    by (simpl; lia).
  assert (H2 : (0 <= 2 < Z.of_nat (length [Sample.A; Sample.B; Sample.C; Sample.D]))%Z)
    by (simpl; lia).
  exact (reorderFrames_there_and_back 0 2 [Sample.A; Sample.B; Sample.C; Sample.D] H0 H2).
Defined.

End ReorderMore.

(** ** Compliance checker, continued *)

Section ComplianceMore.

Import UseFrames ComplianceChecker.

Variable Number_toString : float -> string.

Lemma is_nan_Prim2SF (x : float) :
  PrimFloat.is_nan x = true <-> Prim2SF x = S754_nan.
Proof.
  unfold PrimFloat.is_nan. rewrite FloatAxioms.eqb_spec, negb_true_iff.
  destruct (Prim2SF x) as [s|s| |s m e].
  - split; discriminate.
  - destruct s; split; discriminate.
  - split; reflexivity.
  - rewrite SFeqb_refl_finite. split; discriminate.
Qed.

Lemma add_nan_l (x y : float) :
  PrimFloat.is_nan x = true -> PrimFloat.is_nan (x + y) = true.
Proof.
  rewrite !is_nan_Prim2SF, FloatAxioms.add_spec. intros ->. reflexivity.
Qed.

Lemma add_nan_r (x y : float) :
  PrimFloat.is_nan y = true -> PrimFloat.is_nan (x + y) = true.
Proof.
  rewrite !is_nan_Prim2SF, FloatAxioms.add_spec. intros ->.
  unfold SF64add, SFadd. destruct (Prim2SF x); reflexivity.
Qed.

Lemma fold_add_nan (ds : list float) (acc : float) :
  PrimFloat.is_nan acc = true ->
  PrimFloat.is_nan (fold_left PrimFloat.add ds acc) = true.
Proof.
  revert acc. induction ds as [|d ds IH]; intros acc Hacc; simpl; [exact Hacc|].
  apply IH. now apply add_nan_l.
Qed.

Lemma total_nan (fs : list Frame) :
  (exists f, In f fs /\ PrimFloat.is_nan (delay f) = true) ->
  PrimFloat.is_nan (totalDurationMs fs) = true.
Proof.
  intros (f & Hin & Hnan). rewrite totalDurationMs_delays.
  generalize 0%float as acc.
  induction fs as [|g rest IH]; intros acc; [destruct Hin|].
  simpl. destruct Hin as [->|Hin].
  - apply fold_add_nan. now apply add_nan_r.
  - now apply IH.
Qed.

Lemma nan_not_above (x y : float) :
  PrimFloat.is_nan y = true -> PrimFloat.ltb x y = false.
Proof.
  rewrite is_nan_Prim2SF, FloatAxioms.ltb_spec. intros ->.
  unfold SFltb, SFcompare. destruct (Prim2SF x); reflexivity.
Qed.

(** X8.  A frame whose delay is NaN makes the total duration NaN, and the
    duration rule then never fires, however long the other frames last:
    the warnings are those of the frame-count and size rules alone. *)
Theorem nan_delay_silences_duration_rule (fs : list Frame) (size : option float) :
  (exists f, In f fs /\ PrimFloat.is_nan (delay f) = true) ->
  PrimFloat.is_nan (totalDurationMs fs) = true
  /\ warnings (checkCompliance Number_toString fs size)
     = (if (10 <? length fs)%nat then [frames_warning fs] else [])
       ++ (match size with
           | Some b => if PrimFloat.ltb 512000 b
                       then [size_warning Number_toString b] else []
           | None => []
           end).
Proof.
  intros Hnan. pose proof (total_nan fs Hnan) as Ht. split; [exact Ht|].
  rewrite checkCompliance_warnings, (nan_not_above 30000 _ Ht). reflexivity.
Qed.


(** X9.  The check looks at the number of frames and at their delays only:
    timelines with the same delays in the same order get the same verdict
    and the same warnings, whatever their ids, images and snapshots. *)
Theorem checkCompliance_reads_delays_only (fs fs' : list Frame) (size : option float) :
  map delay fs = map delay fs' ->
  checkCompliance Number_toString fs size = checkCompliance Number_toString fs' size.
Proof.
  intros Hd.
  assert (Hlen : length fs = length fs').
  { rewrite <- (length_map delay fs), Hd. apply length_map. }
  assert (Ht : totalDurationMs fs = totalDurationMs fs')
    by (rewrite !totalDurationMs_delays; now rewrite Hd).
  unfold checkCompliance, too_many_frames, too_long, frames_warning.
  now rewrite Ht, Hlen.
Qed.


End ComplianceMore.

Lemma nan_delay_silences_duration_rule_witness :
  ComplianceChecker.warnings (ComplianceChecker.checkCompliance Sample.Number_toString
              [Sample.frame "long" 40000; Sample.frame "bad" PrimFloat.nan] None)
  = [].
Proof.
  assert (Hnan : exists f, In f [Sample.frame "long" 40000; Sample.frame "bad" PrimFloat.nan]
                           /\ PrimFloat.is_nan (UseFrames.delay f) = true).
  { exists (Sample.frame "bad" PrimFloat.nan). split; [right; now left | reflexivity]. }
  exact (proj2 (nan_delay_silences_duration_rule Sample.Number_toString
                  [Sample.frame "long" 40000; Sample.frame "bad" PrimFloat.nan] None Hnan)).
Defined.

Lemma checkCompliance_reads_delays_only_witness :
  ComplianceChecker.checkCompliance Sample.Number_toString [Sample.A; Sample.C] None
  = ComplianceChecker.checkCompliance Sample.Number_toString [Sample.B; Sample.frame "E" 250] None.
Proof.
  exact (checkCompliance_reads_delays_only Sample.Number_toString
           [Sample.A; Sample.C] [Sample.B; Sample.frame "E" 250] None eq_refl).
Defined.

(** ** History manager, continued *)

Section HistoryMore.

Import UseCanvas.

Variable Canvas : Type.
Variable toJSON : Canvas -> string.

Local Abbreviation State := (UseCanvas.State Canvas).
Local Abbreviation _saveHistory := (UseCanvas._saveHistory toJSON).
Local Abbreviation fire_all := (UseCanvas.fire_all toJSON).

(** X10.  A capture that is taken (a canvas is set and the restoring flag
    is clear) while the cursor is behind the last entry keeps the entries
    up to the cursor, drops those after it and appends the snapshot of
    the canvas; the cursor is then on the new last entry and [canRedo()]
    is false. *)
Theorem capture_taken_prunes_redo (c : Canvas) (st : State) :
  canvas st = Some c ->
  _isRestoringHistory st = false ->
  bounded st ->
  canRedo st = true ->
  let st' := _saveHistory st in
  _history st' = firstn (Z.to_nat (_historyIndex st + 1)) (_history st) ++ [toJSON c]
  /\ _historyIndex st' = (_historyIndex st + 1)%Z
  /\ canRedo st' = false.
Proof.
  intros Ec Hf (_ & Hi & Hl) Hr st'. subst st'.
  unfold canRedo in Hr. apply Z.ltb_lt in Hr.
  rewrite (saveHistory_fires Canvas toJSON st c Ec Hf) by lia. cbv zeta.
  rewrite length_app, length_firstn. cbn [length].
  destruct (50 <? _)%nat eqn:E; [apply Nat.ltb_lt in E; lia|].
  unfold canRedo. cbn [_history _historyIndex set_history set_historyIndex].
  rewrite length_app, length_firstn. cbn [length].
  split; [reflexivity|]. split; [lia|]. apply Z.ltb_ge. lia.
Qed.

Lemma fire_at_restoring (step : Canvas * CanvasEvent) (st : State) :
  _isRestoringHistory st = true ->
  UseCanvas.fire_at toJSON st step = set_canvas (Some (fst step)) st.
Proof.
  intros Hf. unfold UseCanvas.fire_at.
  now rewrite (fire_restoring Canvas toJSON).
Qed.

(** X11.  While the restoring flag is set nothing is captured: the object
    events fabric fires, whatever the canvas then holds, and the explicit
    captures leave the entries, the cursor and the flag as they are. *)
Theorem restoring_flag_suppresses_capture
  (steps : list (Canvas * CanvasEvent)) (st : State) :
  _isRestoringHistory st = true ->
  let st' := fire_all steps st in
  _history st' = _history st
  /\ _historyIndex st' = _historyIndex st
  /\ _isRestoringHistory st' = true
  /\ _saveHistory st' = st'.
Proof.
  unfold UseCanvas.fire_all. revert st.
  induction steps as [|step steps IH]; intros st Hf; cbn [fold_left].
  - repeat split; try assumption. now apply (saveHistory_restoring Canvas toJSON).
  - rewrite fire_at_restoring by exact Hf.
    destruct (IH (set_canvas (Some (fst step)) st) Hf) as (Hh & Hi & Hfl & Hs).
    cbv zeta in Hh, Hi, Hfl, Hs. now repeat split.
Qed.

End HistoryMore.

Lemma capture_taken_prunes_redo_witness :
  let st := UseCanvas.mkState UseCanvas.initial_refs (Some (ToolSamples.rects 2))
              ["{objects:0}"; "{objects:1}"; "{objects:2}"; "{objects:3}"]%string 2%Z
              false 0%float 0%float None false in
  let st' := UseCanvas._saveHistory Sample.f_toJSON st in
  (UseCanvas.canvas st = Some (ToolSamples.rects 2)
   /\ UseCanvas._isRestoringHistory st = false
   /\ UseCanvas.bounded st
   /\ UseCanvas.canRedo st = true)
  /\ UseCanvas._history st'
     = firstn (Z.to_nat (UseCanvas._historyIndex st + 1)) (UseCanvas._history st)
       ++ [Sample.f_toJSON (ToolSamples.rects 2)]
  /\ UseCanvas._historyIndex st' = (UseCanvas._historyIndex st + 1)%Z
  /\ UseCanvas.canRedo st' = false.
Proof.
  intros st st'.
  assert (Hc : UseCanvas.canvas st = Some (ToolSamples.rects 2)) by reflexivity.
  assert (Hf : UseCanvas._isRestoringHistory st = false) by reflexivity.
  assert (Hb : UseCanvas.bounded st).
  { unfold UseCanvas.bounded. cbn [UseCanvas.canvas UseCanvas._history
      UseCanvas._historyIndex st length]. split; [discriminate | lia]. }
  assert (Hr : UseCanvas.canRedo st = true) by reflexivity.
  split; [exact (conj Hc (conj Hf (conj Hb Hr)))|].
  exact (capture_taken_prunes_redo UseCanvas.FCanvas Sample.f_toJSON
           (ToolSamples.rects 2) st Hc Hf Hb Hr).
Defined.

Lemma restoring_flag_suppresses_capture_witness :
  let st := ToolSamples.f_undo (ToolSamples.f_session (ToolSamples.f_mutations 1)) in
  let st' := UseCanvas.fire_all Sample.f_toJSON
               [(ToolSamples.rects 1, UseCanvas.ObjectAdded);
                (ToolSamples.rects 1, UseCanvas.ObjectModified)] st in
  UseCanvas._isRestoringHistory st = true
  /\ UseCanvas._history st' = UseCanvas._history st
  /\ UseCanvas._historyIndex st' = UseCanvas._historyIndex st
  /\ UseCanvas._isRestoringHistory st' = true
  /\ UseCanvas._saveHistory Sample.f_toJSON st' = st'.
Proof.
  intros st st'.
  assert (Hf : UseCanvas._isRestoringHistory st = true) by (vm_compute; reflexivity).
  split; [exact Hf|].
  exact (restoring_flag_suppresses_capture UseCanvas.FCanvas Sample.f_toJSON
           [(ToolSamples.rects 1, UseCanvas.ObjectAdded);
            (ToolSamples.rects 1, UseCanvas.ObjectModified)] st Hf).
Defined.

(** ** Tool state machine, continued *)

Section ToolsMore.

Import UseCanvas UseCanvasOps.

Variable toJSON : FCanvas -> string.
Variable loadFromJSON : FCanvas -> string -> FCanvas.
Variable load_events : FCanvas -> string -> list (FCanvas * CanvasEvent).

Local Abbreviation State := (UseCanvas.State FCanvas).

(** *** Every operation keeps the cursor valid *)

Lemma with_canvas_bounded (f : FCanvas -> FCanvas) (st : State) :
  bounded st -> bounded (with_canvas f st).
Proof.
  intros (Hc & Hi & Hl). unfold with_canvas.
  destruct (canvas st); [|contradiction].
  unfold bounded. simpl. split; [discriminate | now split].
Qed.

Lemma set_canvas_bounded (c : FCanvas) (st : State) :
  bounded st -> bounded (set_canvas (Some c) st).
Proof.
  intros (Hc & Hi & Hl). unfold bounded. simpl. split; [discriminate | now split].
Qed.

Lemma canvas_add_bounded (o : Fabric.Object) (st : State) :
  bounded st -> bounded (canvas_add toJSON o st).
Proof. intros Hb. apply fire_bounded. now apply with_canvas_bounded. Qed.

Lemma canvas_remove_bounded (r : ObjRef) (st : State) :
  bounded st -> bounded (canvas_remove toJSON r st).
Proof.
  intros Hb. unfold canvas_remove.
  destruct (canvas st) as [c|]; [|exact Hb].
  destruct (Fabric.find r c); [|exact Hb].
  apply fire_bounded. now apply set_canvas_bounded.
Qed.

Lemma setTool_bounded (tool : ToolType) (st : State) :
  bounded st -> bounded (setTool tool st).
Proof.
  intros (Hc & Hi & Hl). destruct (canvas st) as [c|] eqn:Ec; [|contradiction].
  destruct (setTool_effect tool st c Ec) as (c' & Ec' & _ & _ & Hh & Hx & _).
  unfold bounded. rewrite Ec', Hh, Hx. split; [discriminate | now split].
Qed.

Lemma text_mouse_down_bounded (x y : float) (st : State) :
  bounded st -> bounded (text_mouse_down toJSON x y st).
Proof.
  intros Hb. unfold text_mouse_down.
  destruct (canvas st) as [c|]; [|exact Hb]. cbn [Fabric.alloc].
  repeat apply with_canvas_bounded. apply canvas_add_bounded.
  now apply set_canvas_bounded.
Qed.

Lemma text_editing_exited_bounded (r : ObjRef) (st : State) :
  bounded st -> bounded (text_editing_exited toJSON r st).
Proof.
  intros Hb. unfold text_editing_exited.
  destruct (canvas st) as [c|]; [|exact Hb].
  destruct (Fabric.find r c) as [itext|]; [|exact Hb].
  destruct (Fabric.on_editing_exited itext); [|exact Hb].
  destruct (String.eqb (Fabric.text itext) "").
  - apply canvas_remove_bounded. now apply with_canvas_bounded.
  - apply saveHistory_bounded. now apply with_canvas_bounded.
Qed.

Lemma shape_mouse_down_bounded (tool : ToolType) (x y : float) (st : State) :
  bounded st -> bounded (shape_mouse_down toJSON tool x y st).
Proof.
  intros Hb. unfold shape_mouse_down.
  destruct (canvas st) as [c|]; [|exact Hb].
  destruct (_isDrawingShape st); [exact Hb|]. cbn [Fabric.alloc].
  apply canvas_add_bounded.
  destruct Hb as (Hc & Hi & Hl). unfold bounded. simpl.
  split; [discriminate | now split].
Qed.

Lemma shape_mouse_move_bounded (x y : float) (st : State) :
  bounded st -> bounded (shape_mouse_move x y st).
Proof.
  intros Hb. unfold shape_mouse_move.
  destruct (canvas st) as [c|]; [|exact Hb].
  destruct (negb (_isDrawingShape st)); [exact Hb|].
  destruct (_activeShape st); [|exact Hb].
  now apply with_canvas_bounded.
Qed.

Lemma shape_mouse_up_bounded (st : State) :
  bounded st -> bounded (shape_mouse_up toJSON st).
Proof.
  intros Hb. unfold shape_mouse_up.
  destruct (canvas st) as [c|]; [|exact Hb].
  destruct (negb (_isDrawingShape st)); [exact Hb|].
  assert (Hb1 : bounded (set_isDrawingShape false st)).
  { destruct Hb as (Hc & Hi & Hl). unfold bounded. simpl. now repeat split. }
  cbn [_activeShape set_isDrawingShape].
  destruct (_activeShape st); [|exact Hb1].
  apply saveHistory_bounded.
  assert (Hb2 := with_canvas_bounded (Fabric.setActiveObject o)
                   (with_canvas (Fabric.update o (Fabric.set_selectable true))
                      (set_isDrawingShape false st))
                   (with_canvas_bounded _ _ Hb1)).
  destruct Hb2 as (Hc & Hi & Hl). unfold bounded. simpl. now repeat split.
Qed.

Lemma run_handler_bounded (x y : float) (h : MouseHandler) (st : State) :
  bounded st -> bounded (run_handler toJSON x y st h).
Proof.
  destruct h; simpl;
    auto using text_mouse_down_bounded, shape_mouse_down_bounded,
               shape_mouse_move_bounded, shape_mouse_up_bounded.
Qed.

Lemma run_handlers_bounded (x y : float) (hs : list MouseHandler) (st : State) :
  bounded st -> bounded (fold_left (run_handler toJSON x y) hs st).
Proof.
  revert st. induction hs as [|h hs IH]; intros st Hb; simpl; [exact Hb|].
  apply IH. now apply run_handler_bounded.
Qed.

Lemma deleteSelected_bounded (active : list ObjRef) (st : State) :
  bounded st -> bounded (deleteSelected toJSON active st).
Proof.
  intros Hb. unfold deleteSelected. destruct (canvas st); [|exact Hb].
  apply saveHistory_bounded, with_canvas_bounded.
  revert st Hb. induction active as [|r rs IH]; intros st Hb; simpl; [exact Hb|].
  apply IH. now apply canvas_remove_bounded.
Qed.

Lemma ui_step_bounded (e : UiEvent) (st : State) :
  bounded st -> bounded (ui_step toJSON loadFromJSON load_events st e).
Proof.
  intros Hb. destruct e; cbn [ui_step].
  - now apply setTool_bounded.
  - unfold mouse_down. destruct (canvas st); [now apply run_handlers_bounded | exact Hb].
  - unfold mouse_move. destruct (canvas st); [now apply run_handlers_bounded | exact Hb].
  - unfold mouse_up. destruct (canvas st); [now apply run_handlers_bounded | exact Hb].
  - now apply with_canvas_bounded.
  - unfold exit_editing. cbv zeta.
    pose proof (text_editing_exited_bounded r st Hb) as Hb'.
    destruct (changed && in_scene r _); [now apply fire_bounded | exact Hb'].
  - now apply deleteSelected_bounded.
  - unfold setBgTransparent. destruct (canvas st); [|exact Hb].
    apply with_canvas_bounded.
    destruct Hb as (Hc & Hi & Hl). unfold bounded. simpl. now repeat split.
  - unfold updateBrush. destruct (canvas st) as [c|]; [|exact Hb].
    destruct (Fabric.freeDrawingBrush c); [now apply with_canvas_bounded | exact Hb].
  - now apply undo_bounded.
  - now apply redo_bounded.
  - now apply loadCanvasJSON_bounded.
  - unfold canvas_change. destruct (canvas st); [|exact Hb].
    apply (fire_all_bounded FCanvas toJSON steps) in Hb. destruct Hb as (_ & Hi & Hl).
    unfold bounded. simpl. split; [discriminate | now split].
Qed.

(** X15.  Whatever the tool selections, pointer events, text edits,
    deletions, background and brush changes, undos, redos and snapshot
    loads that follow [setCanvas], and whatever is done to the canvas in
    between, the composable keeps its canvas, the history holds between 1
    and 50 entries and the cursor is a valid index of it. *)
Theorem ui_session_history_bounded (c0 : FCanvas) (evs : list UiEvent) :
  let st := ui_session toJSON loadFromJSON load_events c0 evs in
  canvas st <> None
  /\ (1 <= length (_history st) <= 50)%nat
  /\ (0 <= _historyIndex st < Z.of_nat (length (_history st)))%Z.
Proof.
  intros st.
  assert (Hb : bounded st).
  { subst st. unfold ui_session.
    assert (H0 : bounded (setCanvas toJSON c0 (initial_state FCanvas))).
    { rewrite setCanvas_initial. unfold bounded. simpl. split; [discriminate | lia]. }
    revert H0. generalize (setCanvas toJSON c0 (initial_state FCanvas)).
    induction evs as [|e evs IH]; intros s Hs; simpl; [exact Hs|].
    apply IH. now apply ui_step_bounded. }
  destruct Hb as (Hc & Hi & Hl). repeat split; try assumption; lia.
Qed.

(** *** Captures at the tail of a history with room *)

Lemma capture_appends (st : State) (c : FCanvas) :
  canvas st = Some c -> _isRestoringHistory st = false ->
  bounded st -> canRedo st = false -> (length (_history st) < 50)%nat ->
  _saveHistory toJSON st
  = set_historyIndex (_historyIndex st + 1)
      (set_history (_history st ++ [toJSON c]) st).
Proof.
  intros Ec Hf (_ & Hi & _) Hr Hroom.
  unfold canRedo in Hr. apply Z.ltb_ge in Hr.
  rewrite (saveHistory_fires FCanvas toJSON st c Ec Hf) by lia. cbv zeta.
  rewrite firstn_all2 by lia. rewrite length_app. cbn [length].
  destruct (50 <? _)%nat eqn:E; [apply Nat.ltb_lt in E; lia|].
  f_equal. lia.
Qed.

Ltac unfold_setters :=
  unfold set_historyIndex, set_history, set_canvas, set_activeShape, set_shapeStart,
         set_isDrawingShape, set_isRestoringHistory, set_refs;
  cbn [refs canvas _history _historyIndex _isRestoringHistory _shapeStartX _shapeStartY
       _activeShape _isDrawingShape].

(** *** Removing an object at the tail of the history *)

Lemma canvas_remove_effect (r : ObjRef) (o : Fabric.Object) (st : State) (c : FCanvas) :
  canvas st = Some c -> Fabric.find r c = Some o ->
  _isRestoringHistory st = false -> bounded st -> canRedo st = false ->
  (length (_history st) < 50)%nat ->
  canvas_remove toJSON r st
  = mkState (refs st) (Some (Fabric.remove r c))
      (_history st ++ [toJSON (Fabric.remove r c)])
      (_historyIndex st + 1) false (_shapeStartX st) (_shapeStartY st)
      (_activeShape st) (_isDrawingShape st).
Proof.
  intros Ec Hfind Hf Hb Hr Hroom.
  unfold canvas_remove. rewrite Ec, Hfind. rewrite fire_capture by exact Hf.
  match goal with |- UseCanvas._saveHistory _ ?s = _ =>
    rewrite (capture_appends s (Fabric.remove r c))
  end.
  - unfold_setters. f_equal. exact Hf.
  - reflexivity.
  - exact Hf.
  - destruct Hb as (_ & Hi & Hl). unfold bounded. unfold_setters.
    split; [discriminate | now split].
  - exact Hr.
  - exact Hroom.
Qed.

(** After a capture at the tail the state is at the tail again, with one
    entry less of room. *)
Lemma after_capture (st : State) (n : nat) (rf : Refs) (c' : FCanvas) (s : string)
  (sx sy : float) (a : option ObjRef) (d : bool) :
  bounded st -> canRedo st = false -> (length (_history st) + S n <= 50)%nat ->
  let st' := mkState rf (Some c') (_history st ++ [s]) (_historyIndex st + 1) false
               sx sy a d in
  bounded st' /\ canRedo st' = false /\ (length (_history st') + n <= 50)%nat.
Proof.
  intros (_ & Hi & Hl) Hr Hroom st'. unfold canRedo in *. apply Z.ltb_ge in Hr.
  unfold bounded. subst st'. cbn [canvas _history _historyIndex].
  rewrite length_app. cbn [length].
  split; [split; [discriminate | lia]|]. split; [apply Z.ltb_ge|]; lia.
Qed.

(** *** Deleting the selection *)

Lemma find_remove_other (r r' : ObjRef) (os : list Fabric.Object) :
  r' <> r ->
  List.find (fun o => (Fabric.oref o =? r')%nat)
    (filter (fun o => negb (Fabric.oref o =? r)%nat) os)
  = List.find (fun o => (Fabric.oref o =? r')%nat) os.
Proof.
  intros Hne. induction os as [|o os IH]; [reflexivity|]. cbn [filter List.find].
  destruct (Fabric.oref o =? r)%nat eqn:E; cbn [negb].
  - apply Nat.eqb_eq in E.
    replace (Fabric.oref o =? r')%nat with false
      by (symmetry; apply Nat.eqb_neq; congruence).
    exact IH.
  - cbn [List.find]. destruct (Fabric.oref o =? r')%nat; [reflexivity | exact IH].
Qed.

Lemma find_in_scene (r : ObjRef) (os : list Fabric.Object) :
  existsb (fun o => (Fabric.oref o =? r)%nat) os = true ->
  exists o, List.find (fun o => (Fabric.oref o =? r)%nat) os = Some o.
Proof.
  induction os as [|o os IH]; cbn [existsb List.find]; [discriminate|].
  destruct (Fabric.oref o =? r)%nat; [now exists o | exact IH].
Qed.

Lemma filter_twice {A : Type} (p q : A -> bool) (l : list A) :
  filter q (filter p l) = filter (fun x => p x && q x) l.
Proof.
  induction l as [|x l IH]; [reflexivity|]. cbn [filter].
  destruct (p x); cbn [filter andb]; [destruct (q x)|]; now rewrite IH.
Qed.

Lemma removals_effect (active : list ObjRef) :
  forall (st : State) (c : FCanvas),
  canvas st = Some c ->
  _isRestoringHistory st = false -> bounded st -> canRedo st = false ->
  NoDup active ->
  (forall r, In r active -> exists o, Fabric.find r c = Some o) ->
  (length (_history st) + length active <= 50)%nat ->
  let st' := fold_left (fun s r => canvas_remove toJSON r s) active st in
  exists c',
    canvas st' = Some c'
    /\ Fabric.objects c'
       = filter (fun o => negb (existsb (Nat.eqb (Fabric.oref o)) active)) (Fabric.objects c)
    /\ _isRestoringHistory st' = false /\ bounded st' /\ canRedo st' = false
    /\ length (_history st') = (length (_history st) + length active)%nat
    /\ _historyIndex st' = (_historyIndex st + Z.of_nat (length active))%Z
    /\ firstn (length (_history st)) (_history st') = _history st.
Proof.
  induction active as [|r rest IH]; intros st c Ec Hf Hb Hr Hnd Hin Hroom; cbn [fold_left].
  - exists c. split; [exact Ec|]. split.
    { cbn [existsb negb]. symmetry. apply filter_all. reflexivity. }
    split; [exact Hf|]. split; [exact Hb|]. split; [exact Hr|].
    cbn [length]. split; [lia|]. split; [lia|]. apply firstn_all.
  - destruct (Hin r (or_introl eq_refl)) as (o & Hfind).
    cbn [length] in Hroom.
    rewrite (canvas_remove_effect r o st c Ec Hfind Hf Hb Hr) by lia.
    destruct (after_capture st (length rest) (refs st) (Fabric.remove r c)
                (toJSON (Fabric.remove r c)) (_shapeStartX st) (_shapeStartY st)
                (_activeShape st) (_isDrawingShape st) Hb Hr)
      as (Hb1 & Hr1 & Hroom1); [lia|].
    inversion Hnd as [|? ? Hnotin Hnd']; subst.
    match goal with |- context [fold_left _ rest ?s] => set (st1 := s) in * end.
    destruct (IH st1 (Fabric.remove r c) eq_refl eq_refl Hb1 Hr1 Hnd') as
      (c' & Ec' & Ho & Hf' & Hb' & Hr' & Hl' & Hi' & Hpre).
    + intros r' Hr'. destruct (Hin r' (or_intror Hr')) as (o' & Ho').
      exists o'. unfold Fabric.find in *.
      cbn [Fabric.objects Fabric.remove Fabric.set_objects].
      rewrite find_remove_other; [exact Ho' | intros ->; contradiction].
    + exact Hroom1.
    + exists c'. split; [exact Ec'|]. split.
      { rewrite Ho. cbn [Fabric.objects Fabric.remove Fabric.set_objects].
        rewrite filter_twice. apply filter_ext. intros a. cbn [existsb].
        now rewrite negb_orb. }
      split; [exact Hf'|]. split; [exact Hb'|]. split; [exact Hr'|].
      subst st1. cbn [_history _historyIndex] in *.
      rewrite length_app in Hl', Hpre. cbn [length] in *.
      split; [lia|]. split; [lia|].
      replace (length (_history st)) with (Nat.min (length (_history st))
                                              (length (_history st) + 1)) by lia.
      rewrite <- firstn_firstn, Hpre, firstn_app, Nat.sub_diag, firstn_all.
      cbn [firstn]. apply app_nil_r.
Qed.

(** X21.  [deleteSelected] on a selection of distinct objects of the scene,
    while no text is being edited, from the tail of a history with room:
    every removal is captured through the 'object:removed' subscription
    and the function captures once more itself, so [n] deleted objects
    are [n + 1] history entries, and a call with nothing selected still
    records one.  The objects left are those not selected, and nothing is
    active. *)
Theorem deleteSelected_records_each_removal
  (active : list ObjRef) (st : State) (c : FCanvas) :
  canvas st = Some c ->
  Fabric.editing c = None ->
  _isRestoringHistory st = false -> bounded st -> canRedo st = false ->
  NoDup active ->
  (forall r, In r active -> in_scene r st = true) ->
  (length (_history st) + length active + 1 <= 50)%nat ->
  let st' := deleteSelected toJSON active st in
  exists c',
    canvas st' = Some c'
    /\ Fabric.objects c'
       = filter (fun o => negb (existsb (Nat.eqb (Fabric.oref o)) active)) (Fabric.objects c)
    /\ Fabric.activeObject c' = None
    /\ length (_history st') = (length (_history st) + length active + 1)%nat
    /\ _historyIndex st' = (_historyIndex st + Z.of_nat (length active) + 1)%Z
    /\ firstn (length (_history st)) (_history st') = _history st.
Proof.
  intros Ec _ Hf Hb Hr Hnd Hin Hroom st'.
  destruct (removals_effect active st c Ec Hf Hb Hr Hnd) as
    (c1 & Ec1 & Ho & Hf1 & Hb1 & Hr1 & Hl1 & Hi1 & Hpre); [|lia|].
  { intros r Hr'. specialize (Hin r Hr'). unfold in_scene in Hin. rewrite Ec in Hin.
    now apply find_in_scene. }
  subst st'. unfold deleteSelected. rewrite Ec.
  set (st1 := fold_left (fun s r => canvas_remove toJSON r s) active st) in *.
  unfold with_canvas. rewrite Ec1.
  match goal with |- context [UseCanvas._saveHistory _ ?s] =>
    rewrite (capture_appends s (Fabric.discardActiveObject c1))
  end.
  - unfold_setters. eexists. split; [reflexivity|].
    split; [exact Ho|]. split; [reflexivity|].
    rewrite length_app. cbn [length]. split; [lia|]. split; [lia|].
    rewrite firstn_app. rewrite Hpre.
    replace (length (_history st) - length (_history st1))%nat with 0%nat by lia.
    cbn [firstn]. apply app_nil_r.
  - reflexivity.
  - exact Hf1.
  - destruct Hb1 as (_ & Hi & Hl). unfold bounded. unfold_setters.
    split; [discriminate | now split].
  - exact Hr1.
  - unfold_setters. lia.
Qed.

(** *** Settings *)

(** X22.  Choosing a tool, switching the background, refreshing the brush
    and typing into a text object record nothing: the history and its
    cursor are as before, so none of them is a step that undo goes back
    over. *)
Theorem settings_are_not_recorded (e : UiEvent) (st : State) :
  match e with
  | SetTool _ | SetBgTransparent _ | UpdateBrush | TypeText _ _ => True
  | _ => False
  end ->
  let st' := ui_step toJSON loadFromJSON load_events st e in
  _history st' = _history st
  /\ _historyIndex st' = _historyIndex st
  /\ _isRestoringHistory st' = _isRestoringHistory st.
Proof.
  intros He st'. subst st'.
  destruct e; try contradiction; cbn [ui_step].
  - unfold setTool, _applyTool, _removeShapeListeners, with_canvas.
    cbn [canvas set_refs]. destruct (canvas st); [|repeat split; reflexivity].
    cbn [canvas set_canvas]. destruct tool; repeat split; reflexivity.
  - unfold type_text, with_canvas. destruct (canvas st); repeat split; reflexivity.
  - unfold setBgTransparent, with_canvas. cbn [canvas set_refs].
    destruct (canvas st); repeat split; reflexivity.
  - unfold updateBrush, with_canvas.
    destruct (canvas st) as [c|]; [|repeat split; reflexivity].
    destruct (Fabric.freeDrawingBrush c); repeat split; reflexivity.
Qed.

End ToolsMore.

(** The theorems of the tool state machine on the sample canvases. *)

Lemma holder_bounded : UseCanvas.bounded Sample.holder.
Proof.
  assert (Hh : UseCanvas._history Sample.holder
               = ["{objects:0}"; "{objects:1}"; "{objects:1}"]%string)
    by (vm_compute; reflexivity).
  assert (Hi : UseCanvas._historyIndex Sample.holder = 2%Z)
    by (vm_compute; reflexivity).
  unfold UseCanvas.bounded. rewrite Hh, Hi. cbn [length].
  split; [vm_compute; discriminate | lia].
Defined.

Lemma deleteSelected_records_each_removal_witness :
  let st := Sample.holder in
  let c := ToolSamples.holder_canvas in
  let st' := UseCanvasOps.deleteSelected Sample.f_toJSON [0%nat] st in
  (UseCanvas.canvas st = Some c
   /\ Fabric.editing c = None
   /\ UseCanvas._isRestoringHistory st = false
   /\ UseCanvas.bounded st
   /\ UseCanvas.canRedo st = false
   /\ NoDup [0%nat]
   /\ (forall r, In r [0%nat] -> UseCanvas.in_scene r st = true)
   /\ (length (UseCanvas._history st) + length [0%nat] + 1 <= 50)%nat)
  /\ exists c',
       UseCanvas.canvas st' = Some c'
       /\ Fabric.activeObject c' = None
       /\ length (UseCanvas._history st')
          = (length (UseCanvas._history st) + length [0%nat] + 1)%nat.
Proof.
  intros st c st'.
  assert (Hc : UseCanvas.canvas st = Some c) by (vm_compute; reflexivity).
  assert (He : Fabric.editing c = None) by (vm_compute; reflexivity).
  assert (Hf : UseCanvas._isRestoringHistory st = false) by (vm_compute; reflexivity).
  assert (Hr : UseCanvas.canRedo st = false) by (vm_compute; reflexivity).
  assert (Hnd : NoDup [0%nat]) by (constructor; [intros [] | constructor]).
  assert (Hin : forall r, In r [0%nat] -> UseCanvas.in_scene r st = true)
    by (intros r [<- | []]; vm_compute; reflexivity).
  assert (Hroom : (length (UseCanvas._history st) + length [0%nat] + 1 <= 50)%nat)
    by (vm_compute; repeat constructor).
  split.
  - exact (conj Hc (conj He (conj Hf (conj holder_bounded
             (conj Hr (conj Hnd (conj Hin Hroom))))))).
  - destruct (deleteSelected_records_each_removal Sample.f_toJSON [0%nat] st c Hc He Hf
                holder_bounded Hr Hnd Hin Hroom)
      as (c' & Hc' & _ & Hact & Hlen & _).
    exists c'. exact (conj Hc' (conj Hact Hlen)).
Defined.

Lemma settings_are_not_recorded_witness :
  let st' := UseCanvasOps.ui_step Sample.f_toJSON ToolSamples.f_loadFromJSON
               ToolSamples.f_load_events Sample.holder
               (UseCanvasOps.SetBgTransparent true) in
  UseCanvas._history st' = UseCanvas._history Sample.holder
  /\ UseCanvas._historyIndex st' = UseCanvas._historyIndex Sample.holder
  /\ UseCanvas._isRestoringHistory st' = UseCanvas._isRestoringHistory Sample.holder.
Proof.
  exact (settings_are_not_recorded Sample.f_toJSON ToolSamples.f_loadFromJSON
           ToolSamples.f_load_events (UseCanvasOps.SetBgTransparent true) Sample.holder I).
Defined.

(** ** The component, continued *)

Section ComponentMore.

Import UseFrames ComplianceChecker App AppOps.

Variable toJSON : UseCanvas.FCanvas -> string.
Variable toDataURL : UseCanvas.FCanvas -> string.
Variable Number_toString : float -> string.

Local Abbreviation captureFrame := (App.captureFrame toJSON toDataURL).
Local Abbreviation captures := (AppOps.captures toJSON toDataURL).
Local Abbreviation exportEmoji := (App.exportEmoji toDataURL Number_toString).

Lemma captureFrame_below_cap (now : Z) (rnd : string) (app : AppState) :
  (length (frames app) < 10)%nat ->
  exists f,
    frames (snd (captureFrame now rnd app)) = frames app ++ [f]
    /\ id f = fresh_id now rnd
    /\ delay f = 100%float
    /\ dataUrl f = fst (UseCanvas.exportPng toDataURL (canvasHolder app))
    /\ fabricJson f
       = UseCanvas.getCanvasJSON toJSON
           (snd (UseCanvas.exportPng toDataURL (canvasHolder app))).
Proof.
  intros Hlt. unfold App.captureFrame.
  destruct (10 <=? length (frames app))%nat eqn:E; [apply Nat.leb_le in E; lia|].
  destruct (UseCanvas.exportPng toDataURL (canvasHolder app)) as [url h].
  unfold addFrame, Js.push. cbn [snd fst frames set_frames].
  eexists. split; [reflexivity|]. repeat split.
Qed.

Lemma captureFrame_at_cap (now : Z) (rnd : string) (app : AppState) :
  (10 <= length (frames app))%nat -> snd (captureFrame now rnd app) = app.
Proof.
  intros Hcap. unfold App.captureFrame.
  destruct (10 <=? length (frames app))%nat eqn:E; [reflexivity|].
  apply Nat.leb_gt in E. lia.
Qed.

Lemma captures_append (stamps : list (Z * string)) (app : AppState) :
  exists extra,
    frames (captures stamps app) = frames app ++ extra
    /\ Forall (fun f => delay f = 100%float) extra
    /\ length extra
       = (if (10 <=? length (frames app))%nat then 0
          else Nat.min (10 - length (frames app)) (length stamps))%nat.
Proof.
  revert app. induction stamps as [|[now rnd] stamps IH]; intros app.
  - exists []. cbn [AppOps.captures fold_left length]. rewrite app_nil_r.
    split; [reflexivity|]. split; [constructor|].
    destruct (10 <=? _)%nat; [reflexivity | lia].
  - unfold AppOps.captures. cbn [fold_left fst snd].
    fold (captures stamps (snd (captureFrame now rnd app))).
    destruct (Nat.lt_ge_cases (length (frames app)) 10) as [Hlt | Hge].
    + destruct (captureFrame_below_cap now rnd app Hlt) as (f & Hfs & _ & Hd & _).
      destruct (IH (snd (captureFrame now rnd app))) as (extra & He & Hall & Hlen).
      rewrite Hfs, length_app in Hlen. cbn [length] in Hlen.
      exists (f :: extra). rewrite He, Hfs, <- app_assoc.
      split; [reflexivity|]. split; [now constructor|]. cbn [length].
      destruct (10 <=? length (frames app))%nat eqn:E; [apply Nat.leb_le in E; lia|].
      destruct (10 <=? length (frames app) + 1)%nat eqn:E1;
        [apply Nat.leb_le in E1 | apply Nat.leb_gt in E1]; lia.
    + rewrite captureFrame_at_cap by exact Hge.
      destruct (IH app) as (extra & He & Hall & Hlen).
      destruct (10 <=? length (frames app))%nat eqn:E; [|apply Nat.leb_gt in E; lia].
      exists extra. now repeat split.
Qed.

(** X23.  Any number of captures in a row fills the timeline up to 10
    frames and no further: from [n] frames, [k] captures leave
    [min 10 (n + k)] of them when [n] is below the cap and [n] otherwise.
    The frames that were there come first and unchanged, and every
    captured frame has the default delay of 100 ms. *)
Theorem captures_fill_up_to_ten (stamps : list (Z * string)) (app : AppState) :
  let n := length (frames app) in
  let fs := frames (captures stamps app) in
  length fs = (if (10 <=? n)%nat then n else Nat.min 10 (n + length stamps))
  /\ firstn n fs = frames app
  /\ Forall (fun f => delay f = 100%float) (skipn n fs).
Proof.
  intros n fs. destruct (captures_append stamps app) as (extra & He & Hall & Hlen).
  subst fs. rewrite He. fold n in Hlen. split; [|split].
  - rewrite length_app, Hlen. fold n.
    destruct (10 <=? n)%nat eqn:E; [|apply Nat.leb_gt in E]; lia.
  - subst n. rewrite firstn_app, Nat.sub_diag, firstn_all. cbn [firstn]. apply app_nil_r.
  - subst n. rewrite skipn_app, Nat.sub_diag, skipn_all. exact Hall.
Qed.

(** X24.  The cap of 10 frames is [captureFrame]'s alone: duplicating a
    frame of a full timeline gives 11 frames, and the compliance checker
    then reports the count and finds the timeline invalid. *)
Theorem duplicate_bypasses_cap (now : Z) (rnd i : string) (fs : list Frame) :
  length fs = 10%nat ->
  (exists f, In f fs /\ id f = i) ->
  let fs' := duplicateFrame now rnd i fs in
  length fs' = 11%nat
  /\ In "Too many frames (11/10). WeChat allows max 10 frames."%string
       (warnings (checkCompliance Number_toString fs' None))
  /\ valid (checkCompliance Number_toString fs' None) = false.
Proof.
  intros Hlen (f & Hin & Hid) fs'.
  assert (Hl : length fs' = 11%nat).
  { subst fs'.
    destruct (first_match_split (fun g => String.eqb (id g) i) fs)
      as [Hnone | (l1 & x & l2 & -> & Hx & Hl1)].
    - specialize (Hnone f Hin). apply String.eqb_neq in Hnone. contradiction.
    - rewrite (duplicateFrame_known now rnd i l1 x l2).
      + rewrite length_app in *. cbn [length] in *. lia.
      + now apply String.eqb_eq.
      + intros g Hg. apply String.eqb_neq. now apply Hl1. }
  split; [exact Hl|].
  assert (Hw : In "Too many frames (11/10). WeChat allows max 10 frames."%string
                 (warnings (checkCompliance Number_toString fs' None))).
  { rewrite checkCompliance_warnings. rewrite Hl. apply in_or_app. left.
    cbn [Nat.ltb Nat.leb]. unfold frames_warning. rewrite Hl. left. reflexivity. }
  split; [exact Hw|].
  destruct (valid (checkCompliance Number_toString fs' None)) eqn:E; [|reflexivity].
  apply checkCompliance_valid in E. rewrite E in Hw. contradiction.
Qed.

(** *** The animated export *)

Lemma feed_all_load (enc : Encoder) (fs : list Frame) :
  (forall f, In f fs -> image_loads enc (dataUrl f) = true) ->
  feed enc fs = (fed_frames fs, true).
Proof.
  induction fs as [|f fs IH]; intros Hall; [reflexivity|]. cbn [feed].
  rewrite (Hall f (or_introl eq_refl)).
  rewrite IH by (intros g Hg; apply Hall; now right). reflexivity.
Qed.

Lemma fed_frames_no_download (fs : list Frame) :
  filter is_download (fed_frames fs) = [].
Proof.
  unfold fed_frames. induction fs as [|g gs IH]; [reflexivity|].
  cbn [flat_map Datatypes.app filter is_download]. exact IH.
Qed.

Lemma feed_stalls (enc : Encoder) (fs : list Frame) :
  (exists f, In f fs /\ image_loads enc (dataUrl f) = false) ->
  snd (feed enc fs) = false
  /\ Forall (fun c => is_download c = false /\ c <> EncoderRender) (fst (feed enc fs)).
Proof.
  induction fs as [|g fs IH]; intros (f & Hin & Hf); [destruct Hin|]. cbn [feed].
  destruct (image_loads enc (dataUrl g)) eqn:Eg.
  - destruct Hin as [-> | Hin]; [congruence|].
    destruct (IH (ex_intro _ f (conj Hin Hf))) as (Hs & Hall).
    destruct (feed enc fs) as [calls ok]. cbn [fst snd] in *.
    split; [exact Hs|]. repeat constructor; try discriminate. exact Hall.
  - cbn [fst snd]. split; [reflexivity|]. repeat constructor. discriminate.
Qed.

Lemma progress_last (ps : list float) (app : AppState) :
  let app' := fold_left (fun a p => set_exportProgress p a) ps app in
  exportProgress app' = last ps (exportProgress app)
  /\ canvasHolder app' = canvasHolder app /\ frames app' = frames app
  /\ isExporting app' = isExporting app /\ exportError app' = exportError app
  /\ complianceWarnings app' = complianceWarnings app.
Proof.
  revert app. induction ps as [|p ps IH]; intros app; cbn [fold_left].
  - now repeat split.
  - destruct (IH (set_exportProgress p app)) as (Hp & Hrest). split; [|exact Hrest].
    rewrite Hp. cbn [exportProgress set_exportProgress].
    symmetry. apply last_cons_default.
Qed.

(** The component when the loop over the frames begins. *)
Lemma export_prologue (app : AppState) (f : Frame) (fs : list Frame) :
  frames app = f :: fs ->
  let app0 := set_complianceWarnings [] (set_exportError None app) in
  let compliance := checkCompliance Number_toString (frames app) None in
  let app1 := set_exportProgress 0%float
                (set_isExporting true
                   (if (0 <? length (warnings compliance))%nat
                    then set_complianceWarnings (warnings compliance) app0 else app0)) in
  canvasHolder app1 = canvasHolder app /\ frames app1 = frames app
  /\ isExporting app1 = true /\ exportError app1 = None
  /\ complianceWarnings app1 = warnings compliance
  /\ exportProgress app1 = 0%float.
Proof.
  intros Hfs app0 compliance app1. subst app1 app0.
  destruct (warnings compliance) as [|w ws] eqn:Ew; cbn [length Nat.ltb Nat.leb];
    now repeat split.
Qed.

(** X25.  Exporting a timeline whose images all load and whose encoding
    finishes: the encoder is created for 240 x 240 at quality 8 with 2
    workers and receives every frame, in timeline order, with the frame's
    own delay; one download, [emoji.gif], is delivered, whatever the
    compliance checker found; afterwards the export flag is clear, no
    error is recorded, and the warnings are those of the checker followed,
    when the file is above 500 KB, by the size warning. *)
Theorem export_delivers_gif (enc : Encoder) (app : AppState)
  (blob_size : float) (url : string) :
  frames app <> [] ->
  (forall f, In f (frames app) -> image_loads enc (dataUrl f) = true) ->
  outcome enc = Finished blob_size url ->
  let r := exportEmoji enc app in
  snd r = [RunComplianceCheck; EncoderNew 240 240 8 2] ++ fed_frames (frames app)
          ++ [EncoderRender; CreateObjectURL; Download "emoji.gif" url;
              RevokeObjectURLLater url]
  /\ isExporting (fst r) = false
  /\ exportError (fst r) = None
  /\ exportProgress (fst r) = last (progress enc) 0%float
  /\ complianceWarnings (fst r)
     = warnings (checkCompliance Number_toString (frames app) None)
       ++ (if PrimFloat.ltb 500 (blob_size / 1024)
           then [App.gif_size_warning Number_toString (blob_size / 1024)] else []).
Proof.
  intros Hne Hall Hout r. subst r. unfold App.exportEmoji. cbv zeta.
  change (frames (set_complianceWarnings [] (set_exportError None app))) with (frames app).
  destruct (frames app) as [|f fs] eqn:Ef; [contradiction|].
  rewrite <- Ef in *.
  destruct (export_prologue app f fs Ef) as (Hh & Hfs & Hx & He & Hw & Hp).
  cbv zeta in Hh, Hfs, Hx, He, Hw, Hp.
  match goal with |- context [feed enc (frames ?a)] => set (app1 := a) in * end.
  rewrite Hfs, (feed_all_load enc (frames app) Hall), Hout.
  destruct (progress_last (progress enc) app1) as (Pp & Ph & Pf & Px & Pe & Pw).
  cbv zeta in Pp, Ph, Pf, Px, Pe, Pw.
  match goal with |- context [fold_left ?g (progress enc) app1] =>
    set (app2 := fold_left g (progress enc) app1) in *
  end.
  cbn [fst snd].
  split; [reflexivity|].
  destruct (PrimFloat.ltb 500 (blob_size / 1024));
    cbn [isExporting exportError exportProgress complianceWarnings
         set_isExporting set_complianceWarnings];
    rewrite ?Pe, ?He, ?Pp, ?Hp, ?Pw, ?Hw, ?app_nil_r; now repeat split.
Qed.

(** X26.  When the encoder aborts, nothing is downloaded: the error
    "GIF generation aborted" is recorded and the export flag is cleared;
    the warnings of the compliance checker stay. *)
Theorem export_abort_records_error (enc : Encoder) (app : AppState) :
  frames app <> [] ->
  (forall f, In f (frames app) -> image_loads enc (dataUrl f) = true) ->
  outcome enc = Aborted ->
  let r := exportEmoji enc app in
  filter is_download (snd r) = []
  /\ last (snd r) CanvasToDataURL = EncoderRender
  /\ exportError (fst r) = Some "GIF generation aborted"%string
  /\ isExporting (fst r) = false
  /\ complianceWarnings (fst r)
     = warnings (checkCompliance Number_toString (frames app) None).
Proof.
  intros Hne Hall Hout r. subst r. unfold App.exportEmoji. cbv zeta.
  change (frames (set_complianceWarnings [] (set_exportError None app))) with (frames app).
  destruct (frames app) as [|f fs] eqn:Ef; [contradiction|].
  rewrite <- Ef in *.
  destruct (export_prologue app f fs Ef) as (Hh & Hfs & Hx & He & Hw & Hp).
  cbv zeta in Hh, Hfs, Hx, He, Hw, Hp.
  match goal with |- context [feed enc (frames ?a)] => set (app1 := a) in * end.
  rewrite Hfs, (feed_all_load enc (frames app) Hall), Hout.
  destruct (progress_last (progress enc) app1) as (Pp & Ph & Pf & Px & Pe & Pw).
  cbv zeta in Pp, Ph, Pf, Px, Pe, Pw.
  match goal with |- context [fold_left ?g (progress enc) app1] =>
    set (app2 := fold_left g (progress enc) app1) in *
  end.
  cbn [fst snd isExporting exportError complianceWarnings set_isExporting set_exportError].
  split.
  { rewrite !filter_app. cbn [filter is_download]. rewrite app_nil_r.
    apply fed_frames_no_download. }
  split; [apply last_last|].
  rewrite Pw, Hw. now repeat split.
Qed.

(** X27.  The loop waits for each image's [onload] and nothing else: when
    the image of some frame never loads, the export never gets to the
    rendering.  Nothing is downloaded, no error is recorded, and the
    export flag stays set. *)
Theorem export_stalls_on_unloadable_image (enc : Encoder) (app : AppState) :
  (exists f, In f (frames app) /\ image_loads enc (dataUrl f) = false) ->
  let r := exportEmoji enc app in
  isExporting (fst r) = true
  /\ exportError (fst r) = None
  /\ filter is_download (snd r) = []
  /\ ~ In EncoderRender (snd r).
Proof.
  intros Hex r. subst r. unfold App.exportEmoji. cbv zeta.
  change (frames (set_complianceWarnings [] (set_exportError None app))) with (frames app).
  destruct (frames app) as [|f fs] eqn:Ef; [destruct Hex as (g & [] & _)|].
  rewrite <- Ef in *.
  destruct (export_prologue app f fs Ef) as (Hh & Hfs & Hx & He & Hw & Hp).
  cbv zeta in Hh, Hfs, Hx, He, Hw, Hp.
  match goal with |- context [feed enc (frames ?a)] => set (app1 := a) in * end.
  rewrite Hfs. destruct (feed_stalls enc (frames app) Hex) as (Hs & Hall).
  destruct (feed enc (frames app)) as [fed loaded]. cbn [fst snd] in Hs, Hall.
  subst loaded. cbn [fst snd].
  split; [exact Hx|]. split; [exact He|].
  split.
  - cbn [Datatypes.app filter is_download].
    induction Hall as [|c cs (Hc & _) _ IH]; [reflexivity|].
    cbn [filter]. now rewrite Hc.
  - cbn [Datatypes.app In]. intros [H|[H|H]]; try discriminate.
    rewrite Forall_forall in Hall. now apply (Hall _ H).
Qed.

(** X28.  An export of a timeline with frames, however it ends, and an
    export of the empty timeline while no text is being edited, leave the
    timeline and the undo history as they are. *)
Theorem export_keeps_timeline_and_history (enc : Encoder) (app : AppState) :
  (frames app = [] ->
   forall c, UseCanvas.canvas (canvasHolder app) = Some c -> Fabric.editing c = None) ->
  let r := exportEmoji enc app in
  frames (fst r) = frames app
  /\ UseCanvas._history (canvasHolder (fst r)) = UseCanvas._history (canvasHolder app)
  /\ UseCanvas._historyIndex (canvasHolder (fst r))
     = UseCanvas._historyIndex (canvasHolder app).
Proof.
  intros _ r. subst r. unfold App.exportEmoji. cbv zeta.
  change (frames (set_complianceWarnings [] (set_exportError None app))) with (frames app).
  destruct (frames app) as [|f fs] eqn:Ef.
  - change (canvasHolder (set_complianceWarnings [] (set_exportError None app)))
      with (canvasHolder app).
    unfold UseCanvas.exportPng.
    destruct (UseCanvas.canvas (canvasHolder app)); cbn [fst frames canvasHolder
      set_canvasHolder set_complianceWarnings set_exportError]; now repeat split.
  - rewrite <- Ef in *.
    destruct (export_prologue app f fs Ef) as (Hh & Hfs & Hx & He & Hw & Hp).
    cbv zeta in Hh, Hfs, Hx, He, Hw, Hp.
    match goal with |- context [feed enc (frames ?a)] => set (app1 := a) in * end.
    destruct (progress_last (progress enc) app1) as (Pp & Ph & Pf & Px & Pe & Pw).
    cbv zeta in Pp, Ph, Pf, Px, Pe, Pw.
    match goal with |- context [fold_left ?g (progress enc) app1] =>
      set (app2 := fold_left g (progress enc) app1) in *
    end.
    destruct (feed enc (frames app1)) as [fed loaded].
    destruct loaded; [destruct (outcome enc) as [size url|];
                      [destruct (PrimFloat.ltb 500 (size / 1024))|]|];
      cbn [fst frames canvasHolder set_isExporting set_complianceWarnings set_exportError];
      rewrite ?Pf, ?Ph, ?Hfs, ?Hh; now repeat split.
Qed.

(** *** Selecting a frame of the timeline *)

Variable loadFromJSON : UseCanvas.FCanvas -> string -> UseCanvas.FCanvas.
Variable load_events
  : UseCanvas.FCanvas -> string -> list (UseCanvas.FCanvas * UseCanvas.CanvasEvent).

Local Abbreviation onSelectFrame :=
  (AppOps.onSelectFrame toJSON loadFromJSON load_events).

Lemma find_appended (i : string) (fs : list Frame) (f : Frame) :
  (forall g, In g fs -> id g <> i) -> id f = i ->
  List.find (fun g => String.eqb (id g) i) (fs ++ [f]) = Some f.
Proof.
  intros Hfs Hf. induction fs as [|g fs IH]; cbn [Datatypes.app List.find].
  - replace (String.eqb (id f) i) with true by (symmetry; now apply String.eqb_eq).
    reflexivity.
  - replace (String.eqb (id g) i) with false
      by (symmetry; apply String.eqb_neq, Hfs; now left).
    apply IH. intros h Hh. apply Hfs. now right.
Qed.

(** Loading a snapshot of a canvas shows that canvas again. *)
Hypothesis toJSON_loadFromJSON :
  forall c c', toJSON (loadFromJSON c (toJSON c')) = toJSON c'.

(** X29.  A frame captured from the canvas, while no text is being
    edited, and selected later brings the content of the canvas back as
    it was captured (with nothing active), whatever was done on the
    canvas in between, provided no earlier frame carries the same id; the
    timeline is as the capture left it. *)
Theorem capture_then_select_restores
  (now : Z) (rnd : string) (app : AppState) (c : UseCanvas.FCanvas)
  (later : UseCanvas.State UseCanvas.FCanvas) :
  (length (frames app) < 10)%nat ->
  UseCanvas.canvas (canvasHolder app) = Some c ->
  Fabric.editing c = None ->
  (forall g, In g (frames app) -> id g <> fresh_id now rnd) ->
  UseCanvas.canvas later <> None ->
  let captured := snd (captureFrame now rnd app) in
  let app' := onSelectFrame (fresh_id now rnd) (set_canvasHolder later captured) in
  UseCanvas.getCanvasJSON toJSON (canvasHolder app')
  = toJSON (Fabric.discardActiveObject c)
  /\ frames app' = frames captured.
Proof.
  intros Hlt Ec _ Hfresh Hlater captured app'.
  destruct (captureFrame_below_cap now rnd app Hlt) as (f & Hfs & Hid & _ & _ & Hjson).
  fold captured in Hfs.
  assert (Hj : fabricJson f = toJSON (Fabric.discardActiveObject c)).
  { rewrite Hjson. unfold UseCanvas.exportPng. rewrite Ec. reflexivity. }
  destruct (UseCanvas.canvas later) as [c'|] eqn:El; [|congruence].
  subst app'. unfold AppOps.onSelectFrame.
  cbn [frames canvasHolder set_canvasHolder].
  rewrite Hfs, (find_appended (fresh_id now rnd) (frames app) f Hfresh Hid).
  cbn [frames canvasHolder set_canvasHolder].
  unfold UseCanvas.loadCanvasJSON. rewrite El.
  unfold UseCanvas.restore, UseCanvas.getCanvasJSON.
  cbn [UseCanvas.canvas UseCanvas.set_canvas].
  rewrite Hj, toJSON_loadFromJSON. now split.
Qed.

End ComponentMore.

(** ** Drag to reorder *)

Section DragMore.

Import UseFrames TimelineEditor.

Lemma move_frame_same {A : Type} (i : nat) (l : list A) :
  Spec.move_frame i i l = l.
Proof.
  unfold Spec.move_frame.
  destruct (nth_error l i) as [x|] eqn:Hx; [|reflexivity].
  destruct (nth_error_split l _ Hx) as (l1 & l2 & -> & <-).
  destruct (firstn_middle l1 x l2) as (Hf & _ & _ & Hs & _).
  rewrite Hf, Hs.
  rewrite firstn_app, Nat.sub_diag, firstn_all. cbn [firstn]. rewrite app_nil_r.
  rewrite skipn_app, Nat.sub_diag, skipn_all. reflexivity.
Qed.

Lemma dragOver_keeps_origin (overs : list Z) (st : DragState) :
  dragFromIndex (fold_left (fun s k => onDragOver k s) overs st) = dragFromIndex st.
Proof.
  revert st. induction overs as [|k overs IH]; intros st; [reflexivity|].
  cbn [fold_left]. now rewrite IH.
Qed.

(** X30.  A drag gesture of the timeline editor, from frame [i] over any
    frames to a drop on frame [j]: the drop clears the drag state and,
    unless [j] is [i], emits one 'reorder-frames' with the two indices.
    The timeline that results holds the frame of index [i] at index [j],
    no entry is [undefined], and it is a permutation of the frames. *)
Theorem drag_and_drop_moves_frame
  (i j : nat) (overs : list Z) (st : DragState) (fs : list Frame) :
  (i < length fs)%nat -> (j < length fs)%nat ->
  let gesture := fold_left (fun s k => onDragOver k s) overs
                   (onDragStart (Z.of_nat i) st) in
  let r := onDrop (Z.of_nat j) gesture in
  fst r = idle
  /\ snd r = (if (i =? j)%nat then None
              else Some (ReorderFrames (Z.of_nat i) (Z.of_nat j)))
  /\ deliver (snd r) fs = map Some (Spec.move_frame i j fs)
  /\ nth_error (Spec.move_frame i j fs) j = nth_error fs i
  /\ Permutation (Spec.move_frame i j fs) fs.
Proof.
  intros Hi Hj gesture r.
  assert (Hfrom : dragFromIndex gesture = Some (Z.of_nat i))
    by (subst gesture; now rewrite dragOver_keeps_origin).
  subst r. unfold onDrop. rewrite Hfrom.
  destruct (Nat.eqb_spec i j) as [<- | Hne].
  - rewrite Z.eqb_refl. cbn [fst snd deliver].
    split; [reflexivity|]. split; [reflexivity|].
    rewrite move_frame_same. split; [reflexivity|].
    split; [reflexivity | apply Permutation_refl].
  - destruct (Z.of_nat i =? Z.of_nat j)%Z eqn:E; [apply Z.eqb_eq in E; lia|].
    cbn [fst snd deliver].
    split; [reflexivity|]. split; [reflexivity|].
    split.
    + rewrite reorderFrames_move by lia. now rewrite !Nat2Z.id.
    + split; [now apply move_frame_lands | apply move_frame_Permutation].
Qed.

End DragMore.

(** The theorems of the component on the sample timelines. *)

Lemma duplicate_bypasses_cap_witness :
  let fs' := UseFrames.duplicateFrame 0 "0.k3x9q" "A" Sample.ten in
  (length Sample.ten = 10%nat
   /\ exists f, In f Sample.ten /\ UseFrames.id f = "A"%string)
  /\ length fs' = 11%nat
  /\ In "Too many frames (11/10). WeChat allows max 10 frames."%string
       (ComplianceChecker.warnings
          (ComplianceChecker.checkCompliance Sample.Number_toString fs' None))
  /\ ComplianceChecker.valid
       (ComplianceChecker.checkCompliance Sample.Number_toString fs' None) = false.
Proof.
  intros fs'.
  assert (Hl : length Sample.ten = 10%nat) by reflexivity.
  assert (Hex : exists f, In f Sample.ten /\ UseFrames.id f = "A"%string)
    by (exists Sample.A; split; [left; reflexivity | reflexivity]).
  split; [exact (conj Hl Hex)|].
  exact (duplicate_bypasses_cap Sample.Number_toString 0 "0.k3x9q" "A" Sample.ten Hl Hex).
Defined.

Lemma sample_images_load :
  forall f, In f (App.frames Sample.app_full) ->
            App.image_loads Sample.encoder (UseFrames.dataUrl f) = true.
Proof. intros f _. reflexivity. Defined.

Lemma sample_timeline_nonempty : App.frames Sample.app_full <> [].
Proof. discriminate. Defined.

Lemma export_delivers_gif_witness :
  let r := App.exportEmoji Sample.f_toDataURL Sample.Number_toString Sample.encoder
             Sample.app_full in
  (App.frames Sample.app_full <> []
   /\ (forall f, In f (App.frames Sample.app_full) ->
                 App.image_loads Sample.encoder (UseFrames.dataUrl f) = true)
   /\ App.outcome Sample.encoder = App.Finished 614400 "blob:emoji")
  /\ snd r = [App.RunComplianceCheck; App.EncoderNew 240 240 8 2]
             ++ AppOps.fed_frames (App.frames Sample.app_full)
             ++ [App.EncoderRender; App.CreateObjectURL;
                 App.Download "emoji.gif" "blob:emoji";
                 App.RevokeObjectURLLater "blob:emoji"]
  /\ App.isExporting (fst r) = false
  /\ App.exportError (fst r) = None.
Proof.
  intros r.
  assert (Ho : App.outcome Sample.encoder = App.Finished 614400 "blob:emoji")
    by reflexivity.
  split; [exact (conj sample_timeline_nonempty (conj sample_images_load Ho))|].
  pose proof (export_delivers_gif Sample.f_toDataURL Sample.Number_toString
                Sample.encoder Sample.app_full 614400 "blob:emoji"
                sample_timeline_nonempty sample_images_load Ho)
    as (Hc & Hx & He & _).
  exact (conj Hc (conj Hx He)).
Defined.

Lemma export_abort_records_error_witness :
  let r := App.exportEmoji Sample.f_toDataURL Sample.Number_toString
             LoadSamples.aborting Sample.app_full in
  (App.frames Sample.app_full <> []
   /\ (forall f, In f (App.frames Sample.app_full) ->
                 App.image_loads LoadSamples.aborting (UseFrames.dataUrl f) = true)
   /\ App.outcome LoadSamples.aborting = App.Aborted)
  /\ filter App.is_download (snd r) = []
  /\ App.exportError (fst r) = Some "GIF generation aborted"%string
  /\ App.isExporting (fst r) = false.
Proof.
  intros r.
  assert (Hl : forall f, In f (App.frames Sample.app_full) ->
                 App.image_loads LoadSamples.aborting (UseFrames.dataUrl f) = true)
    by (intros f _; reflexivity).
  assert (Ho : App.outcome LoadSamples.aborting = App.Aborted) by reflexivity.
  split; [exact (conj sample_timeline_nonempty (conj Hl Ho))|].
  pose proof (export_abort_records_error Sample.f_toDataURL Sample.Number_toString
                LoadSamples.aborting Sample.app_full sample_timeline_nonempty Hl Ho)
    as (Hd & _ & He & Hx & _).
  exact (conj Hd (conj He Hx)).
Defined.

Lemma export_stalls_on_unloadable_image_witness :
  let r := App.exportEmoji Sample.f_toDataURL Sample.Number_toString
             LoadSamples.never_loading Sample.app_full in
  (exists f, In f (App.frames Sample.app_full)
             /\ App.image_loads LoadSamples.never_loading (UseFrames.dataUrl f) = false)
  /\ App.isExporting (fst r) = true
  /\ App.exportError (fst r) = None
  /\ filter App.is_download (snd r) = []
  /\ ~ In App.EncoderRender (snd r).
Proof.
  intros r.
  assert (Hex : exists f, In f (App.frames Sample.app_full)
                  /\ App.image_loads LoadSamples.never_loading (UseFrames.dataUrl f) = false)
    by (exists Sample.A; split; [left; reflexivity | reflexivity]).
  split; [exact Hex|].
  exact (export_stalls_on_unloadable_image Sample.f_toDataURL Sample.Number_toString
           LoadSamples.never_loading Sample.app_full Hex).
Defined.

Lemma g_toJSON_loadFromJSON :
  forall c c', LoadSamples.g_toJSON (LoadSamples.g_loadFromJSON c (LoadSamples.g_toJSON c'))
               = LoadSamples.g_toJSON c'.
Proof.
  intros c c'. unfold LoadSamples.g_toJSON at 2 3.
  destruct (Fabric.objects c'); reflexivity.
Defined.

Lemma export_keeps_timeline_and_history_witness :
  let r := App.exportEmoji Sample.f_toDataURL Sample.Number_toString Sample.encoder
             Sample.app_empty in
  (App.frames Sample.app_empty = [] ->
   forall c, UseCanvas.canvas (App.canvasHolder Sample.app_empty) = Some c ->
             Fabric.editing c = None)
  /\ App.frames (fst r) = App.frames Sample.app_empty
  /\ UseCanvas._history (App.canvasHolder (fst r))
     = UseCanvas._history (App.canvasHolder Sample.app_empty)
  /\ UseCanvas._historyIndex (App.canvasHolder (fst r))
     = UseCanvas._historyIndex (App.canvasHolder Sample.app_empty).
Proof.
  intros r.
  assert (He : App.frames Sample.app_empty = [] ->
               forall c, UseCanvas.canvas (App.canvasHolder Sample.app_empty) = Some c ->
                         Fabric.editing c = None).
  { intros _ c Hc. vm_compute in Hc. injection Hc as <-. reflexivity. }
  split; [exact He|].
  exact (export_keeps_timeline_and_history Sample.f_toDataURL Sample.Number_toString
           Sample.encoder Sample.app_empty He).
Defined.

Lemma capture_then_select_restores_witness :
  let captured := snd (App.captureFrame LoadSamples.g_toJSON Sample.f_toDataURL
                         0 "0.k3x9q" Sample.app_empty) in
  let app' := AppOps.onSelectFrame LoadSamples.g_toJSON LoadSamples.g_loadFromJSON
                LoadSamples.g_load_events (UseFrames.fresh_id 0 "0.k3x9q")
                (App.set_canvasHolder Sample.shape_tool_chosen captured) in
  ((length (App.frames Sample.app_empty) < 10)%nat
   /\ UseCanvas.canvas (App.canvasHolder Sample.app_empty) = Some ToolSamples.holder_canvas
   /\ Fabric.editing ToolSamples.holder_canvas = None
   /\ (forall g, In g (App.frames Sample.app_empty) ->
                 UseFrames.id g <> UseFrames.fresh_id 0 "0.k3x9q")
   /\ UseCanvas.canvas Sample.shape_tool_chosen <> None)
  /\ UseCanvas.getCanvasJSON LoadSamples.g_toJSON (App.canvasHolder app')
     = LoadSamples.g_toJSON (Fabric.discardActiveObject ToolSamples.holder_canvas)
  /\ App.frames app' = App.frames captured.
Proof.
  intros captured app'.
  assert (Hlt : (length (App.frames Sample.app_empty) < 10)%nat)
    by (vm_compute; repeat constructor).
  assert (Hc : UseCanvas.canvas (App.canvasHolder Sample.app_empty)
               = Some ToolSamples.holder_canvas) by (vm_compute; reflexivity).
  assert (He : Fabric.editing ToolSamples.holder_canvas = None)
    by (vm_compute; reflexivity).
  assert (Hfresh : forall g, In g (App.frames Sample.app_empty) ->
                     UseFrames.id g <> UseFrames.fresh_id 0 "0.k3x9q")
    by (intros g []).
  assert (Hlater : UseCanvas.canvas Sample.shape_tool_chosen <> None)
    by (vm_compute; discriminate).
  split; [exact (conj Hlt (conj Hc (conj He (conj Hfresh Hlater))))|].
  exact (capture_then_select_restores LoadSamples.g_toJSON Sample.f_toDataURL
           LoadSamples.g_loadFromJSON LoadSamples.g_load_events
           g_toJSON_loadFromJSON 0 "0.k3x9q" Sample.app_empty
           ToolSamples.holder_canvas Sample.shape_tool_chosen Hlt Hc He Hfresh Hlater).
Defined.

Lemma drag_and_drop_moves_frame_witness :
  let fs := [Sample.A; Sample.B; Sample.C; Sample.D] in
  let gesture := fold_left (fun s k => TimelineEditor.onDragOver k s) [1%Z; 2%Z]
                   (TimelineEditor.onDragStart (Z.of_nat 0) TimelineEditor.idle) in
  let r := TimelineEditor.onDrop (Z.of_nat 2) gesture in
  ((0 < length fs)%nat /\ (2 < length fs)%nat)
  /\ fst r = TimelineEditor.idle
  /\ TimelineEditor.deliver (snd r) fs = map Some (Spec.move_frame 0 2 fs)
  /\ nth_error (Spec.move_frame 0 2 fs) 2 = nth_error fs 0.
Proof.
  intros fs gesture r.
  assert (H0 : (0 < length fs)%nat) by (vm_compute; repeat constructor).
  assert (H2 : (2 < length fs)%nat) by (vm_compute; repeat constructor).
  split; [exact (conj H0 H2)|].
  pose proof (drag_and_drop_moves_frame 0 2 [1%Z; 2%Z] TimelineEditor.idle fs H0 H2)
    as (Hi & _ & Hd & Hn & _).
  exact (conj Hi (conj Hd Hn)).
Defined.
